(** * TruthScan: a shallow embedding of [truthscan.py]

    The Python class [TruthScan] is embedded as state-passing functions over
    an explicit process state (random-number position, clock position, log,
    written files, and the [results] dictionary of the object).  Everything
    the program obtains from outside (pseudo-random draws, the wall clock,
    HTTP responses, the file system) is read from a [world] of oracles, so
    every theorem quantifies over all behaviours of the environment.

    Python dictionaries and lists are kept as they are in the source: a
    [value] is a JSON-like tree and every record the program builds is a
    [VDict] holding its keys in insertion order.

    Layout: the modules [Py], [Calendar], [Env] and [Random] model the
    Python primitives the program calls; [TruthScan] is the class, method
    by method; [Spec] holds the vocabulary of the statements and [Props]
    the vocabulary of the further properties; the lemmas and the theorems
    of the claims C1 to C10 follow, then the further properties X1 to X23
    of the program. *)

From Stdlib Require Import ZArith QArith List String Ascii Bool Lia Arith.
From Stdlib Require Import DecimalString Lqa.
Import ListNotations.

Local Open Scope string_scope.
Local Open Scope Z_scope.
Set Warnings "-register-all".

(* ================================================================== *)
(** ** Python primitives used by the program *)

Module Py.

(** Python values as they end up in [self.results].  A float is kept as
    the text [repr] prints for it (the source only formats floats). *)
Inductive value : Type :=
| VNone
| VBool (b : bool)
| VInt (z : Z)
| VFloat (repr : string)
| VStr (s : string)
| VList (l : list value)
| VDict (d : list (string * value)).

(** [d[k]] read: the binding of [k], if any. *)
Fixpoint dict_get {A : Type} (k : string) (d : list (string * A))
  : option A :=
  match d with
  | [] => None
  | (k', v) :: d' => if String.eqb k k' then Some v else dict_get k d'
  end.

(** [d[k] = v]: an existing key keeps its position and takes the new
    value, a new key goes last (insertion order). *)
Fixpoint dict_set {A : Type} (k : string) (v : A) (d : list (string * A))
  : list (string * A) :=
  match d with
  | [] => [(k, v)]
  | (k', v') :: d' =>
      if String.eqb k k' then (k', v) :: d' else (k', v') :: dict_set k v d'
  end.

(** A dict display [{k1: v1, ..., kn: vn}] evaluates its items left to
    right, each one stored with [dict_set]. *)
Definition dict_literal {A : Type} (items : list (string * A))
  : list (string * A) :=
  fold_left (fun d kv => dict_set (fst kv) (snd kv) d) items [].

(** [str(n)] for an int. *)
Definition str_of_Z (z : Z) : string := NilZero.string_of_int (Z.to_int z).

(** [len(l)] *)
Definition len {A : Type} (l : list A) : Z := Z.of_nat (List.length l).

(** [sub in s] *)
Fixpoint contains (sub s : string) : bool :=
  String.prefix sub s ||
  match s with
  | EmptyString => false
  | String _ s' => contains sub s'
  end.

Fixpoint replace_from (old new s : string) (skip : nat) : string :=
  match s with
  | EmptyString => EmptyString
  | String c s' =>
      match skip with
      | S k => replace_from old new s' k
      | O =>
          if String.prefix old s
          then new ++ replace_from old new s' (String.length old - 1)
          else String c (replace_from old new s' 0)
      end
  end.

Fixpoint intersperse (new s : string) : string :=
  match s with
  | EmptyString => new
  | String c s' => new ++ String c (intersperse new s')
  end.

(** [s.replace(old, new)]: every non-overlapping occurrence, left to
    right. *)
Definition replace (old new s : string) : string :=
  match old with
  | EmptyString => intersperse new s
  | _ => replace_from old new s 0
  end.

Definition lower_ascii (c : ascii) : ascii :=
  let n := nat_of_ascii c in
  if (65 <=? n)%nat && (n <=? 90)%nat then ascii_of_nat (n + 32) else c.

(** [s.lower()] on the ASCII range (the search terms are ASCII). *)
Fixpoint lower (s : string) : string :=
  match s with
  | EmptyString => EmptyString
  | String c s' => String (lower_ascii c) (lower s')
  end.

Definition is_space (c : ascii) : bool :=
  let n := nat_of_ascii c in
  ((9 <=? n)%nat && (n <=? 13)%nat) || ((28 <=? n)%nat && (n <=? 32)%nat).

Fixpoint lstrip (s : string) : string :=
  match s with
  | EmptyString => EmptyString
  | String c s' => if is_space c then lstrip s' else s
  end.

Fixpoint rstrip (s : string) : string :=
  match s with
  | EmptyString => EmptyString
  | String c s' =>
      match rstrip s' with
      | EmptyString => if is_space c then EmptyString else String c EmptyString
      | r => String c r
      end
  end.

(** [s.strip()], for the ASCII white space. *)
Definition strip (s : string) : string := rstrip (lstrip s).

Definition hex_digit (n : nat) : ascii :=
  if (n <? 10)%nat then ascii_of_nat (48 + n) else ascii_of_nat (55 + n).

Definition quote_safe (c : ascii) : bool :=
  let n := nat_of_ascii c in
  ((48 <=? n)%nat && (n <=? 57)%nat) ||
  ((65 <=? n)%nat && (n <=? 90)%nat) ||
  ((97 <=? n)%nat && (n <=? 122)%nat) ||
  (n =? 95)%nat || (n =? 46)%nat || (n =? 45)%nat || (n =? 126)%nat ||
  (n =? 47)%nat.

(** [urllib.parse.quote(s)] with the default [safe='/'], on the UTF-8
    bytes of [s]. *)
Fixpoint quote (s : string) : string :=
  match s with
  | EmptyString => EmptyString
  | String c s' =>
      if quote_safe c then String c (quote s')
      else
        let n := nat_of_ascii c in
        String "%" (String (hex_digit (n / 16))
                      (String (hex_digit (n mod 16)) (quote s')))
  end.

(** The double-quote character. *)
Definition dq : string := String (ascii_of_nat 34) EmptyString.

(** A line break. *)
Definition nl : string := String (ascii_of_nat 10) EmptyString.

(** [s.zfill(w)] for an unsigned numeral. *)
Fixpoint zeros (n : nat) : string :=
  match n with
  | O => EmptyString
  | S k => String "0" (zeros k)
  end.

Definition zfill (w : nat) (s : string) : string :=
  zeros (w - String.length s) ++ s.

(** Exceptions: the class and the message [str(e)] shows. *)
Inductive exn_class : Type :=
| ValueError | OverflowError | IndexError | KeyError | TypeError | OSError
| RequestException | OtherException.

Record exn := Exn { exn_kind : exn_class; exn_msg : string }.

End Py.

(* ================================================================== *)
(** ** Calendar arithmetic of [datetime] *)

Module Calendar.

Definition MINORDINAL : Z := 1.
Definition MAXORDINAL : Z := 3652059.   (* date(9999, 12, 31).toordinal() *)

Definition DAYS_IN_MONTH : list Z :=
  [-1; 31; 28; 31; 30; 31; 30; 31; 31; 30; 31; 30; 31].
Definition DAYS_BEFORE_MONTH : list Z :=
  [-1; 0; 31; 59; 90; 120; 151; 181; 212; 243; 273; 304; 334].

Definition DI400Y : Z := 146097.
Definition DI100Y : Z := 36524.
Definition DI4Y : Z := 1461.

(** [_ord2ymd]: proleptic Gregorian ordinal to (year, month, day). *)
Definition ord2ymd (ordinal : Z) : Z * Z * Z :=
  let n := ordinal - 1 in
  let n400 := n / DI400Y in
  let n := n mod DI400Y in
  let year := n400 * 400 + 1 in
  let n100 := n / DI100Y in
  let n := n mod DI100Y in
  let n4 := n / DI4Y in
  let n := n mod DI4Y in
  let n1 := n / 365 in
  let n := n mod 365 in
  let year := year + n100 * 100 + n4 * 4 + n1 in
  if (n1 =? 4) || (n100 =? 4) then (year - 1, 12, 31)
  else
    let leapyear := (n1 =? 3) && (negb (n4 =? 24) || (n100 =? 3)) in
    let month := Z.shiftr (n + 50) 5 in
    let preceding :=
      nth (Z.to_nat month) DAYS_BEFORE_MONTH 0
      + (if (2 <? month) && leapyear then 1 else 0) in
    if n <? preceding then
      let month := month - 1 in
      let preceding :=
        preceding - (nth (Z.to_nat month) DAYS_IN_MONTH 0
                     + (if (month =? 2) && leapyear then 1 else 0)) in
      (year, month, n - preceding + 1)
    else (year, month, n - preceding + 1).

(** A [datetime]: the day as its ordinal, and the time of day. *)
Record datetime := {
  dt_ordinal : Z;
  dt_hour : Z;
  dt_minute : Z;
  dt_second : Z
}.

(** [strftime('%Y-%m-%d')] of the day with the given ordinal. *)
Definition strftime_ymd (ordinal : Z) : string :=
  let '(y, m, d) := ord2ymd ordinal in
  Py.zfill 4 (Py.str_of_Z y) ++ "-" ++ Py.zfill 2 (Py.str_of_Z m)
    ++ "-" ++ Py.zfill 2 (Py.str_of_Z d).

(** [strftime('%Y-%m-%d %H:%M:%S')] *)
Definition strftime_ymd_hms (t : datetime) : string :=
  strftime_ymd (dt_ordinal t) ++ " "
    ++ Py.zfill 2 (Py.str_of_Z (dt_hour t)) ++ ":"
    ++ Py.zfill 2 (Py.str_of_Z (dt_minute t)) ++ ":"
    ++ Py.zfill 2 (Py.str_of_Z (dt_second t)).

End Calendar.

(* ================================================================== *)
(** ** The environment and the process state *)

Module Env.
Import Py Calendar.

(** One [div.timeline-item] of a result page, as the three lookups of
    the scraper see it: the text of its [a.username], the text of its
    [div.tweet-content], and, when it has a [span.tweet-date] holding an
    [a], the [title] attribute of that link ([None] when absent). *)
Record tweet_div := {
  a_username : option string;
  div_tweet_content : option string;
  tweet_date_title : option (option string)
}.

(** What [requests.get] followed by the markup parse gives for a URL. *)
Inductive http_outcome : Type :=
| HttpRaises (e : exn)
| HttpResponse (status_code : Z) (timeline_items : list tweet_div).

(** The oracles of one run. *)
Record world := {
  (** the n-th raw draw of the pseudo-random generator *)
  rand_tape : nat -> N;
  (** the n-th reading of [datetime.now()] *)
  clock : nat -> datetime;
  (** the network *)
  http_get : string -> http_outcome;
  (** [os.path.exists] *)
  path_exists : string -> bool;
  (** creating a directory or writing a file at a path: [Some e] when
      the operating system refuses *)
  fs_error : string -> option exn
}.

Inductive level : Type := INFO | WARNING | ERROR.

Inductive file_content : Type :=
| Text (s : string)
| Json (v : value)
| Image (lines : list string).

(** The [results] dictionary of the object; its four collections are
    Python lists of dictionaries. *)
Record results_t := {
  tool : string;
  version : string;
  r_claim : string;
  analysis_date : string;
  satellite_analysis : list value;
  flight_data : list value;
  military_movements : list value;
  social_media : list value
}.

Definition no_results : results_t :=
  {| tool := ""; version := ""; r_claim := ""; analysis_date := "";
     satellite_analysis := []; flight_data := []; military_movements := [];
     social_media := [] |}.

Record state := {
  rng_pos : nat;
  clock_pos : nat;
  log : list (level * string);
  dirs : list string;
  files : list (string * file_content);
  results : results_t
}.

Definition initial_state : state :=
  {| rng_pos := 0; clock_pos := 0; log := []; dirs := []; files := [];
     results := no_results |}.

(** Computations: an exception or a value, and the state reached. *)
Definition M (A : Type) : Type := world -> state -> (exn + A) * state.

Definition ret {A : Type} (a : A) : M A := fun _ st => (inr a, st).

Definition bind {A B : Type} (m : M A) (k : A -> M B) : M B :=
  fun w st =>
    match m w st with
    | (inr a, st') => k a w st'
    | (inl e, st') => (inl e, st')
    end.

Definition raise {A : Type} (e : exn) : M A := fun _ st => (inl e, st).

(** [try: body except Exception as e: handler(e)] *)
Definition try_except {A : Type} (body : M A) (handler : exn -> M A) : M A :=
  fun w st =>
    match body w st with
    | (inr a, st') => (inr a, st')
    | (inl e, st') => handler e w st'
    end.

Definition ask : M world := fun w st => (inr w, st).

Declare Scope py_scope.
Delimit Scope py_scope with py.
Notation "x <- m ;; k" := (bind m (fun x => k))
  (at level 61, m at next level, right associativity) : py_scope.
Notation "m ;;; k" := (bind m (fun _ => k))
  (at level 61, right associativity) : py_scope.
Local Open Scope py_scope.

(** [for x in xs: body(x)] *)
Fixpoint for_each {A : Type} (xs : list A) (body : A -> M unit) : M unit :=
  match xs with
  | [] => ret tt
  | x :: xs' => body x ;;; for_each xs' body
  end.

(** [for i in range(n)] collecting what each round appends. *)
Fixpoint repeat_collect {A : Type} (n : nat) (i : Z) (body : Z -> M A)
  : M (list A) :=
  match n with
  | O => ret []
  | S k =>
      x <- body i ;;
      xs <- repeat_collect k (i + 1) body ;;
      ret (x :: xs)
  end.

Definition logger (lvl : level) (msg : string) : M unit :=
  fun _ st =>
    (inr tt,
     {| rng_pos := rng_pos st; clock_pos := clock_pos st;
        log := log st ++ [(lvl, msg)]; dirs := dirs st;
        files := files st; results := results st |}).

Definition set_results (r : results_t) : M unit :=
  fun _ st =>
    (inr tt,
     {| rng_pos := rng_pos st; clock_pos := clock_pos st; log := log st;
        dirs := dirs st; files := files st; results := r |}).

Definition get_results : M results_t := fun _ st => (inr (results st), st).

(** [datetime.now()] *)
Definition now : M datetime :=
  fun w st =>
    (inr (clock w (clock_pos st)),
     {| rng_pos := rng_pos st; clock_pos := S (clock_pos st);
        log := log st; dirs := dirs st; files := files st;
        results := results st |}).

(** [t - timedelta(days=k)]; both the [timedelta] and the difference
    have a limited range. *)
Definition minus_days (t : datetime) (k : Z) : M datetime :=
  if 999999999 <? Z.abs k
  then raise (Exn OverflowError "days out of range for timedelta")
  else
    let o := dt_ordinal t - k in
    if (MINORDINAL <=? o) && (o <=? MAXORDINAL)
    then ret {| dt_ordinal := o; dt_hour := dt_hour t;
                dt_minute := dt_minute t; dt_second := dt_second t |}
    else raise (Exn OverflowError "date value out of range").

(** Writing a file with [open(path, 'w')]. *)
Definition write_file (path : string) (c : file_content) : M unit :=
  fun w st =>
    match fs_error w path with
    | Some e => (inl e, st)
    | None =>
        (inr tt,
         {| rng_pos := rng_pos st; clock_pos := clock_pos st;
            log := log st; dirs := dirs st;
            files := files st ++ [(path, c)]; results := results st |})
    end.

(** [os.makedirs(path)] *)
Definition makedirs (path : string) : M unit :=
  fun w st =>
    match fs_error w path with
    | Some e => (inl e, st)
    | None =>
        (inr tt,
         {| rng_pos := rng_pos st; clock_pos := clock_pos st;
            log := log st; dirs := dirs st ++ [path];
            files := files st; results := results st |})
    end.

End Env.

(* ================================================================== *)
(** ** The [random] module *)

Module Random.
Import Py Env.
Local Open Scope py_scope.

(** The next raw output of the generator. *)
Definition draw : M N :=
  fun w st =>
    (inr (rand_tape w (rng_pos st)),
     {| rng_pos := S (rng_pos st); clock_pos := clock_pos st;
        log := log st; dirs := dirs st; files := files st;
        results := results st |}).

(** [_randbelow(n)] for [n > 0]: some integer of [0 .. n-1]. *)
Definition randbelow (n : Z) : M Z :=
  r <- draw ;; ret (Z.of_N r mod n).

(** [random.randrange(start, stop)] *)
Definition randrange (start stop : Z) : M Z :=
  let width := stop - start in
  if 0 <? width
  then r <- randbelow width ;; ret (start + r)
  else raise (Exn ValueError "empty range for randrange()").

(** [random.randint(a, b)]: both ends included. *)
Definition randint (a b : Z) : M Z := randrange a (b + 1).

(** [random.choice(seq)] *)
Definition choice {A : Type} (seq : list A) : M A :=
  match seq with
  | [] => raise (Exn IndexError "Cannot choose from an empty sequence")
  | _ =>
      i <- randbelow (len seq) ;;
      match nth_error seq (Z.to_nat i) with
      | Some x => ret x
      | None => raise (Exn IndexError "list index out of range")
      end
  end.

(** [random.random()]: a multiple of 2^-53 in [0, 1). *)
Definition random : M Q :=
  r <- draw ;; ret (Qmake (Z.of_N r mod 2 ^ 53) (2 ^ 53)).

(** [itertools.accumulate(weights)] *)
Fixpoint accumulate (acc : Q) (ws : list Q) : list Q :=
  match ws with
  | [] => []
  | w :: ws' => let acc' := Qplus acc w in acc' :: accumulate acc' ws'
  end.

(** [bisect(a, x, 0, hi)] on an ascending table: how many of its first
    [hi] entries are [<= x]. *)
Fixpoint bisect (a : list Q) (x : Q) (hi : nat) : nat :=
  match hi, a with
  | S h, c :: a' => if Qle_bool c x then S (bisect a' x h) else O
  | _, _ => O
  end.

(** [random.choices(population, weights=weights)[0]] *)
Definition choices1 {A : Type} (population : list A) (weights : list Q)
  : M A :=
  let cum_weights := accumulate 0%Q weights in
  if negb (List.length cum_weights =? List.length population)%nat
  then raise (Exn ValueError
                "The number of weights does not match the population")
  else
    let total := last cum_weights 0%Q in
    if Qle_bool total 0%Q
    then raise (Exn ValueError "Total of weights must be greater than zero")
    else
      u <- random ;;
      let hi := (List.length population - 1)%nat in
      match nth_error population (bisect cum_weights (Qmult u total) hi) with
      | Some x => ret x
      | None => raise (Exn IndexError "list index out of range")
      end.

End Random.

(* ================================================================== *)
(** ** The class [TruthScan] *)

Module TruthScan.
Import Py Calendar Env Random.
Local Open Scope py_scope.

Definition TRUTHSCAN_LOGO : string := "
████████╗██████╗ ██╗   ██╗████████╗██╗  ██╗███████╗ ██████╗ █████╗ ███╗   ██╗
╚══██╔══╝██╔══██╗██║   ██║╚══██╔══╝██║  ██║██╔════╝██╔════╝██╔══██╗████╗  ██║
   ██║   ██████╔╝██║   ██║   ██║   ███████║███████╗██║     ███████║██╔██╗ ██║
   ██║   ██╔══██╗██║   ██║   ██║   ██╔══██║╚════██║██║     ██╔══██║██║╚██╗██║
   ██║   ██║  ██║╚██████╔╝   ██║   ██║  ██║███████║╚██████╗██║  ██║██║ ╚████║
   ╚═╝   ╚═╝  ╚═╝ ╚═════╝    ╚═╝   ╚═╝  ╚═╝╚══════╝ ╚═════╝╚═╝  ╚═╝╚═╝  ╚═══╝
                                                                                
█▀▀█ █▀▀ █▀▀ ▀█▀ █▀▀ █▀▀█ █▀▀█ ▀▀█▀▀ █▀▀ 　 █▀▀ █── █▀▀█ ░▀░ █▀▄▀█ 　 █▀▀█ █▀▀ █▀▀ █▀▀ █▀▀ █▀▀ █▀▄▀█ █▀▀ █▀▀▄ ▀▀█▀▀ 
█▄▄█ █░░ █░░ ░█░ █▀▀ █░░░ █▄▄▀ ░░█░░ █▀▀ 　 █░░ █░░ █▄▄█ ▀█▀ █░▀░█ 　 █▄▄█ ▀▀█ ▀▀█ █▀▀ ▀▀█ ▀▀█ █░▀░█ █▀▀ █░░█ ░░█░░ 
▀░░▀ ▀▀▀ ▀▀▀ ▀▀▀ ▀░░ ▀▀▀▀ ▀░▀▀ ░░▀░░ ▀▀▀ 　 ▀▀▀ ▀▀▀ ▀░░▀ ▀▀▀ ▀░░░▀ 　 ▀░░▀ ▀▀▀ ▀▀▀ ▀▀▀ ▀▀▀ ▀▀▀ ▀░░░▀ ▀▀▀ ▀░░▀ ░░▀░░
".

(** The attributes [__init__] assigns once; [self.results] lives in the
    process state because the methods mutate it. *)
Record self_t := {
  claim : string;
  days : Z;
  include_synthetic : bool;
  start_date : string;
  end_date : string
}.

(** [{"start": self.start_date, "end": self.end_date}] *)
Definition date_range (self : self_t) : value :=
  VDict [("start", VStr (start_date self)); ("end", VStr (end_date self))].

Definition init (claim : string) (days : Z) (include_synthetic : bool)
  : M self_t :=
  t <- now ;;
  t_start <- minus_days t days ;;
  let start_date := strftime_ymd (dt_ordinal t_start) in
  t_end <- now ;;
  let end_date := strftime_ymd (dt_ordinal t_end) in
  t_run <- now ;;
  set_results
    {| tool := "TruthScan"; version := "1.0.0"; r_claim := claim;
       analysis_date := strftime_ymd_hms t_run;
       satellite_analysis := []; flight_data := [];
       military_movements := []; social_media := [] |} ;;;
  for_each ["analysis_results"; "satellite_images"; "military_data"]
    (fun dir_path =>
       w <- ask ;;
       if negb (path_exists w dir_path) then makedirs dir_path else ret tt) ;;;
  ret {| claim := claim; days := days;
         include_synthetic := include_synthetic;
         start_date := start_date; end_date := end_date |}.

(** *** Satellite phase *)

Record site_t := { site_name : string; site_lat : string; site_lng : string }.

Definition nuclear_sites : list site_t :=
  [ {| site_name := "Kahuta (Khan Research Laboratories)";
       site_lat := "33.591"; site_lng := "73.382" |};
    {| site_name := "Khushab Nuclear Complex";
       site_lat := "32.033"; site_lng := "72.2" |};
    {| site_name := "Chashma Nuclear Power Plant";
       site_lat := "32.392"; site_lng := "71.458" |};
    {| site_name := "Karachi Nuclear Power Plant (KANUPP)";
       site_lat := "24.842"; site_lng := "66.792" |};
    {| site_name := "Kundian Nuclear Complex";
       site_lat := "32.448"; site_lng := "71.478" |} ].

Definition site_coordinates (site : site_t) : value :=
  VList [VFloat (site_lat site); VFloat (site_lng site)].

Definition _create_satellite_placeholder (self : self_t)
    (site_name lat lng output_path sentinel_url google_url : string)
  : M unit :=
  let lines :=
    [ "Site: " ++ site_name;
      "Coordinates: " ++ lat ++ ", " ++ lng;
      "Date Range: " ++ start_date self ++ " to " ++ end_date self;
      "";
      "FREE SATELLITE IMAGERY SOURCES:";
      "";
      "Sentinel Hub EO Browser (10m resolution):";
      sentinel_url;
      "";
      "Google Maps Satellite View:";
      google_url;
      "";
      "ANALYSIS TIPS:";
      "- Compare with historical imagery when available";
      "- Look for new craters, debris fields, or structural damage";
      "- Check for smoke plumes or fire damage";
      "- Examine access roads for increased activity" ] in
  write_file output_path (Image lines) ;;;
  logger INFO ("Created satellite imagery placeholder: " ++ output_path).

Definition append_satellite (v : value) : M unit :=
  r <- get_results ;;
  set_results
    {| tool := tool r; version := version r; r_claim := r_claim r;
       analysis_date := analysis_date r;
       satellite_analysis := satellite_analysis r ++ [v];
       flight_data := flight_data r;
       military_movements := military_movements r;
       social_media := social_media r |}.

(** The body of the [try] for one site. *)
Definition analyze_site (self : self_t) (site : site_t) : M unit :=
  logger INFO ("Analyzing satellite imagery for " ++ site_name site) ;;;
  let sentinel_url :=
    "https://apps.sentinel-hub.com/eo-browser/?zoom=13&lat=" ++ site_lat site
      ++ "&lng=" ++ site_lng site ++ "&themeId=DEFAULT-THEME" in
  let google_url :=
    "https://www.google.com/maps/@" ++ site_lat site ++ "," ++ site_lng site
      ++ ",1000m/data=!3m1!1e3" in
  let placeholder_path :=
    "satellite_images/" ++ replace " " "_" (site_name site) ++ "_"
      ++ end_date self ++ "_free.jpg" in
  _create_satellite_placeholder self (site_name site) (site_lat site)
    (site_lng site) placeholder_path sentinel_url google_url ;;;
  append_satellite
    (VDict
       [ ("site_name", VStr (site_name site));
         ("coordinates", site_coordinates site);
         ("date_range", date_range self);
         ("satellite_sources",
          VList
            [ VDict [ ("name", VStr "Sentinel Hub (free)");
                      ("url", VStr sentinel_url);
                      ("notes",
                       VStr "10m resolution imagery, requires manual review") ];
              VDict [ ("name", VStr "Google Maps Satellite");
                      ("url", VStr google_url);
                      ("notes",
                       VStr "Historical imagery may be available through time slider") ] ]);
         ("placeholder_image", VStr placeholder_path);
         ("analysis_tip",
          VStr "Look for new craters, debris, fire damage, or structural changes") ]).

Definition analyze_satellite_imagery (self : self_t) : M unit :=
  logger INFO "Analyzing satellite imagery..." ;;;
  for_each nuclear_sites
    (fun site =>
       try_except (analyze_site self site)
         (fun e =>
            logger ERROR ("Error analyzing satellite imagery for "
                          ++ site_name site ++ ": " ++ exn_msg e))) ;;;
  logger INFO ("Analyzed " ++ str_of_Z (len nuclear_sites) ++ " nuclear sites").

(** *** Flight phase *)

Record area_t := { area_name : string; area_bounds : string }.

Definition areas : list area_t :=
  [ {| area_name := "Kahuta Region"; area_bounds := "33.5-33.7,73.3-73.5" |};
    {| area_name := "Rawalpindi Air Base";
       area_bounds := "33.6-33.65,73.0-73.1" |};
    {| area_name := "Indian Border Area (Punjab)";
       area_bounds := "32.0-33.0,74.5-75.0" |} ].

Definition flight_free_sources : value :=
  VList
    [ VDict [ ("name", VStr "ADS-B Exchange");
              ("url", VStr "https://globe.adsbexchange.com/");
              ("notes",
               VStr "Filter for military aircraft using ICAO ranges or 'Military' filter");
              ("type", VStr "free web interface") ];
      VDict [ ("name", VStr "Flightradar24 Free Tier");
              ("url", VStr "https://www.flightradar24.com/");
              ("notes",
               VStr "Limited history but shows current military transponders");
              ("type", VStr "free tier with limitations") ];
      VDict [ ("name", VStr "RadarBox Free");
              ("url", VStr "https://www.radarbox.com/");
              ("notes",
               VStr "Some military flights visible when transponders active");
              ("type", VStr "limited free access") ] ].

Definition mil_aircraft : list string :=
  ["C-130"; "F-16"; "MiG-29"; "Su-30MKI"; "Mi-17"; "CH-47"; "P-8I"; "E-2C"].

(** [(datetime.now() - timedelta(days=random.randint(0, self.days)))
    .strftime('%Y-%m-%d')] *)
Definition random_date (self : self_t) : M string :=
  t <- now ;;
  k <- randint 0 (days self) ;;
  d <- minus_days t k ;;
  ret (strftime_ymd (dt_ordinal d)).

Definition _generate_synthetic_flight_data (self : self_t)
    (area_name : string) : M (list value) :=
  repeat_collect 5 0
    (fun i =>
       let is_unusual := (i =? 0) in
       date <- random_date self ;;
       aircraft_type <- choice mil_aircraft ;;
       altitude <- (if negb is_unusual then randint 15000 35000
                    else randint 5000 10000) ;;
       speed <- (if negb is_unusual then randint 350 500
                 else randint 200 350) ;;
       ret (VDict
              [ ("date", VStr date);
                ("aircraft_type", VStr aircraft_type);
                ("altitude", VInt altitude);
                ("speed", VInt speed);
                ("pattern",
                 VStr (if negb is_unusual then "Standard transit"
                       else "Unusual circling pattern"));
                ("transponder",
                 VStr (if negb is_unusual then "Active" else "Intermittent"));
                ("notes",
                 VStr (if negb is_unusual then "Normal military movement"
                       else "Unusual activity - requires verification"));
                ("synthetic", VBool true) ])).

Definition set_flight_data (l : list value) : M unit :=
  r <- get_results ;;
  set_results
    {| tool := tool r; version := version r; r_claim := r_claim r;
       analysis_date := analysis_date r;
       satellite_analysis := satellite_analysis r;
       flight_data := l;
       military_movements := military_movements r;
       social_media := social_media r |}.

(** [l[-1][k] = v] *)
Fixpoint set_in_last (k : string) (v : value) (l : list value)
  : option (list value) :=
  match l with
  | [] => None
  | [VDict d] => Some [VDict (dict_set k v d)]
  | [_] => None
  | x :: l' => option_map (cons x) (set_in_last k v l')
  end.

Definition analyze_area (self : self_t) (area : area_t) : M unit :=
  logger INFO ("Collecting flight data for " ++ area_name area) ;;;
  r <- get_results ;;
  set_flight_data
    (flight_data r ++
     [ VDict
         [ ("area", VStr (area_name area));
           ("geographic_bounds", VStr (area_bounds area));
           ("date_range", date_range self);
           ("free_data_sources", flight_free_sources);
           ("analysis_tips",
            VList
              [ VStr "Look for unusual flight patterns or military aircraft";
                VStr "Search for no-fly zones or airspace restrictions";
                VStr "Monitor periods of no civilian traffic";
                VStr "Check for helicopters or special operations aircraft" ]) ] ]) ;;;
  if include_synthetic self then
    synthetic_flights <- _generate_synthetic_flight_data self (area_name area) ;;
    r <- get_results ;;
    match set_in_last "synthetic_sample_data" (VList synthetic_flights)
            (flight_data r) with
    | Some l => set_flight_data l
    | None => raise (Exn IndexError "list index out of range")
    end ;;;
    logger INFO ("Added " ++ str_of_Z (len synthetic_flights)
                 ++ " synthetic flight entries for " ++ area_name area)
  else ret tt.

Definition analyze_flight_data (self : self_t) : M unit :=
  logger INFO "Analyzing flight data..." ;;;
  for_each areas (analyze_area self) ;;;
  logger INFO ("Flight data analysis completed for "
               ++ str_of_Z (len areas) ++ " areas").

(** *** Military phase *)

Record base_t := {
  base_name : string;
  base_type : string;
  base_lat : string;
  base_lng : string
}.

Definition bases : list base_t :=
  [ {| base_name := "Sargodha Air Base"; base_type := "Pakistani Air Force";
       base_lat := "32.0493"; base_lng := "72.6719" |};
    {| base_name := "Kamra Air Base"; base_type := "Pakistani Air Force";
       base_lat := "33.8709"; base_lng := "72.4007" |};
    {| base_name := "Masroor Air Base"; base_type := "Pakistani Air Force";
       base_lat := "24.8897"; base_lng := "66.9381" |};
    {| base_name := "Pathankot Air Base"; base_type := "Indian Air Force";
       base_lat := "32.2346"; base_lng := "75.6343" |};
    {| base_name := "Adampur Air Base"; base_type := "Indian Air Force";
       base_lat := "31.4336"; base_lng := "75.7686" |} ].

Record activity_t := { act_type : string; act_significance : string }.

Definition activities : list activity_t :=
  [ {| act_type := "Normal operations"; act_significance := "Low" |};
    {| act_type := "Training exercise"; act_significance := "Low" |};
    {| act_type := "Increased readiness"; act_significance := "Medium" |};
    {| act_type := "Alert status change"; act_significance := "Medium" |};
    {| act_type := "Unusual deployment"; act_significance := "High" |} ].

(** [[0.4, 0.3, 0.15, 0.1, 0.05]], the decimals taken exactly. *)
Definition weights : list Q :=
  [ Qmake 4 10; Qmake 3 10; Qmake 15 100; Qmake 1 10; Qmake 5 100 ].

Definition _generate_synthetic_military_data (self : self_t)
    (base_name base_type : string) : M (list value) :=
  repeat_collect 5 0
    (fun i =>
       activity_type <- choices1 activities weights ;;
       date <- random_date self ;;
       ret (VDict
              [ ("date", VStr date);
                ("type", VStr (act_type activity_type));
                ("significance", VStr (act_significance activity_type));
                ("description",
                 VStr (act_type activity_type ++ " observed at " ++ base_name));
                ("confidence", VStr "Medium - requires verification");
                ("synthetic", VBool true) ])).

Definition append_military (v : value) : M unit :=
  r <- get_results ;;
  set_results
    {| tool := tool r; version := version r; r_claim := r_claim r;
       analysis_date := analysis_date r;
       satellite_analysis := satellite_analysis r;
       flight_data := flight_data r;
       military_movements := military_movements r ++ [v];
       social_media := social_media r |}.

Definition analyze_base (self : self_t) (base : base_t) : M unit :=
  logger INFO ("Analyzing military activity near " ++ base_name base) ;;;
  let free_sources :=
    VList
      [ VDict [ ("name", VStr "GDELT Project");
                ("url", VStr "https://www.gdeltproject.org/");
                ("query_term", VStr (base_name base ++ " military activity"));
                ("type", VStr "free database") ];
        VDict [ ("name", VStr "LiveUAMap");
                ("url", VStr "https://liveuamap.com/");
                ("region", VStr "Asia");
                ("type", VStr "partially free") ];
        VDict [ ("name", VStr "Bellingcat's OSINT Toolkit");
                ("url",
                 VStr "https://docs.google.com/document/d/1BfLPJpRtyq4RFtHJoNpvWQjmGnyVkfE2HYoICKOGguA/edit");
                ("type", VStr "free resource collection") ] ] in
  let base_analysis :=
    [ ("base_name", VStr (base_name base));
      ("type", VStr (base_type base));
      ("coordinates", VList [VFloat (base_lat base); VFloat (base_lng base)]);
      ("date_range", date_range self);
      ("free_data_sources", free_sources);
      ("analysis_tips",
       VList [ VStr "Look for increased aircraft deployments";
               VStr "Monitor changes in alert status";
               VStr "Check for unusual troop movements";
               VStr "Note changes in vehicle counts from satellite imagery" ]) ] in
  base_analysis <-
    (if include_synthetic self then
       synthetic_activity <-
         _generate_synthetic_military_data self (base_name base)
           (base_type base) ;;
       logger INFO ("Added " ++ str_of_Z (len synthetic_activity)
                    ++ " synthetic military activity entries for "
                    ++ base_name base) ;;;
       ret (dict_set "synthetic_activity_data" (VList synthetic_activity)
              base_analysis)
     else ret base_analysis) ;;
  append_military (VDict base_analysis).

Definition analyze_military_movements (self : self_t) : M unit :=
  logger INFO "Analyzing military movements..." ;;;
  for_each bases (analyze_base self) ;;;
  logger INFO ("Military movements analysis completed for "
               ++ str_of_Z (len bases) ++ " bases/areas").

(** *** Social-media phase *)

Definition search_terms : list string :=
  [ "India Pakistan conflict";
    "Pakistan nuclear facility";
    "Indian airstrike Pakistan";
    "Pakistan military alert";
    "India Pakistan border tension" ].

Definition nitter_instances : list string :=
  [ "https://nitter.net";
    "https://nitter.lacontrevoie.fr";
    "https://nitter.poast.org" ].

(** The dictionary built from one [div]. *)
Definition parse_tweet (instance : string) (div : tweet_div) : value :=
  let username :=
    match a_username div with
    | Some t => strip t
    | None => "Unknown"
    end in
  let content :=
    match div_tweet_content div with
    | Some t => strip t
    | None => ""
    end in
  let date :=
    match tweet_date_title div with
    | Some (Some t) => VStr t
    | Some None => VNone
    | None => VStr ""
    end in
  VDict [ ("platform", VStr "Twitter");
          ("user", VStr username);
          ("content", VStr content);
          ("date", date);
          ("synthetic", VBool false);
          ("source", VStr ("Nitter scrape via " ++ instance)) ].

(** [for div in tweet_divs[:10]: try: tweets.append(...) except: continue] *)
Fixpoint parse_tweets (instance : string) (divs : list tweet_div)
  : M (list value) :=
  match divs with
  | [] => ret []
  | div :: divs' =>
      t <- try_except (ret [parse_tweet instance div])
             (fun e =>
                logger ERROR ("Error parsing tweet: " ++ exn_msg e) ;;;
                ret []) ;;
      ts <- parse_tweets instance divs' ;;
      ret (t ++ ts)%list
  end.

(** One round of the loop over the instances, inside its [try]:
    [Some tweets] when the round executes [return tweets], [None] when
    it goes on to the next instance. *)
Definition try_instance (search_term instance : string)
  : M (option (list value)) :=
  let search_url := instance ++ "/search?f=tweets&q=" ++ quote search_term in
  w <- ask ;;
  match http_get w search_url with
  | HttpRaises e => raise e
  | HttpResponse status_code tweet_divs =>
      if status_code =? 200 then
        match tweet_divs with
        | [] =>
            logger WARNING ("No tweets found for '" ++ search_term
                            ++ "' on " ++ instance) ;;;
            ret None
        | _ =>
            tweets <- parse_tweets instance (firstn 10 tweet_divs) ;;
            logger INFO ("Found " ++ str_of_Z (len tweets) ++ " tweets for '"
                         ++ search_term ++ "' on " ++ instance) ;;;
            ret (Some tweets)
        end
      else ret None
  end.

Fixpoint scrape_instances (search_term : string) (instances : list string)
  : M (list value) :=
  match instances with
  | [] =>
      logger WARNING ("All Nitter instances failed for '" ++ search_term
                      ++ "'") ;;;
      ret []
  | instance :: rest =>
      r <- try_except (try_instance search_term instance)
             (fun e =>
                logger ERROR ("Error with Nitter instance " ++ instance
                              ++ ": " ++ exn_msg e) ;;;
                ret None) ;;
      match r with
      | Some tweets => ret tweets
      | None => scrape_instances search_term rest
      end
  end.

Definition _scrape_social_media (self : self_t) (search_term : string)
  : M (list value) :=
  try_except (scrape_instances search_term nitter_instances)
    (fun e =>
       logger ERROR ("Error scraping social media: " ++ exn_msg e) ;;;
       ret []).

Definition templates : list (string * list string) :=
  dict_literal
    [ ("conflict",
       [ "Reports of {intensity} tensions between India and Pakistan near {location}. #IndoPak";
         "Military analysts watching {location} border situation closely. No confirmation of strikes. #IndoPak";
         "{official} denies reports of conflict escalation between India and Pakistan.";
         "Unconfirmed reports of {activity} near {location}. Awaiting official statement.";
         "Satellite imagery shows no evidence of {claimed_activity} at {location} despite online rumors." ]);
      ("nuclear",
       [ "Pakistan's nuclear facilities remain under normal operations. Claims of attacks are unverified.";
         "Security increased at {location} nuclear site, but no incidents reported. Standard procedure.";
         "Misinformation spreading about Pakistani nuclear facilities. No evidence of any strikes.";
         "Analysts confirm no unusual activity at {location} based on available satellite imagery.";
         "{official} statement: 'All nuclear facilities secure and operational. Dismiss false reports.'" ]);
      ("military",
       [ "Military movements observed near {location}, consistent with routine {exercise_type} exercises.";
         "Indian Air Force denies conducting any operations across Pakistani airspace.";
         "Pakistan military on heightened alert near {location}, but no conflict reported.";
         "Defense analysts: Claims of airstrikes lack credible evidence. Likely misinformation.";
         "Routine troop rotations misinterpreted as conflict preparation. Situation normal." ]) ].

Definition template_category_of (search_term : string) : string :=
  if contains "nuclear" (lower search_term) then "nuclear"
  else if existsb (fun term => contains term (lower search_term))
            ["military"; "airstrike"; "alert"]
       then "military"
       else "conflict".

(** The first [location] list of the display. *)
Definition location_first : list string :=
  ["Punjab border"; "Kashmir region"; "LoC"; "Lahore sector";
   "Sialkot frontier"].

(** The second [location] list of the display. *)
Definition location_second : list string :=
  ["Kahuta"; "Sargodha"; "Kamra"; "Chashma"; "Karachi nuclear plant"].

(** The items of the [variables] display, as written. *)
Definition variables_display : list (string * list string) :=
  [ ("intensity", ["growing"; "moderate"; "concerning"; "limited"; "alleged"]);
    ("location", location_first);
    ("official",
     ["Pakistani Foreign Ministry"; "Indian Defense Ministry";
      "Military spokesperson"; "Intelligence sources"; "ISPR"]);
    ("activity",
     ["troop movements"; "surveillance flights"; "radar activity";
      "military exercises"; "border patrols"]);
    ("claimed_activity",
     ["airstrikes"; "missile impacts"; "drone operations";
      "special forces activity"; "artillery fire"]);
    ("exercise_type",
     ["defense"; "readiness"; "annual"; "counter-terrorism"; "joint forces"]);
    ("location", location_second) ].

Definition variables : list (string * list string) :=
  dict_literal variables_display.

(** [for var_name, var_options in vars.items(): if "{"+var_name+"}" in
    template: template = template.replace(..., random.choice(var_options))] *)
Fixpoint fill_template (vars : list (string * list string))
    (template : string) : M string :=
  match vars with
  | [] => ret template
  | (var_name, var_options) :: vars' =>
      template <-
        (if contains ("{" ++ var_name ++ "}") template then
           v <- choice var_options ;;
           ret (replace ("{" ++ var_name ++ "}") v template)
         else ret template) ;;
      fill_template vars' template
  end.

Definition _generate_synthetic_social_media (self : self_t)
    (search_term : string) : M (list value) :=
  let template_category := template_category_of search_term in
  repeat_collect 5 0
    (fun i =>
       candidates <-
         match dict_get template_category templates with
         | Some l => ret l
         | None => raise (Exn KeyError template_category)
         end ;;
       template <- choice candidates ;;
       template <- fill_template variables template ;;
       random_days_ago <- randint 0 (days self) ;;
       t <- now ;;
       d <- minus_days t random_days_ago ;;
       let post_date := strftime_ymd (dt_ordinal d) in
       n <- randint 1000 9999 ;;
       ret (VDict
              [ ("platform", VStr "Twitter (synthetic)");
                ("user", VStr ("Synthetic_User_" ++ str_of_Z n));
                ("content", VStr template);
                ("date", VStr post_date);
                ("synthetic", VBool true);
                ("source", VStr "Algorithmically generated for analysis") ])).

Definition append_social (v : value) : M unit :=
  r <- get_results ;;
  set_results
    {| tool := tool r; version := version r; r_claim := r_claim r;
       analysis_date := analysis_date r;
       satellite_analysis := satellite_analysis r;
       flight_data := flight_data r;
       military_movements := military_movements r;
       social_media := social_media r ++ [v] |}.

(** [not tweets] *)
Definition is_empty {A : Type} (l : list A) : bool :=
  match l with [] => true | _ => false end.

Definition analyze_term (self : self_t) (term : string) : M unit :=
  logger INFO ("Searching for social media mentions of '" ++ term ++ "'") ;;;
  tweets <- _scrape_social_media self term ;;
  tweets <-
    (if is_empty tweets && include_synthetic self then
       tweets <- _generate_synthetic_social_media self term ;;
       logger INFO ("Added " ++ str_of_Z (len tweets)
                    ++ " synthetic social media entries for '" ++ term
                    ++ "'") ;;;
       ret tweets
     else ret tweets) ;;
  if negb (is_empty tweets) then
    append_social
      (VDict [ ("search_term", VStr term);
               ("date_range", date_range self);
               ("results_count", VInt (len tweets));
               ("posts", VList tweets) ])
  else ret tt.

Definition analyze_social_media (self : self_t) : M unit :=
  logger INFO "Analyzing social media data..." ;;;
  for_each search_terms (analyze_term self) ;;;
  logger INFO ("Social media analysis completed for "
               ++ str_of_Z (len search_terms) ++ " search terms").

(** *** Report *)

(** [sum(term["results_count"] for term in l)] *)
Fixpoint sum_results_count (l : list value) : M Z :=
  match l with
  | [] => ret 0
  | VDict d :: l' =>
      match dict_get "results_count" d with
      | Some (VInt n) => s <- sum_results_count l' ;; ret (n + s)
      | Some _ => raise (Exn TypeError "unsupported operand type(s) for +")
      | None => raise (Exn KeyError "'results_count'")
      end
  | _ :: _ => raise (Exn TypeError "list indices must be integers or slices")
  end.

(** The f-string of [generate_summary]. *)
Definition summary_text (self : self_t) (r : results_t)
    (sat_sites flight_areas military_bases social_terms social_posts : Z)
  : string :=
  TRUTHSCAN_LOGO ++ "

TRUTHSCAN ANALYSIS REPORT
=========================
Claim: " ++ claim self ++ "
Analysis date: " ++ analysis_date r ++ "
Date range analyzed: " ++ start_date self ++ " to " ++ end_date self ++ "

ANALYSIS SCOPE:
- Satellite imagery analysis of " ++ str_of_Z sat_sites ++ " nuclear sites
- Flight data analysis for " ++ str_of_Z flight_areas ++ " geographic areas
- Military movement monitoring at " ++ str_of_Z military_bases ++ " military bases
- Social media analysis of " ++ str_of_Z social_terms ++ " search terms (" ++ str_of_Z social_posts ++ " posts)

KEY FINDINGS:
1. Satellite imagery: Links provided to free Sentinel Hub and Google Maps imagery for all nuclear sites
2. Flight data: Free alternatives to paid flight tracking services provided
3. Military movements: Analysis of activity at key military installations
4. Social media: Analysis of relevant posts and trends

CONCLUSION:
Based on available free data sources, there is no credible evidence supporting the claim.
To perform more definitive analysis, consider:
- Purchasing commercial satellite imagery
- Using paid flight tracking services
- Engaging professional military analysts
- Accessing official social media APIs

NOTE: This analysis used free alternatives to paid services. Some synthetic data has been included
for demonstration purposes, clearly marked as " ++ dq ++ "synthetic" ++ dq ++ " in the detailed results.
".

(** [self.results] as [json.dump] receives it. *)
Definition results_value (r : results_t) : value :=
  VDict [ ("tool", VStr (tool r));
          ("version", VStr (version r));
          ("claim", VStr (r_claim r));
          ("analysis_date", VStr (analysis_date r));
          ("satellite_analysis", VList (satellite_analysis r));
          ("flight_data", VList (flight_data r));
          ("military_movements", VList (military_movements r));
          ("social_media", VList (social_media r)) ].

Definition summary_path : string := "analysis_results/truthscan_summary.txt".
Definition results_path : string := "analysis_results/truthscan_results.json".

Definition generate_summary (self : self_t) : M string :=
  logger INFO "Generating final analysis summary..." ;;;
  r <- get_results ;;
  let sat_sites := len (satellite_analysis r) in
  let flight_areas := len (flight_data r) in
  let military_bases := len (military_movements r) in
  let social_terms := len (social_media r) in
  social_posts <-
    (if negb (is_empty (social_media r))
     then sum_results_count (social_media r)
     else ret 0) ;;
  let summary :=
    summary_text self r sat_sites flight_areas military_bases social_terms
      social_posts in
  write_file summary_path (Text summary) ;;;
  write_file results_path (Json (results_value r)) ;;;
  logger INFO
    "Analysis summary and detailed results saved to analysis_results directory" ;;;
  ret summary.

Definition analyze (self : self_t) : M results_t :=
  logger INFO ("Starting TruthScan analysis for claim: " ++ claim self) ;;;
  analyze_satellite_imagery self ;;;
  analyze_flight_data self ;;;
  analyze_military_movements self ;;;
  analyze_social_media self ;;;
  logger INFO "Generating final analysis..." ;;;
  generate_summary self ;;;
  get_results.

(** [analyzer = TruthScan(claim, days, include_synthetic);
    analyzer.analyze()] *)
Definition run (claim : string) (days : Z) (include_synthetic : bool)
  : M results_t :=
  self <- init claim days include_synthetic ;;
  analyze self.

(** The file last written at a path. *)
Fixpoint read_file (path : string) (fs : list (string * file_content))
  : option file_content :=
  match fs with
  | [] => None
  | (p, c) :: fs' =>
      match read_file path fs' with
      | Some c' => Some c'
      | None => if String.eqb path p then Some c else None
      end
  end.

End TruthScan.

(* ================================================================== *)
(** ** Specification vocabulary *)

Module Spec.
Import Py Calendar Env Random TruthScan.
Local Open Scope py_scope.

(** Total correctness: the computation returns, and the value and the
    state it returns satisfy [Q]. *)
Definition returns {A : Type} (m : M A) (w : world) (st : state)
    (Q : A -> state -> Prop) : Prop :=
  match m w st with
  | (inr a, st') => Q a st'
  | (inl _, _) => False
  end.

(** Partial correctness: whatever the computation returns satisfies [Q]. *)
Definition ensures {A : Type} (m : M A) (w : world) (st : state)
    (Q : A -> state -> Prop) : Prop :=
  match m w st with
  | (inr a, st') => Q a st'
  | (inl _, _) => True
  end.

(** The records a generator or the fetcher hands back: none when it
    raises. *)
Definition records_of (r : (exn + list value) * state) : list value :=
  match fst r with
  | inr l => l
  | inl _ => []
  end.

Definition with_rng (p : nat) (st : state) : state :=
  {| rng_pos := p; clock_pos := clock_pos st; log := log st;
     dirs := dirs st; files := files st; results := results st |}.

Definition with_clock (p : nat) (st : state) : state :=
  {| rng_pos := rng_pos st; clock_pos := p; log := log st;
     dirs := dirs st; files := files st; results := results st |}.

Definition with_log (l : list (level * string)) (st : state) : state :=
  {| rng_pos := rng_pos st; clock_pos := clock_pos st; log := l;
     dirs := dirs st; files := files st; results := results st |}.

(** Every reading of the clock is a valid [datetime] from which the
    lookback window can be subtracted. *)
Definition clock_allows (w : world) (days : Z) : Prop :=
  forall n, days < dt_ordinal (clock w n) <= MAXORDINAL.

(** The value of an integer field of a record. *)
Definition int_field (k : string) (r : value) : option Z :=
  match r with
  | VDict d => match dict_get k d with Some (VInt z) => Some z | _ => None end
  | _ => None
  end.

Definition str_field (k : string) (r : value) : option string :=
  match r with
  | VDict d => match dict_get k d with Some (VStr s) => Some s | _ => None end
  | _ => None
  end.

Definition bool_field (k : string) (r : value) : option bool :=
  match r with
  | VDict d => match dict_get k d with Some (VBool b) => Some b | _ => None end
  | _ => None
  end.

Definition list_field (k : string) (r : value) : option (list value) :=
  match r with
  | VDict d => match dict_get k d with Some (VList l) => Some l | _ => None end
  | _ => None
  end.

(** [lo <= x < hi], or [lo <= x <= hi] when the upper end is included. *)
Definition in_band (closed : bool) (lo hi x : Z) : bool :=
  (lo <=? x) && (if closed then x <=? hi else x <? hi).

(** The profile of one synthetic flight record. *)
Definition flight_profile (closed unusual : bool) (r : value) : bool :=
  match int_field "altitude" r, int_field "speed" r,
        str_field "transponder" r, str_field "pattern" r with
  | Some a, Some s, Some t, Some p =>
      if unusual then
        in_band closed 5000 10000 a && in_band closed 200 350 s
        && String.eqb t "Intermittent"
        && String.eqb p "Unusual circling pattern"
      else
        in_band closed 15000 35000 a && in_band closed 350 500 s
        && String.eqb t "Active" && String.eqb p "Standard transit"
  | _, _, _, _ => false
  end.

(** Five records, the first unusual and the other four normal. *)
Definition flight_batch (closed : bool) (l : list value) : bool :=
  match l with
  | [r0; r1; r2; r3; r4] =>
      flight_profile closed true r0 && flight_profile closed false r1
      && flight_profile closed false r2 && flight_profile closed false r3
      && flight_profile closed false r4
  | _ => false
  end.

(** The [date] of a record is the day of some clock reading, moved back
    by at most the lookback window. *)
Definition dated_within (w : world) (days : Z) (r : value) : Prop :=
  exists n k, 0 <= k <= days
    /\ str_field "date" r = Some (strftime_ymd (dt_ordinal (clock w n) - k)).

Definition is_synthetic (b : bool) (r : value) : Prop :=
  bool_field "synthetic" r = Some b.

(** The float [random.random()] makes of a raw draw. *)
Definition unit_draw (raw : N) : Q := Qmake (Z.of_N raw mod 2 ^ 53) (2 ^ 53).

(** The index [random.choices] selects in [activities] for the unit
    draw [u], as the library computes it from [weights]. *)
Definition chosen_index (u : Q) : nat :=
  let cum_weights := accumulate 0%Q weights in
  bisect cum_weights (Qmult u (last cum_weights 0%Q))
    (List.length activities - 1).


(** One synthetic military record, for the activity it reports. *)
Definition military_record_of (a : activity_t) (r : value) : Prop :=
  str_field "type" r = Some (act_type a)
  /\ str_field "significance" r = Some (act_significance a)
  /\ str_field "confidence" r = Some "Medium - requires verification".

(** The state after one round of the military generator: two draws and
    one clock reading. *)
Definition military_step (st : state) : state :=
  with_rng (S (S (rng_pos st))) (with_clock (S (clock_pos st)) st).

(** A step that leaves the object, the disk and the log as they were. *)
Definition same_store (st st' : state) : Prop :=
  results st' = results st /\ files st' = files st /\ dirs st' = dirs st
  /\ log st' = log st.

(** Every text [fill_template] can make of a template, over all draws. *)
Fixpoint fills (vars : list (string * list string)) (template : string)
  : list string :=
  match vars with
  | [] => [template]
  | (var_name, var_options) :: vars' =>
      if contains ("{" ++ var_name ++ "}") template then
        flat_map
          (fun v => fills vars' (replace ("{" ++ var_name ++ "}") v template))
          var_options
      else fills vars' template
  end.

(** The content [c] was made from the template [t] of the category of
    the search term. *)
Definition made_from_template (search_term t c : string) : Prop :=
  exists candidates,
    dict_get (template_category_of search_term) templates = Some candidates
    /\ In t candidates /\ In c (fills variables t).

(** No entry of the first [location] list occurs in the content, and a
    template with a [{location}] placeholder yields a content holding an
    entry of the second list. *)
Definition location_from_second (t c : string) : bool :=
  negb (existsb (fun loc => contains loc c) location_first)
  && (negb (contains "{location}" t)
      || existsb (fun loc => contains loc c) location_second).

(** One synthetic social-media post. *)
Definition synthetic_post (search_term : string) (r : value) : Prop :=
  is_synthetic true r
  /\ str_field "platform" r = Some "Twitter (synthetic)"
  /\ exists t c, made_from_template search_term t c
       /\ str_field "content" r = Some c.

(** A step that only writes to the log. *)
Definition only_log (st st' : state) : Prop :=
  rng_pos st' = rng_pos st /\ clock_pos st' = clock_pos st
  /\ results st' = results st /\ files st' = files st /\ dirs st' = dirs st.

(** The address the fetcher requests from an endpoint. *)
Definition search_url (instance search_term : string) : string :=
  instance ++ "/search?f=tweets&q=" ++ quote search_term.

(** What one endpoint yields for a term: its entries when it answers 200
    with at least one entry; nothing when the request raises, the status
    is another one, or the page has no entry. *)
Definition endpoint_yields (w : world) (search_term instance : string)
  : option (list tweet_div) :=
  match http_get w (search_url instance search_term) with
  | HttpResponse status (d :: ds) =>
      if status =? 200 then Some (d :: ds) else None
  | _ => None
  end.

(** The first endpoint, in list order, that yields. *)
Fixpoint first_yielding (w : world) (search_term : string)
    (instances : list string) : option (string * list tweet_div) :=
  match instances with
  | [] => None
  | instance :: rest =>
      match endpoint_yields w search_term instance with
      | Some divs => Some (instance, divs)
      | None => first_yielding w search_term rest
      end
  end.

(** What the fetcher is to return for a term: at most ten entries of the
    first yielding endpoint, nothing when no endpoint yields. *)
Definition fetched (w : world) (search_term : string) : list value :=
  match first_yielding w search_term nitter_instances with
  | Some (instance, divs) => map (parse_tweet instance) (firstn 10 divs)
  | None => []
  end.

(** The sub-record of one search term. *)
Definition term_record (self : self_t) (term : string) (tweets : list value)
  : value :=
  VDict [ ("search_term", VStr term);
          ("date_range", date_range self);
          ("results_count", VInt (len tweets));
          ("posts", VList tweets) ].

(** The generator position never moves back. *)
Definition rng_mono {A : Type} (m : M A) (w : world) : Prop :=
  forall st, (rng_pos st <= rng_pos (snd (m w st)))%nat.

(** The computation consumes at least one draw, whatever its outcome. *)
Definition rng_advances {A : Type} (m : M A) (w : world) : Prop :=
  forall st, (rng_pos st < rng_pos (snd (m w st)))%nat.

Definition with_results (r : results_t) (st : state) : state :=
  {| rng_pos := rng_pos st; clock_pos := clock_pos st; log := log st;
     dirs := dirs st; files := files st; results := r |}.

(** [results] with one more sub-record in the social-media collection. *)
Definition social_appended (v : value) (r : results_t) : results_t :=
  {| tool := tool r; version := version r; r_claim := r_claim r;
     analysis_date := analysis_date r;
     satellite_analysis := satellite_analysis r;
     flight_data := flight_data r;
     military_movements := military_movements r;
     social_media := social_media r ++ [v] |}.

(** The log line that opens the work on a search term. *)
Definition term_log_line (term : string) : level * string :=
  (INFO, "Searching for social media mentions of '" ++ term ++ "'").



Definition is_digit (c : ascii) : bool :=
  let n := nat_of_ascii c in (48 <=? n)%nat && (n <=? 57)%nat.

(** [s] is exactly [k] decimal digits. *)
Fixpoint digits (k : nat) (s : string) : bool :=
  match k, s with
  | O, EmptyString => true
  | S k', String c s' => is_digit c && digits k' s'
  | _, _ => false
  end.

(** The shape YYYY-MM-DD. *)
Definition is_ymd (s : string) : bool :=
  digits 4 (substring 0 4 s) && String.eqb (substring 4 1 s) "-"
  && digits 2 (substring 5 2 s) && String.eqb (substring 7 1 s) "-"
  && digits 2 (substring 8 2 s) && (String.length s =? 10)%nat.


(** The directories [__init__] needs exist or can be created. *)
Definition dirs_creatable (w : world) : Prop :=
  forall d, In d ["analysis_results"; "satellite_images"; "military_data"] ->
    path_exists w d = true \/ fs_error w d = None.

(** Where the placeholder image of a site is saved. *)
Definition placeholder_path (self : self_t) (site : site_t) : string :=
  "satellite_images/" ++ replace " " "_" (site_name site) ++ "_"
    ++ end_date self ++ "_free.jpg".

(** Saving the placeholder image of the site succeeds. *)
Definition site_saved (w : world) (self : self_t) (site : site_t) : bool :=
  match fs_error w (placeholder_path self site) with
  | None => true
  | Some _ => false
  end.

(** The error line the satellite phase logs for a site. *)
Definition site_error_line (site : site_t) (e : exn) : level * string :=
  (ERROR, "Error analyzing satellite imagery for " ++ site_name site ++ ": "
          ++ exn_msg e).

(** The names under which a collection lists its sub-records. *)
Definition names_in (key : string) (l : list value) : list (option string) :=
  map (str_field key) l.

(** A step that leaves the three collections after the satellite one as
    they were, and consumes no draw and no clock reading. *)
Definition satellite_only (st st' : state) : Prop :=
  rng_pos st' = rng_pos st /\ clock_pos st' = clock_pos st
  /\ flight_data (results st') = flight_data (results st)
  /\ military_movements (results st') = military_movements (results st)
  /\ social_media (results st') = social_media (results st).


(** The verdict the summary prints. *)
Definition conclusion_sentence : string :=
  "Based on available free data sources, there is no credible evidence supporting the claim.".

(** The text of the summary from its CONCLUSION heading to its end. *)
Definition conclusion_section : string :=
  "CONCLUSION:
Based on available free data sources, there is no credible evidence supporting the claim.
To perform more definitive analysis, consider:
- Purchasing commercial satellite imagery
- Using paid flight tracking services
- Engaging professional military analysts
- Accessing official social media APIs

NOTE: This analysis used free alternatives to paid services. Some synthetic data has been included
for demonstration purposes, clearly marked as " ++ dq ++ "synthetic" ++ dq ++ " in the detailed results.
".

(** The text of the summary after the post count. *)
Definition summary_tail : string :=
  " posts)

KEY FINDINGS:
1. Satellite imagery: Links provided to free Sentinel Hub and Google Maps imagery for all nuclear sites
2. Flight data: Free alternatives to paid flight tracking services provided
3. Military movements: Analysis of activity at key military installations
4. Social media: Analysis of relevant posts and trends

" ++ conclusion_section.

(** The sum of the [results_count] fields of a list of sub-records. *)
Definition post_total (l : list value) : Z :=
  fold_right
    (fun r acc =>
       match int_field "results_count" r with
       | Some n => n + acc
       | None => acc
       end) 0 l.

(** The same sum, read from the JSON document. *)
Definition json_post_total (v : value) : Z :=
  match list_field "social_media" v with
  | Some l => post_total l
  | None => 0
  end.



(** *** Sample environments *)

Definition at_morning (ordinal : Z) : datetime :=
  {| dt_ordinal := ordinal; dt_hour := 9; dt_minute := 30; dt_second := 0 |}.

(** 4 November 2026. *)
Definition sample_today : Z := 739924.

(** No network, a writable disk, a clock standing on one day. *)
Definition offline_world (tape : nat -> N) (today : Z) : world :=
  {| rand_tape := tape;
     clock := fun _ => at_morning today;
     http_get :=
       fun _ => HttpRaises (Exn RequestException "connection refused");
     path_exists := fun _ => false;
     fs_error := fun _ => None |}.

(** The object [__init__] builds on [sample_today]. *)
Definition sample_self (days : Z) (include_synthetic : bool) : self_t :=
  {| claim := "India strikes Pakistan nuclear sites";
     days := days;
     include_synthetic := include_synthetic;
     start_date := strftime_ymd (sample_today - days);
     end_date := strftime_ymd sample_today |}.

Definition zero_tape : nat -> N := fun _ => 0%N.


(** A tape whose third and fourth draws make [randint] return its upper
    ends: 5000 mod 5001 and 150 mod 151. *)
Definition upper_end_tape : nat -> N :=
  fun n => match n with
           | 2%nat => 5000%N
           | 3%nat => 150%N
           | _ => 0%N
           end.

End Spec.

(* ================================================================== *)
(** ** Vocabulary of the further properties *)

Module Props.
Import Py Calendar Env Random TruthScan Spec.
Local Open Scope py_scope.

(** The directories [__init__] works with, in the order it visits them. *)
Definition working_dirs : list string :=
  ["analysis_results"; "satellite_images"; "military_data"].

(** A directory that does not exist yet. *)
Definition missing (w : world) (d : string) : bool := negb (path_exists w d).

(** The log lines of the work on one site: the opening line, then the
    line of the saved placeholder or the line of the error. *)
Definition site_log (self : self_t) (w : world) (site : site_t)
  : list (level * string) :=
  (INFO, "Analyzing satellite imagery for " ++ site_name site)
  :: match fs_error w (placeholder_path self site) with
     | None =>
         [(INFO, "Created satellite imagery placeholder: "
                 ++ placeholder_path self site)]
     | Some e => [site_error_line site e]
     end.

(** The address of the [i]-th imagery source of a satellite record. *)
Definition url_of (i : nat) (r : value) : option string :=
  match list_field "satellite_sources" r with
  | Some l =>
      match nth_error l i with
      | Some s => str_field "url" s
      | None => None
      end
  | None => None
  end.

(** The written file [f] is the placeholder image the record [r] refers
    to: the record names its path, and the image shows the site name and
    the two addresses of the record. *)
Definition image_of (f : string * file_content) (r : value) : Prop :=
  str_field "placeholder_image" r = Some (fst f)
  /\ exists lines,
       snd f = Image lines /\ List.length lines = 17%nat
       /\ (exists name, str_field "site_name" r = Some name
                        /\ nth_error lines 0 = Some ("Site: " ++ name))
       /\ (exists u, url_of 0 r = Some u /\ nth_error lines 7 = Some u)
       /\ (exists u, url_of 1 r = Some u /\ nth_error lines 10 = Some u).


(** [R] relates the state before a computation to the state after it,
    whether the computation returns or raises. *)
Definition always {A : Type} (m : M A) (w : world)
    (R : state -> state -> Prop) : Prop :=
  forall st, R st (snd (m w st)).

(** The four collections of [self.results]. *)
Inductive collection : Type := Satellite | Flight | Military | Social.

Definition entries (c : collection) (r : results_t) : list value :=
  match c with
  | Satellite => satellite_analysis r
  | Flight => flight_data r
  | Military => military_movements r
  | Social => social_media r
  end.

(** From [st] to [st'] the collection [c] has only received entries at
    its end; the other collections and the four header fields of the
    results are as they were. *)
Definition appended_to (c : collection) (st st' : state) : Prop :=
  (exists new, entries c (results st') = (entries c (results st) ++ new)%list)
  /\ (forall c', c' <> c ->
        entries c' (results st') = entries c' (results st))
  /\ tool (results st') = tool (results st)
  /\ version (results st') = version (results st)
  /\ r_claim (results st') = r_claim (results st)
  /\ analysis_date (results st') = analysis_date (results st).

(** The disk is as it was. *)
Definition same_disk (st st' : state) : Prop :=
  files st' = files st /\ dirs st' = dirs st.

(** The value under a key of a record. *)
Definition field (k : string) (r : value) : option value :=
  match r with
  | VDict d => dict_get k d
  | _ => None
  end.

(** The entry the flight phase makes for an area: with synthetic mode on
    it carries a batch of synthetic flights, with synthetic mode off it
    has no such key. *)
Definition flight_entry (self : self_t) (area : area_t) (e : value) : Prop :=
  str_field "area" e = Some (area_name area)
  /\ str_field "geographic_bounds" e = Some (area_bounds area)
  /\ field "date_range" e = Some (date_range self)
  /\ if include_synthetic self
     then exists flights,
            field "synthetic_sample_data" e = Some (VList flights)
            /\ flight_batch true flights = true
            /\ Forall (is_synthetic true) flights
     else field "synthetic_sample_data" e = None.

(** One synthetic activity record of a base. *)
Definition activity_at (base : base_t) (r : value) : Prop :=
  is_synthetic true r
  /\ exists a,
       In a activities /\ military_record_of a r
       /\ str_field "description" r
          = Some (act_type a ++ " observed at " ++ base_name base).

(** The entry the military phase makes for a base. *)
Definition military_entry (self : self_t) (base : base_t) (e : value)
  : Prop :=
  str_field "base_name" e = Some (base_name base)
  /\ str_field "type" e = Some (base_type base)
  /\ field "date_range" e = Some (date_range self)
  /\ if include_synthetic self
     then exists acts,
            field "synthetic_activity_data" e = Some (VList acts)
            /\ List.length acts = 5%nat
            /\ Forall (activity_at base) acts
     else field "synthetic_activity_data" e = None.

(** A sub-record of the social-media collection whose count is the
    length of its list of posts, between 1 and 10. *)
Definition counted_posts (r : value) : Prop :=
  exists posts,
    list_field "posts" r = Some posts
    /\ int_field "results_count" r = Some (len posts)
    /\ 1 <= len posts <= 10.

(** The sub-record is the one of a term of the list. *)
Definition names_term (terms : list string) (r : value) : Prop :=
  exists t, In t terms /\ str_field "search_term" r = Some t.

(** The posts recorded for a search term: what the fetcher returned when
    it returned something, five synthetic posts otherwise. *)
Definition posts_for (w : world) (term : string) (posts : list value)
  : Prop :=
  match fetched w term with
  | [] => List.length posts = 5%nat /\ Forall (synthetic_post term) posts
  | real => posts = real
  end.

(** No draw and no clock reading when synthetic mode is off. *)
Definition idle_when_off (self : self_t) (st st' : state) : Prop :=
  include_synthetic self = false ->
  rng_pos st' = rng_pos st /\ clock_pos st' = clock_pos st.

(** The sub-records a search term gets from the fetcher alone: one when
    the fetcher returned something, none otherwise. *)
Definition real_records (self : self_t) (w : world) (term : string)
  : list value :=
  match fetched w term with
  | [] => []
  | real => [term_record self term real]
  end.

(** From [st] to [st'] every collection has only received entries at its
    end, and the header fields of the results are as they were. *)
Definition grown (st st' : state) : Prop :=
  (forall c, exists new,
      entries c (results st') = (entries c (results st) ++ new)%list)
  /\ tool (results st') = tool (results st)
  /\ version (results st') = version (results st)
  /\ r_claim (results st') = r_claim (results st)
  /\ analysis_date (results st') = analysis_date (results st).

(** The report [generate_summary] makes of the results [r]. *)
Definition report_of (self : self_t) (r : results_t) : string :=
  summary_text self r (len (satellite_analysis r)) (len (flight_data r))
    (len (military_movements r)) (len (social_media r))
    (post_total (social_media r)).

(** The two log lines of [generate_summary]. *)
Definition summary_opening : level * string :=
  (INFO, "Generating final analysis summary...").

Definition summary_closing : level * string :=
  (INFO,
   "Analysis summary and detailed results saved to analysis_results directory").


(** What [__init__] needs of the clock and of the window: the start of
    the window is a day of the calendar and the window fits a
    [timedelta]. *)
Definition window_allowed (w : world) (st : state) (days : Z) : Prop :=
  MINORDINAL <= dt_ordinal (clock w (clock_pos st)) - days <= MAXORDINAL
  /\ Z.abs days <= 999999999.

(** The log line an endpoint leaves behind for a search term: an error
    line when the request raises, a warning when it answers 200 with no
    entry, the count of the parsed entries when it yields, and nothing when
    it answers another status. *)
Definition endpoint_log (w : world) (term instance : string)
  : list (level * string) :=
  match http_get w (search_url instance term) with
  | HttpRaises e =>
      [(ERROR, "Error with Nitter instance " ++ instance ++ ": " ++ exn_msg e)]
  | HttpResponse status divs =>
      if status =? 200 then
        match divs with
        | [] => [(WARNING, "No tweets found for '" ++ term ++ "' on "
                           ++ instance)]
        | _ => [(INFO, "Found " ++ str_of_Z (len (firstn 10 divs))
                       ++ " tweets for '" ++ term ++ "' on " ++ instance)]
        end
      else []
  end.

(** The log of the fetcher for a search term: the lines of the endpoints
    it tried, up to the first one that yields, and a closing warning when
    none did. *)
Fixpoint fetcher_log (w : world) (term : string) (instances : list string)
  : list (level * string) :=
  match instances with
  | [] => [(WARNING, "All Nitter instances failed for '" ++ term ++ "'")]
  | instance :: rest =>
      (endpoint_log w term instance
       ++ match endpoint_yields w term instance with
          | Some _ => []
          | None => fetcher_log w term rest
          end)%list
  end.

(** The line that closes the log of the fetcher over a list of
    endpoints. *)
Definition closing_line (w : world) (term : string) (instances : list string)
  : level * string :=
  match first_yielding w term instances with
  | Some (instance, divs) =>
      (INFO, "Found " ++ str_of_Z (len (firstn 10 divs)) ++ " tweets for '"
             ++ term ++ "' on " ++ instance)
  | None => (WARNING, "All Nitter instances failed for '" ++ term ++ "'")
  end.

(** The same line, told from what the fetcher returns. *)
Definition fetcher_verdict (w : world) (term : string) : level * string :=
  match first_yielding w term nitter_instances with
  | Some (instance, _) =>
      (INFO, "Found " ++ str_of_Z (len (fetched w term)) ++ " tweets for '"
             ++ term ++ "' on " ++ instance)
  | None => (WARNING, "All Nitter instances failed for '" ++ term ++ "'")
  end.



(** The two worlds answer alike on the search address of every endpoint. *)
Definition same_answers (w1 w2 : world) (term : string) : Prop :=
  forall instance, In instance nitter_instances ->
    http_get w1 (search_url instance term)
    = http_get w2 (search_url instance term).

(** A network on which only the first endpoint answers, and only for the
    search term "LoC". *)
Definition one_page : list tweet_div :=
  [ {| a_username := Some " @observer ";
       div_tweet_content := Some "Nothing unusual near the LoC today.";
       tweet_date_title := Some (Some "Nov 3, 2026") |} ].

Definition one_endpoint_world (elsewhere : http_outcome) : world :=
  {| rand_tape := zero_tape;
     clock := fun _ => at_morning sample_today;
     http_get :=
       fun url =>
         if String.eqb url "https://nitter.net/search?f=tweets&q=LoC"
         then HttpResponse 200 one_page
         else if String.prefix "https://nitter." url
              then HttpResponse 503 []
              else elsewhere;
     path_exists := fun _ => false;
     fs_error := fun _ => None |}.

(** The user name of a synthetic post: the fixed stem and four digits. *)
Definition synthetic_handle (r : value) : Prop :=
  exists d, str_field "user" r = Some ("Synthetic_User_" ++ d)
            /\ digits 4 d = true.

(** No brace is left in the text. *)
Definition no_brace (s : string) : bool :=
  negb (contains "{" s) && negb (contains "}" s).

(** The content of the post has every placeholder filled in. *)
Definition filled_content (r : value) : Prop :=
  exists c, str_field "content" r = Some c /\ no_brace c = true.

(** What a synthetic flight record says besides its figures: an aircraft
    type of the list, and either the three texts of a normal flight or the
    three texts of an unusual one. *)
Definition flight_described (r : value) : Prop :=
  (exists a, In a mil_aircraft /\ str_field "aircraft_type" r = Some a)
  /\ ((str_field "pattern" r = Some "Standard transit"
       /\ str_field "transponder" r = Some "Active"
       /\ str_field "notes" r = Some "Normal military movement")
      \/ (str_field "pattern" r = Some "Unusual circling pattern"
          /\ str_field "transponder" r = Some "Intermittent"
          /\ str_field "notes" r
             = Some "Unusual activity - requires verification")).


End Props.

(* ================================================================== *)
(** ** Reasoning about computations *)

Import Py Calendar Env Random TruthScan Spec.
Local Open Scope py_scope.

Lemma returns_ret {A} (a : A) w st (Q : A -> state -> Prop) :
  Q a st -> returns (ret a) w st Q.
Proof. exact (fun H => H). Qed.

Lemma returns_bind {A B} (m : M A) (k : A -> M B) w st (Q : B -> state -> Prop) :
  returns m w st (fun a st1 => returns (k a) w st1 Q) ->
  returns (bind m k) w st Q.
Proof.
  unfold returns, bind. destruct (m w st) as [[e | a] st1]; [tauto | auto].
Qed.

Lemma returns_weaken {A} (m : M A) w st (P Q : A -> state -> Prop) :
  returns m w st P -> (forall a st', P a st' -> Q a st') -> returns m w st Q.
Proof.
  unfold returns. destruct (m w st) as [[e | a] st1]; [tauto | auto].
Qed.

Lemma returns_eq {A} (m : M A) w st (Q : A -> state -> Prop) :
  returns m w st Q -> exists a st', m w st = (inr a, st') /\ Q a st'.
Proof.
  unfold returns. destruct (m w st) as [[e | a] st1]; [tauto | eauto].
Qed.

Lemma ensures_ret {A} (a : A) w st (Q : A -> state -> Prop) :
  Q a st -> ensures (ret a) w st Q.
Proof. exact (fun H => H). Qed.

Lemma ensures_raise {A} e w st (Q : A -> state -> Prop) :
  ensures (raise e) w st Q.
Proof. exact I. Qed.

Lemma ensures_bind {A B} (m : M A) (k : A -> M B) w st (Q : B -> state -> Prop) :
  ensures m w st (fun a st1 => ensures (k a) w st1 Q) ->
  ensures (bind m k) w st Q.
Proof.
  unfold ensures, bind. destruct (m w st) as [[e | a] st1]; auto.
Qed.

Lemma ensures_bind_any {A B} (m : M A) (k : A -> M B) w st (Q : B -> state -> Prop) :
  (forall a st1, ensures (k a) w st1 Q) -> ensures (bind m k) w st Q.
Proof.
  intros H. unfold ensures, bind. destruct (m w st) as [[e | a] st1]; auto.
  apply H.
Qed.

Lemma ensures_weaken {A} (m : M A) w st (P Q : A -> state -> Prop) :
  ensures m w st P -> (forall a st', P a st' -> Q a st') -> ensures m w st Q.
Proof.
  unfold ensures. destruct (m w st) as [[e | a] st1]; auto.
Qed.

Lemma returns_ensures {A} (m : M A) w st (Q : A -> state -> Prop) :
  returns m w st Q -> ensures m w st Q.
Proof.
  unfold returns, ensures. destruct (m w st) as [[e | a] st1]; tauto.
Qed.

Lemma ensures_try_except {A} (body : M A) handler w st (Q : A -> state -> Prop) :
  ensures body w st Q ->
  (forall e st1, ensures (handler e) w st1 Q) ->
  ensures (try_except body handler) w st Q.
Proof.
  intros Hb Hh. unfold ensures, try_except in *.
  destruct (body w st) as [[e | a] st1]; auto. apply Hh.
Qed.

(** [repeat_collect] with a state invariant. *)
Lemma returns_repeat_collect {A} (body : Z -> M A) w
    (P : Z -> A -> Prop) (Inv : state -> Prop) :
  (forall i st, Inv st -> returns (body i) w st (fun a st' => P i a /\ Inv st')) ->
  forall n i st, Inv st ->
    returns (repeat_collect n i body) w st
      (fun l st' =>
         List.length l = n
         /\ (forall j a, nth_error l j = Some a -> P (i + Z.of_nat j) a)
         /\ Inv st').
Proof.
  intros Hbody. induction n as [| n IH]; intros i st Hst; simpl.
  - apply returns_ret. repeat split; auto. intros [| j] a; discriminate.
  - apply returns_bind. eapply returns_weaken; [apply (Hbody i st Hst) |].
    intros a st1 [Ha Hst1]. apply returns_bind.
    eapply returns_weaken; [apply (IH (i + 1) st1 Hst1) |].
    intros l st2 (Hlen & Hl & Hst2). apply returns_ret. repeat split; auto.
    + simpl. now rewrite Hlen.
    + intros [| j] b Hb; simpl in Hb.
      * inversion Hb; subst. now rewrite Z.add_0_r.
      * replace (i + Z.of_nat (S j)) with (i + 1 + Z.of_nat j) by lia. auto.
Qed.

Lemma ensures_repeat_collect {A} (body : Z -> M A) w (P : A -> Prop) :
  (forall i st, ensures (body i) w st (fun a _ => P a)) ->
  forall n i st, ensures (repeat_collect n i body) w st (fun l _ => Forall P l).
Proof.
  intros Hbody. induction n as [| n IH]; intros i st; simpl.
  - apply ensures_ret. constructor.
  - apply ensures_bind. eapply ensures_weaken; [apply (Hbody i st) |].
    intros a st1 Ha. apply ensures_bind.
    eapply ensures_weaken; [apply (IH (i + 1) st1) |].
    intros l st2 Hl. apply ensures_ret. now constructor.
Qed.

(** *** The random module *)

Lemma draw_eq w st :
  draw w st = (inr (rand_tape w (rng_pos st)), with_rng (S (rng_pos st)) st).
Proof. reflexivity. Qed.

Lemma returns_randbelow n w st :
  0 < n ->
  returns (randbelow n) w st
    (fun r st' => 0 <= r < n /\ r = Z.of_N (rand_tape w (rng_pos st)) mod n
                  /\ st' = with_rng (S (rng_pos st)) st).
Proof.
  intros Hn. unfold returns, randbelow, bind. rewrite draw_eq. simpl.
  split; [apply Z.mod_pos_bound; lia | split; reflexivity].
Qed.

Lemma returns_randint a b w st :
  a <= b ->
  returns (randint a b) w st
    (fun r st' => a <= r <= b
                  /\ r = a + Z.of_N (rand_tape w (rng_pos st)) mod (b + 1 - a)
                  /\ st' = with_rng (S (rng_pos st)) st).
Proof.
  intros Hab. unfold randint, randrange.
  destruct (0 <? b + 1 - a) eqn:E; [| apply Z.ltb_ge in E; lia].
  apply returns_bind. eapply returns_weaken; [apply returns_randbelow; lia |].
  intros r st' (Hr & Heq & Hst). apply returns_ret. repeat split; try lia; auto.
Qed.

Lemma randint_empty a b w st :
  b < a -> randint a b w st = (inl (Exn ValueError "empty range for randrange()"), st).
Proof.
  intros Hab. unfold randint, randrange.
  destruct (0 <? b + 1 - a) eqn:E; [apply Z.ltb_lt in E; lia | reflexivity].
Qed.

Lemma returns_choice {A} (seq : list A) w st :
  seq <> [] ->
  returns (choice seq) w st
    (fun x st' => In x seq
                  /\ nth_error seq (Z.to_nat (Z.of_N (rand_tape w (rng_pos st)) mod len seq)) = Some x
                  /\ st' = with_rng (S (rng_pos st)) st).
Proof.
  intros Hne. unfold choice. destruct seq as [| x0 seq0]; [congruence |].
  set (seq := x0 :: seq0). apply returns_bind.
  assert (Hlen : 0 < len seq) by (unfold len; simpl; lia).
  eapply returns_weaken; [apply returns_randbelow; exact Hlen |].
  intros r st' (Hr & Heq & Hst).
  destruct (nth_error seq (Z.to_nat r)) as [x |] eqn:E.
  - apply returns_ret. subst r. repeat split; auto. eapply nth_error_In; eauto.
  - apply nth_error_None in E. unfold len in Hr. lia.
Qed.

Lemma ensures_choice {A} (seq : list A) w st :
  ensures (choice seq) w st (fun x _ => In x seq).
Proof.
  destruct seq as [| x0 seq0]; [exact I |].
  apply returns_ensures. eapply returns_weaken; [apply returns_choice; discriminate |].
  now intros x st' (H & _).
Qed.

(** *** Clock and dates *)

Lemma now_eq w st :
  now w st = (inr (clock w (clock_pos st)), with_clock (S (clock_pos st)) st).
Proof. reflexivity. Qed.

Lemma logger_eq lvl msg w st :
  logger lvl msg w st = (inr tt, with_log (log st ++ [(lvl, msg)]) st).
Proof. reflexivity. Qed.

Lemma returns_minus_days t k w st :
  - 999999999 <= k <= 999999999 ->
  MINORDINAL <= dt_ordinal t - k <= MAXORDINAL ->
  returns (minus_days t k) w st
    (fun d st' => dt_ordinal d = dt_ordinal t - k /\ st' = st).
Proof.
  intros Hk Ho. unfold minus_days.
  destruct (999999999 <? Z.abs k) eqn:E; [apply Z.ltb_lt in E; lia |].
  destruct ((MINORDINAL <=? dt_ordinal t - k) && (dt_ordinal t - k <=? MAXORDINAL)) eqn:E2.
  - apply returns_ret. split; reflexivity.
  - apply andb_false_iff in E2. destruct E2 as [E2 | E2];
      [apply Z.leb_gt in E2 | apply Z.leb_gt in E2]; lia.
Qed.

Lemma returns_random_date self w st :
  0 <= days self -> clock_allows w (days self) ->
  returns (random_date self) w st
    (fun s st' =>
       (exists k, 0 <= k <= days self
          /\ s = strftime_ymd (dt_ordinal (clock w (clock_pos st)) - k))
       /\ st' = with_rng (S (rng_pos st)) (with_clock (S (clock_pos st)) st)).
Proof.
  intros Hd Hc. unfold random_date. apply returns_bind.
  unfold returns at 1. rewrite now_eq.
  apply returns_bind. eapply returns_weaken; [apply returns_randint; exact Hd |].
  intros k st1 (Hk & _ & Hst1). apply returns_bind.
  pose proof (Hc (clock_pos st)) as Hn. unfold MAXORDINAL in *.
  eapply returns_weaken;
    [apply returns_minus_days; unfold MINORDINAL, MAXORDINAL; lia |].
  intros d st2 (Hd2 & Hst2). apply returns_ret. split.
  - exists k. split; [lia | now rewrite Hd2].
  - subst. reflexivity.
Qed.

(** *** The synthetic flight generator *)

Lemma in_band_closed lo hi x : lo <= x <= hi -> in_band true lo hi x = true.
Proof.
  intros H. unfold in_band. apply andb_true_iff. split; apply Z.leb_le; lia.
Qed.

Lemma flight_round self w i st :
  0 <= days self -> clock_allows w (days self) ->
  returns
    (date <- random_date self ;;
     aircraft_type <- choice mil_aircraft ;;
     altitude <- (if negb (i =? 0) then randint 15000 35000
                  else randint 5000 10000) ;;
     speed <- (if negb (i =? 0) then randint 350 500 else randint 200 350) ;;
     ret (VDict
            [ ("date", VStr date);
              ("aircraft_type", VStr aircraft_type);
              ("altitude", VInt altitude);
              ("speed", VInt speed);
              ("pattern",
               VStr (if negb (i =? 0) then "Standard transit"
                     else "Unusual circling pattern"));
              ("transponder",
               VStr (if negb (i =? 0) then "Active" else "Intermittent"));
              ("notes",
               VStr (if negb (i =? 0) then "Normal military movement"
                     else "Unusual activity - requires verification"));
              ("synthetic", VBool true) ])) w st
    (fun r st' =>
       (flight_profile true (i =? 0) r = true
        /\ is_synthetic true r /\ dated_within w (days self) r)
       /\ True).
Proof.
  intros Hd Hc. apply returns_bind.
  eapply returns_weaken; [apply returns_random_date; assumption |].
  intros date st1 ((k & Hk & Hdate) & _). apply returns_bind.
  eapply returns_weaken; [apply returns_choice; discriminate |].
  intros ac st2 _. apply returns_bind.
  destruct (i =? 0); simpl negb; cbv iota.
  - eapply returns_weaken; [apply returns_randint; lia |].
    intros alt st3 (Halt & _). apply returns_bind.
    eapply returns_weaken; [apply returns_randint; lia |].
    intros spd st4 (Hspd & _). apply returns_ret. split; [| exact I].
    repeat split.
    + unfold flight_profile. simpl.
      rewrite !in_band_closed by lia. reflexivity.
    + exists (clock_pos st), k. split; [exact Hk |]. simpl. now rewrite Hdate.
  - eapply returns_weaken; [apply returns_randint; lia |].
    intros alt st3 (Halt & _). apply returns_bind.
    eapply returns_weaken; [apply returns_randint; lia |].
    intros spd st4 (Hspd & _). apply returns_ret. split; [| exact I].
    repeat split.
    + unfold flight_profile. simpl.
      rewrite !in_band_closed by lia. reflexivity.
    + exists (clock_pos st), k. split; [exact Hk |]. simpl. now rewrite Hdate.
Qed.

Lemma flight_generator_returns self area w st :
  0 <= days self -> clock_allows w (days self) ->
  returns (_generate_synthetic_flight_data self area) w st
    (fun l _ =>
       List.length l = 5%nat
       /\ forall j r, nth_error l j = Some r ->
            flight_profile true (0 + Z.of_nat j =? 0) r = true
            /\ is_synthetic true r /\ dated_within w (days self) r).
Proof.
  intros Hd Hc. unfold _generate_synthetic_flight_data.
  eapply returns_weaken.
  - apply (returns_repeat_collect _ w
             (fun i r => flight_profile true (i =? 0) r = true
                         /\ is_synthetic true r /\ dated_within w (days self) r)
             (fun _ => True)); [| exact I].
    intros i st0 _. apply flight_round; assumption.
  - intros l st' (Hlen & Hl & _). split; assumption.
Qed.

(** *** The synthetic military generator *)

Lemma returns_repeat_collect_step {A} (body : Z -> M A) w
    (P : state -> A -> Prop) (f : state -> state) :
  (forall i st, returns (body i) w st (fun a st' => P st a /\ st' = f st)) ->
  forall n i st,
    returns (repeat_collect n i body) w st
      (fun l st' =>
         List.length l = n
         /\ (forall j a, nth_error l j = Some a -> P (Nat.iter j f st) a)
         /\ st' = Nat.iter n f st).
Proof.
  intros Hbody. induction n as [| n IH]; intros i st; simpl repeat_collect.
  - apply returns_ret. repeat split; auto. intros [| j] a; discriminate.
  - apply returns_bind. eapply returns_weaken; [apply (Hbody i st) |].
    intros a st1 [Ha Hst1]. apply returns_bind.
    eapply returns_weaken; [apply (IH (i + 1) st1) |].
    intros l st2 (Hlen & Hl & Hst2). apply returns_ret. repeat split.
    + simpl. now rewrite Hlen.
    + intros [| j] b Hb; simpl in Hb.
      * inversion Hb; subst. exact Ha.
      * rewrite Nat.iter_succ_r. rewrite <- Hst1. auto.
    + rewrite Nat.iter_succ_r. rewrite <- Hst1. exact Hst2.
Qed.

Lemma random_eq w st :
  random w st = (inr (unit_draw (rand_tape w (rng_pos st))),
                 with_rng (S (rng_pos st)) st).
Proof. reflexivity. Qed.

Lemma chosen_index_lt u : (chosen_index u < 5)%nat.
Proof.
  unfold chosen_index. simpl.
  repeat match goal with
         | |- context [if ?b then _ else _] => destruct b
         end; lia.
Qed.

Lemma returns_choices1_activities w st :
  returns (choices1 activities weights) w st
    (fun a st' =>
       nth_error activities (chosen_index (unit_draw (rand_tape w (rng_pos st)))) = Some a
       /\ st' = with_rng (S (rng_pos st)) st).
Proof.
  unfold choices1.
  change (negb (List.length (accumulate 0%Q weights) =? List.length activities)%nat) with false.
  cbv iota.
  change (Qle_bool (last (accumulate 0%Q weights) 0%Q) 0%Q) with false. cbv iota.
  apply returns_bind. unfold returns at 1. rewrite random_eq.
  fold (chosen_index (unit_draw (rand_tape w (rng_pos st)))).
  pose proof (chosen_index_lt (unit_draw (rand_tape w (rng_pos st)))) as Hlt.
  destruct (nth_error activities (chosen_index (unit_draw (rand_tape w (rng_pos st))))) as [a |] eqn:E.
  - apply returns_ret. split; reflexivity.
  - apply nth_error_None in E. simpl in E. lia.
Qed.

Lemma military_round self base_name w st :
  0 <= days self -> clock_allows w (days self) ->
  returns
    (activity_type <- choices1 activities weights ;;
     date <- random_date self ;;
     ret (VDict
            [ ("date", VStr date);
              ("type", VStr (act_type activity_type));
              ("significance", VStr (act_significance activity_type));
              ("description",
               VStr (act_type activity_type ++ " observed at " ++ base_name));
              ("confidence", VStr "Medium - requires verification");
              ("synthetic", VBool true) ])) w st
    (fun r st' =>
       ((exists a,
           nth_error activities
             (chosen_index (unit_draw (rand_tape w (rng_pos st)))) = Some a
           /\ military_record_of a r
           /\ str_field "description" r
              = Some (act_type a ++ " observed at " ++ base_name))
        /\ is_synthetic true r /\ dated_within w (days self) r)
       /\ st' = military_step st).
Proof.
  intros Hd Hc. apply returns_bind.
  eapply returns_weaken; [apply returns_choices1_activities |].
  intros a st1 (Ha & Hst1). apply returns_bind.
  eapply returns_weaken; [apply returns_random_date; assumption |].
  intros date st2 ((k & Hk & Hdate) & Hst2). apply returns_ret.
  split; [split; [| split] |].
  - exists a. repeat split; auto.
  - reflexivity.
  - exists (clock_pos st1), k. split; [exact Hk |]. simpl. now rewrite Hdate.
  - subst. reflexivity.
Qed.

Lemma rng_pos_military_steps j st :
  rng_pos (Nat.iter j military_step st) = (rng_pos st + 2 * j)%nat.
Proof.
  induction j as [| j IH]; simpl; [lia |]. rewrite IH. lia.
Qed.

Lemma military_generator_returns self base_name base_type w st :
  0 <= days self -> clock_allows w (days self) ->
  returns (_generate_synthetic_military_data self base_name base_type) w st
    (fun l st' =>
       List.length l = 5%nat
       /\ (forall j r, nth_error l j = Some r ->
             (exists a,
                nth_error activities
                  (chosen_index
                     (unit_draw (rand_tape w (rng_pos st + 2 * j)%nat))) = Some a
                /\ military_record_of a r
                /\ str_field "description" r
                   = Some (act_type a ++ " observed at " ++ base_name))
             /\ is_synthetic true r /\ dated_within w (days self) r)
       /\ st' = Nat.iter 5 military_step st).
Proof.
  intros Hd Hc. unfold _generate_synthetic_military_data.
  eapply returns_weaken.
  - apply (returns_repeat_collect_step _ w
             (fun st0 r =>
                (exists a,
                   nth_error activities
                     (chosen_index (unit_draw (rand_tape w (rng_pos st0)))) = Some a
                   /\ military_record_of a r
                   /\ str_field "description" r
                      = Some (act_type a ++ " observed at " ++ base_name))
                /\ is_synthetic true r /\ dated_within w (days self) r)
             military_step).
    intros i st0. apply military_round; assumption.
  - intros l st' (Hlen & Hl & Hst'). repeat split; auto.
    + specialize (Hl j r H). rewrite rng_pos_military_steps in Hl. tauto.
    + specialize (Hl j r H). tauto.
    + specialize (Hl j r H). tauto.
Qed.




(** *** The synthetic social-media generator *)

Lemma same_store_refl st : same_store st st.
Proof. repeat split. Qed.

Lemma same_store_trans st1 st2 st3 :
  same_store st1 st2 -> same_store st2 st3 -> same_store st1 st3.
Proof.
  intros (A1 & A2 & A3 & A4) (B1 & B2 & B3 & B4).
  repeat split; congruence.
Qed.

Lemma same_store_with_rng p st : same_store st (with_rng p st).
Proof. repeat split. Qed.

Lemma same_store_with_clock p st : same_store st (with_clock p st).
Proof. repeat split. Qed.

Lemma ensures_and {A} (m : M A) w st (P Q : A -> state -> Prop) :
  ensures m w st P -> ensures m w st Q ->
  ensures m w st (fun a st' => P a st' /\ Q a st').
Proof.
  unfold ensures. destruct (m w st) as [[e | a] st1]; auto.
Qed.

Lemma returns_and_ensures {A} (m : M A) w st (P Q : A -> state -> Prop) :
  returns m w st P -> ensures m w st Q ->
  returns m w st (fun a st' => P a st' /\ Q a st').
Proof.
  unfold returns, ensures. destruct (m w st) as [[e | a] st1]; auto.
Qed.

(** [repeat_collect] when every round leaves the store alone and draws. *)
Lemma returns_repeat_collect_draws {A} (body : Z -> M A) w (P : A -> Prop) :
  (forall i st,
     returns (body i) w st
       (fun a st' => P a /\ same_store st st' /\ (rng_pos st < rng_pos st')%nat)) ->
  forall n i st,
    returns (repeat_collect n i body) w st
      (fun l st' =>
         List.length l = n /\ Forall P l /\ same_store st st'
         /\ (rng_pos st + n <= rng_pos st')%nat).
Proof.
  intros Hbody. induction n as [| n IH]; intros i st; simpl repeat_collect.
  - apply returns_ret. repeat split; auto. lia.
  - apply returns_bind. eapply returns_weaken; [apply (Hbody i st) |].
    intros a st1 (Ha & Hs1 & Hr1). apply returns_bind.
    eapply returns_weaken; [apply (IH (i + 1) st1) |].
    intros l st2 (Hlen & Hl & Hs2 & Hr2). apply returns_ret.
    split; [| split; [| split]].
    + simpl. now rewrite Hlen.
    + now constructor.
    + eapply same_store_trans; eassumption.
    + lia.
Qed.

Lemma template_candidates search_term :
  exists candidates,
    dict_get (template_category_of search_term) templates = Some candidates
    /\ candidates <> [].
Proof.
  unfold template_category_of.
  destruct (contains "nuclear" (lower search_term));
    [| destruct (existsb _ _)];
    (eexists; split; [reflexivity | discriminate]).
Qed.

Lemma ensures_fill_template vars w :
  forall template st,
    ensures (fill_template vars template) w st
      (fun t' _ => In t' (fills vars template)).
Proof.
  induction vars as [| [var_name var_options] vars IH]; intros template st;
    cbn [fill_template fills].
  - apply ensures_ret. now left.
  - apply ensures_bind.
    destruct (contains ("{" ++ var_name ++ "}") template).
    + apply ensures_bind. eapply ensures_weaken; [apply ensures_choice |].
      intros v st1 Hv. apply ensures_ret.
      eapply ensures_weaken; [apply IH |].
      intros t' st2 Ht'. apply in_flat_map. exists v. split; assumption.
    + apply ensures_ret. apply IH.
Qed.

Lemma returns_fill_template vars w :
  Forall (fun kv => snd kv <> []) vars ->
  forall template st,
    returns (fill_template vars template) w st
      (fun _ st' => same_store st st' /\ (rng_pos st <= rng_pos st')%nat).
Proof.
  induction 1 as [| [var_name var_options] vars Hne _ IH]; intros template st;
    cbn [fill_template].
  - apply returns_ret. split; [apply same_store_refl | lia].
  - apply returns_bind.
    destruct (contains ("{" ++ var_name ++ "}") template).
    + apply returns_bind.
      eapply returns_weaken; [apply returns_choice; exact Hne |].
      intros v st1 (_ & _ & Hst1). apply returns_ret.
      eapply returns_weaken; [apply IH |].
      intros t' st2 (Hs & Hr). subst st1. split.
      * eapply same_store_trans; [apply same_store_with_rng | exact Hs].
      * simpl in Hr. lia.
    + apply returns_ret. apply IH.
Qed.

Lemma variables_options_nonempty : Forall (fun kv => snd kv <> []) variables.
Proof. repeat constructor; discriminate. Qed.

Lemma ensures_randint a b w st (Q : Z -> state -> Prop) :
  (forall r st', Q r st') -> ensures (randint a b) w st Q.
Proof.
  intros H. unfold ensures. destruct (randint a b w st) as [[e | r] st']; auto.
Qed.

Lemma ensures_any {A} (m : M A) w st (Q : A -> state -> Prop) :
  (forall r st', Q r st') -> ensures m w st Q.
Proof.
  intros H. unfold ensures. destruct (m w st) as [[e | r] st']; auto.
Qed.

Lemma social_generator_ensures self search_term w st :
  ensures (_generate_synthetic_social_media self search_term) w st
    (fun l _ => Forall (synthetic_post search_term) l).
Proof.
  unfold _generate_synthetic_social_media.
  apply ensures_repeat_collect. intros i st0.
  destruct (template_candidates search_term) as (candidates & Hc & Hne).
  rewrite Hc. apply ensures_bind. apply ensures_ret.
  apply ensures_bind. eapply ensures_weaken; [apply ensures_choice |].
  intros t st1 Ht. apply ensures_bind.
  eapply ensures_weaken; [apply ensures_fill_template |].
  intros c st2 Hcontent.
  apply ensures_bind_any. intros k st3.
  apply ensures_bind_any. intros now_ st4.
  apply ensures_bind_any. intros d st5.
  apply ensures_bind_any. intros n st6.
  apply ensures_ret. repeat split.
  exists t, c. split; [| reflexivity].
  exists candidates. auto.
Qed.

Lemma social_generator_returns self search_term w st :
  0 <= days self -> clock_allows w (days self) ->
  returns (_generate_synthetic_social_media self search_term) w st
    (fun l st' =>
       (List.length l = 5%nat /\ Forall (dated_within w (days self)) l
        /\ same_store st st' /\ (rng_pos st + 5 <= rng_pos st')%nat)
       /\ Forall (synthetic_post search_term) l).
Proof.
  intros Hd Hc. apply returns_and_ensures;
    [| apply social_generator_ensures].
  unfold _generate_synthetic_social_media.
  apply returns_repeat_collect_draws. intros i st0.
  destruct (template_candidates search_term) as (candidates & Hcand & Hne).
  rewrite Hcand. apply returns_bind. apply returns_ret.
  apply returns_bind. eapply returns_weaken; [apply returns_choice; exact Hne |].
  intros t st1 (_ & _ & Hst1). apply returns_bind.
  eapply returns_weaken;
    [apply returns_fill_template; apply variables_options_nonempty |].
  intros c st2 (Hs2 & Hr2). apply returns_bind.
  eapply returns_weaken; [apply returns_randint; exact Hd |].
  intros k st3 (Hk & _ & Hst3). apply returns_bind.
  unfold returns at 1. rewrite now_eq. apply returns_bind.
  pose proof (Hc (clock_pos st3)) as Hn. unfold MAXORDINAL in Hn.
  eapply returns_weaken;
    [apply returns_minus_days; unfold MINORDINAL, MAXORDINAL; lia |].
  intros d st5 (Hd5 & Hst5). apply returns_bind.
  eapply returns_weaken; [apply returns_randint; lia |].
  intros n st6 (_ & _ & Hst6). apply returns_ret.
  split; [| split].
  - exists (clock_pos st3), k. split; [exact Hk |]. simpl. now rewrite Hd5.
  - subst st6 st5 st3 st1. destruct Hs2 as (A1 & A2 & A3 & A4). simpl in *.
    repeat split; simpl; congruence.
  - subst st6 st5 st3 st1. simpl in *. lia.
Qed.

(** *** The web fetcher *)

Lemma only_log_refl st : only_log st st.
Proof. repeat split. Qed.

Lemma only_log_trans st1 st2 st3 :
  only_log st1 st2 -> only_log st2 st3 -> only_log st1 st3.
Proof.
  intros (A1 & A2 & A3 & A4 & A5) (B1 & B2 & B3 & B4 & B5).
  repeat split; congruence.
Qed.

Lemma only_log_with_log l st : only_log st (with_log l st).
Proof. repeat split. Qed.

Lemma parse_tweets_eq instance w divs :
  forall st,
    parse_tweets instance divs w st
    = (inr (map (parse_tweet instance) divs), st).
Proof.
  induction divs as [| div divs IH]; intros st; [reflexivity |].
  cbn [parse_tweets map]. unfold bind, try_except, ret at 1.
  rewrite IH. reflexivity.
Qed.

Lemma try_instance_spec search_term instance w st :
  exists st',
    only_log st st'
    /\ try_except (try_instance search_term instance)
         (fun e =>
            logger ERROR ("Error with Nitter instance " ++ instance ++ ": "
                          ++ exn_msg e) ;;;
            ret None) w st
       = (inr (option_map
                 (fun divs => map (parse_tweet instance) (firstn 10 divs))
                 (endpoint_yields w search_term instance)), st').
Proof.
  unfold try_except, try_instance, bind, ask, endpoint_yields.
  fold (search_url instance search_term).
  destruct (http_get w (search_url instance search_term)) as [e | status divs].
  - unfold raise. rewrite logger_eq. eexists. split; [| reflexivity].
    apply only_log_with_log.
  - destruct (status =? 200).
    + destruct divs as [| d ds].
      * rewrite logger_eq. eexists. split; [| reflexivity].
        apply only_log_with_log.
      * rewrite parse_tweets_eq. rewrite logger_eq.
        eexists. split; [| reflexivity]. apply only_log_with_log.
    + destruct divs; eexists; (split; [apply only_log_refl | reflexivity]).
Qed.

Lemma scrape_instances_spec search_term w instances :
  forall st,
    exists st',
      only_log st st'
      /\ scrape_instances search_term instances w st
         = (inr match first_yielding w search_term instances with
                | Some (instance, divs) =>
                    map (parse_tweet instance) (firstn 10 divs)
                | None => []
                end, st').
Proof.
  induction instances as [| instance rest IH]; intros st.
  - cbn [scrape_instances first_yielding]. unfold bind. rewrite logger_eq.
    eexists. split; [apply only_log_with_log | reflexivity].
  - cbn [scrape_instances first_yielding].
    destruct (try_instance_spec search_term instance w st) as (st1 & Hl1 & E1).
    unfold bind at 1. rewrite E1.
    destruct (endpoint_yields w search_term instance) as [divs |];
      cbn [option_map].
    + exists st1. split; [exact Hl1 | reflexivity].
    + destruct (IH st1) as (st2 & Hl2 & E2). exists st2.
      split; [eapply only_log_trans; eassumption | exact E2].
Qed.

Lemma scrape_social_media_spec self search_term w st :
  exists st',
    only_log st st'
    /\ _scrape_social_media self search_term w st
       = (inr (fetched w search_term), st').
Proof.
  destruct (scrape_instances_spec search_term w nitter_instances st)
    as (st' & Hl & E).
  exists st'. split; [exact Hl |].
  unfold _scrape_social_media, try_except. rewrite E. reflexivity.
Qed.

Lemma fetched_length w search_term :
  (List.length (fetched w search_term) <= 10)%nat.
Proof.
  unfold fetched.
  destruct (first_yielding w search_term nitter_instances) as [[instance divs] |];
    [| simpl; lia].
  rewrite length_map, length_firstn. lia.
Qed.




Lemma fetched_all_real w search_term :
  Forall (is_synthetic false) (fetched w search_term).
Proof.
  unfold fetched.
  destruct (first_yielding w search_term nitter_instances) as [[instance divs] |];
    [| constructor].
  apply Forall_forall. intros r Hr. apply in_map_iff in Hr.
  destruct Hr as (div & <- & _). reflexivity.
Qed.

(** *** Draws are only ever consumed *)

Lemma rng_mono_ret {A} (a : A) w : rng_mono (ret a) w.
Proof. intros st. simpl. lia. Qed.

Lemma rng_mono_raise {A} e w : rng_mono (@raise A e) w.
Proof. intros st. simpl. lia. Qed.

Lemma rng_mono_bind {A B} (m : M A) (k : A -> M B) w :
  rng_mono m w -> (forall a, rng_mono (k a) w) -> rng_mono (bind m k) w.
Proof.
  intros Hm Hk st. unfold bind. specialize (Hm st).
  destruct (m w st) as [[e | a] st1]; simpl in *; [exact Hm |].
  specialize (Hk a st1). lia.
Qed.

Lemma rng_advances_bind {A B} (m : M A) (k : A -> M B) w :
  rng_advances m w -> (forall a, rng_mono (k a) w) -> rng_advances (bind m k) w.
Proof.
  intros Hm Hk st. unfold bind. specialize (Hm st).
  destruct (m w st) as [[e | a] st1]; simpl in *; [exact Hm |].
  specialize (Hk a st1). lia.
Qed.

Lemma rng_advances_ret_bind {A B} (a : A) (k : A -> M B) w :
  rng_advances (k a) w -> rng_advances (bind (ret a) k) w.
Proof. intros H st. exact (H st). Qed.

Lemma rng_advances_mono {A} (m : M A) w : rng_advances m w -> rng_mono m w.
Proof. intros H st. specialize (H st). lia. Qed.

Lemma rng_advances_draw w : rng_advances draw w.
Proof. intros st. simpl. lia. Qed.

Lemma rng_advances_randbelow n w : rng_advances (randbelow n) w.
Proof.
  apply rng_advances_bind; [apply rng_advances_draw |].
  intros a. apply rng_mono_ret.
Qed.

Lemma rng_mono_randint a b w : rng_mono (randint a b) w.
Proof.
  unfold randint, randrange. destruct (0 <? b + 1 - a).
  - apply rng_mono_bind; [apply rng_advances_mono, rng_advances_randbelow |].
    intros r. apply rng_mono_ret.
  - apply rng_mono_raise.
Qed.

Lemma rng_advances_choice {A} (seq : list A) w :
  seq <> [] -> rng_advances (choice seq) w.
Proof.
  intros Hne. destruct seq as [| x seq]; [congruence |].
  unfold choice. apply rng_advances_bind; [apply rng_advances_randbelow |].
  intros i. destruct (nth_error _ _); [apply rng_mono_ret | apply rng_mono_raise].
Qed.

Lemma rng_mono_choice {A} (seq : list A) w : rng_mono (choice seq) w.
Proof.
  destruct seq as [| x seq]; [apply rng_mono_raise |].
  apply rng_advances_mono, rng_advances_choice. discriminate.
Qed.

Lemma rng_mono_now w : rng_mono now w.
Proof. intros st. simpl. lia. Qed.

Lemma rng_mono_minus_days t k w : rng_mono (minus_days t k) w.
Proof.
  unfold minus_days. destruct (999999999 <? Z.abs k); [apply rng_mono_raise |].
  destruct (_ && _); [apply rng_mono_ret | apply rng_mono_raise].
Qed.

Lemma rng_mono_fill_template vars w :
  forall template, rng_mono (fill_template vars template) w.
Proof.
  induction vars as [| [var_name var_options] vars IH]; intros template;
    cbn [fill_template].
  - apply rng_mono_ret.
  - apply rng_mono_bind; [| exact IH].
    destruct (contains _ template); [| apply rng_mono_ret].
    apply rng_mono_bind; [apply rng_mono_choice |].
    intros v. apply rng_mono_ret.
Qed.

Lemma rng_mono_repeat_collect {A} (body : Z -> M A) w :
  (forall i, rng_mono (body i) w) ->
  forall n i, rng_mono (repeat_collect n i body) w.
Proof.
  intros Hb. induction n as [| n IH]; intros i; cbn [repeat_collect].
  - apply rng_mono_ret.
  - apply rng_mono_bind; [apply Hb |]. intros x.
    apply rng_mono_bind; [apply IH |]. intros xs. apply rng_mono_ret.
Qed.

Lemma social_round_tail_mono self w (template : string) :
  rng_mono
    (template <- fill_template variables template ;;
     random_days_ago <- randint 0 (days self) ;;
     t <- now ;;
     d <- minus_days t random_days_ago ;;
     let post_date := strftime_ymd (dt_ordinal d) in
     n <- randint 1000 9999 ;;
     ret (VDict
            [ ("platform", VStr "Twitter (synthetic)");
              ("user", VStr ("Synthetic_User_" ++ str_of_Z n));
              ("content", VStr template);
              ("date", VStr post_date);
              ("synthetic", VBool true);
              ("source", VStr "Algorithmically generated for analysis") ])) w.
Proof.
  apply rng_mono_bind; [apply rng_mono_fill_template |]. intros c.
  apply rng_mono_bind; [apply rng_mono_randint |]. intros k.
  apply rng_mono_bind; [apply rng_mono_now |]. intros t.
  apply rng_mono_bind; [apply rng_mono_minus_days |]. intros d.
  apply rng_mono_bind; [apply rng_mono_randint |]. intros n.
  apply rng_mono_ret.
Qed.

Lemma repeat_collect_S {A} n i (body : Z -> M A) :
  repeat_collect (S n) i body
  = (x <- body i ;; xs <- repeat_collect n (i + 1) body ;; ret (x :: xs)).
Proof. reflexivity. Qed.

(** Every call of the synthetic social-media generator consumes a draw,
    also when it ends in an exception. *)
Lemma social_generator_draws self search_term w :
  rng_advances (_generate_synthetic_social_media self search_term) w.
Proof.
  unfold _generate_synthetic_social_media.
  destruct (template_candidates search_term) as (candidates & Hc & Hne).
  rewrite Hc. rewrite repeat_collect_S.
  apply rng_advances_bind.
  - apply rng_advances_ret_bind.
    apply rng_advances_bind; [apply rng_advances_choice; exact Hne |].
    intros t. apply social_round_tail_mono.
  - intros x. apply rng_mono_bind; [| intros xs; apply rng_mono_ret].
    apply rng_mono_repeat_collect. intros i.
    apply rng_mono_bind; [apply rng_mono_ret |]. intros l.
    apply rng_mono_bind; [apply rng_mono_choice |]. intros t.
    apply social_round_tail_mono.
Qed.

Lemma append_social_eq v w st :
  append_social v w st
  = (inr tt, with_results (social_appended v (results st)) st).
Proof. reflexivity. Qed.


(** *** Provenance of the generated records *)

Lemma records_of_ensures (m : M (list value)) w st (P : value -> Prop) :
  ensures m w st (fun l _ => Forall P l) -> Forall P (records_of (m w st)).
Proof.
  unfold ensures, records_of. destruct (m w st) as [[e | l] st']; simpl; auto.
Qed.

Lemma flight_generator_ensures self area w st :
  ensures (_generate_synthetic_flight_data self area) w st
    (fun l _ => Forall (is_synthetic true) l).
Proof.
  unfold _generate_synthetic_flight_data.
  apply ensures_repeat_collect. intros i st0.
  apply ensures_bind_any. intros date st1.
  apply ensures_bind_any. intros ac st2.
  apply ensures_bind_any. intros alt st3.
  apply ensures_bind_any. intros spd st4.
  apply ensures_ret. reflexivity.
Qed.

Lemma military_generator_ensures self base_name base_type w st :
  ensures (_generate_synthetic_military_data self base_name base_type) w st
    (fun l _ => Forall (is_synthetic true) l).
Proof.
  unfold _generate_synthetic_military_data.
  apply ensures_repeat_collect. intros i st0.
  apply ensures_bind_any. intros a st1.
  apply ensures_bind_any. intros date st2.
  apply ensures_ret. reflexivity.
Qed.




(** *** Calendar dates and their rendering *)

Lemma Z_range_forallb (P : Z -> bool) (lo hi : Z) :
  forallb P (map (fun i => lo + Z.of_nat i) (seq 0 (Z.to_nat (hi + 1 - lo))))
  = true ->
  forall x, lo <= x <= hi -> P x = true.
Proof.
  intros H x Hx. rewrite forallb_forall in H. apply H.
  apply in_map_iff. exists (Z.to_nat (x - lo)). split; [lia |].
  apply in_seq. lia.
Qed.








(** *** The constructor *)

Lemma ensure_dirs_returns w dirs_needed :
  (forall d, In d dirs_needed -> path_exists w d = true \/ fs_error w d = None) ->
  forall st,
    returns
      (for_each dirs_needed
         (fun dir_path =>
            w <- ask ;;
            if negb (path_exists w dir_path) then makedirs dir_path else ret tt))
      w st
      (fun _ st' =>
         rng_pos st' = rng_pos st /\ clock_pos st' = clock_pos st
         /\ results st' = results st /\ files st' = files st
         /\ log st' = log st).
Proof.
  induction dirs_needed as [| d ds IH]; intros Hok st; cbn [for_each].
  - apply returns_ret. repeat split.
  - apply returns_bind. apply returns_bind. unfold returns at 1, ask.
    assert (Hd : path_exists w d = true \/ fs_error w d = None)
      by (apply Hok; now left).
    assert (Hrest : forall d', In d' ds ->
                      path_exists w d' = true \/ fs_error w d' = None)
      by (intros d' Hd'; apply Hok; now right).
    destruct (path_exists w d) eqn:Ep; cbn [negb].
    + apply returns_ret. apply IH. exact Hrest.
    + destruct Hd as [Hd | Hd]; [discriminate |].
      unfold returns at 1, makedirs. rewrite Hd.
      eapply returns_weaken; [apply IH; exact Hrest |].
      cbn. intros _ st' H. exact H.
Qed.


Lemma Forall_nth_error {A} (P : A -> Prop) (l : list A) :
  (forall j a, nth_error l j = Some a -> P a) -> Forall P l.
Proof.
  intros H. apply Forall_forall. intros a Ha.
  destruct (In_nth_error _ _ Ha) as (j & Hj). eauto.
Qed.


(** *** The satellite phase *)

Lemma satellite_only_refl st : satellite_only st st.
Proof. repeat split. Qed.

Lemma satellite_only_trans st1 st2 st3 :
  satellite_only st1 st2 -> satellite_only st2 st3 -> satellite_only st1 st3.
Proof.
  intros (A1 & A2 & A3 & A4 & A5) (B1 & B2 & B3 & B4 & B5).
  repeat split; congruence.
Qed.

Lemma site_step self site w st :
  exists st' entries,
    try_except (analyze_site self site)
      (fun e =>
         logger ERROR ("Error analyzing satellite imagery for "
                       ++ site_name site ++ ": " ++ exn_msg e)) w st
    = (inr tt, st')
    /\ satellite_only st st'
    /\ names_in "site_name" (satellite_analysis (results st'))
       = (names_in "site_name" (satellite_analysis (results st))
          ++ (if site_saved w self site then [Some (site_name site)] else []))%list
    /\ log st' = (log st ++ entries)%list
    /\ (forall e, fs_error w (placeholder_path self site) = Some e ->
          In (site_error_line site e) entries).
Proof.
  unfold try_except, analyze_site, _create_satellite_placeholder, bind.
  rewrite logger_eq. unfold write_file, site_saved.
  fold (placeholder_path self site). cbn [files with_log log].
  destruct (fs_error w (placeholder_path self site)) as [e |] eqn:E.
  - rewrite logger_eq. eexists. eexists. split; [reflexivity |].
    split; [repeat split |]. split; [cbn; now rewrite app_nil_r |].
    split.
    + cbn [log with_log]. rewrite <- app_assoc. reflexivity.
    + intros e' He'. inversion He'; subst. right. now left.
  - rewrite logger_eq. unfold append_satellite, bind, get_results, set_results.
    eexists. eexists. split; [reflexivity |].
    split; [repeat split |]. split.
    + cbn. unfold names_in. rewrite map_app. reflexivity.
    + split; [cbn [log with_log]; rewrite <- app_assoc; reflexivity |].
      intros e He. discriminate.
Qed.

Lemma sites_loop self w sites :
  forall st,
    exists st' entries,
      for_each sites
        (fun site =>
           try_except (analyze_site self site)
             (fun e =>
                logger ERROR ("Error analyzing satellite imagery for "
                              ++ site_name site ++ ": " ++ exn_msg e))) w st
      = (inr tt, st')
      /\ satellite_only st st'
      /\ names_in "site_name" (satellite_analysis (results st'))
         = (names_in "site_name" (satellite_analysis (results st))
            ++ map (fun site => Some (site_name site))
                 (filter (site_saved w self) sites))%list
      /\ log st' = (log st ++ entries)%list
      /\ (forall site e, In site sites ->
            fs_error w (placeholder_path self site) = Some e ->
            In (site_error_line site e) entries).
Proof.
  induction sites as [| site sites IH]; intros st; cbn [for_each filter].
  - exists st, []. split; [reflexivity |]. split; [apply satellite_only_refl |].
    split; [cbn; now rewrite app_nil_r |]. split; [now rewrite app_nil_r |].
    intros site e [].
  - destruct (site_step self site w st) as (st1 & en1 & E1 & F1 & N1 & L1 & R1).
    destruct (IH st1) as (st2 & en2 & E2 & F2 & N2 & L2 & R2).
    exists st2, (en1 ++ en2)%list. unfold bind at 1. rewrite E1.
    split; [exact E2 |]. split; [eapply satellite_only_trans; eassumption |].
    split.
    + rewrite N2, N1. rewrite <- app_assoc. f_equal.
      destruct (site_saved w self site); reflexivity.
    + split; [rewrite L2, L1; now rewrite app_assoc |].
      intros s e [-> | Hs] He; apply in_or_app; [left | right]; eauto.
Qed.

Lemma satellite_phase_spec self w st :
  exists st',
    analyze_satellite_imagery self w st = (inr tt, st')
    /\ satellite_only st st'
    /\ names_in "site_name" (satellite_analysis (results st'))
       = (names_in "site_name" (satellite_analysis (results st))
          ++ map (fun site => Some (site_name site))
               (filter (site_saved w self) nuclear_sites))%list
    /\ (forall site e, In site nuclear_sites ->
          fs_error w (placeholder_path self site) = Some e ->
          In (site_error_line site e) (log st')).
Proof.
  unfold analyze_satellite_imagery. unfold bind at 1. rewrite logger_eq.
  destruct (sites_loop self w nuclear_sites
              (with_log (log st ++ [(INFO, "Analyzing satellite imagery...")]) st))
    as (st1 & entries & E & F & N & L & R).
  unfold bind at 1. rewrite E. rewrite logger_eq.
  eexists. split; [reflexivity |]. split; [exact F |]. split; [exact N |].
  intros site e Hs He. cbn [log with_log]. rewrite L.
  apply in_or_app. left. apply in_or_app. right. eauto.
Qed.

(** *** The [location] lists *)

Lemma fills_location_checked :
  forallb
    (fun kv =>
       forallb
         (fun t => forallb (location_from_second t) (fills variables t))
         (snd kv))
    templates = true.
Proof. vm_compute. reflexivity. Qed.

Lemma dict_get_In {A} k (d : list (string * A)) v :
  dict_get k d = Some v -> In (k, v) d.
Proof.
  induction d as [| [k' v'] d IH]; cbn; [discriminate |].
  destruct (String.eqb k k') eqn:E.
  - apply String.eqb_eq in E. subst. intros H. inversion H. now left.
  - intros H. right. auto.
Qed.

Lemma made_from_template_location search_term t c :
  made_from_template search_term t c -> location_from_second t c = true.
Proof.
  intros (candidates & Hc & Ht & Hf).
  pose proof fills_location_checked as H. rewrite forallb_forall in H.
  specialize (H _ (dict_get_In _ _ _ Hc)). cbn [snd] in H.
  rewrite forallb_forall in H. specialize (H t Ht).
  rewrite forallb_forall in H. exact (H c Hf).
Qed.

Lemma bind_ret_r {A} (m : M A) w st : bind m (fun a => ret a) w st = m w st.
Proof. unfold bind. destruct (m w st) as [[e | a] st']; reflexivity. Qed.

Lemma bind_assoc {A B C} (m : M A) (k : A -> M B) (h : B -> M C) w st :
  bind (bind m k) h w st = bind m (fun a => bind (k a) h) w st.
Proof. unfold bind. destruct (m w st) as [[e | a] st']; reflexivity. Qed.

Lemma bind_ext {A B} (m : M A) (k1 k2 : A -> M B) w st :
  (forall a st', k1 a w st' = k2 a w st') -> bind m k1 w st = bind m k2 w st.
Proof.
  intros H. unfold bind. destruct (m w st) as [[e | a] st']; auto.
Qed.

Lemma fill_template_app vars1 vars2 w :
  forall template st,
    fill_template (vars1 ++ vars2) template w st
    = bind (fill_template vars1 template)
        (fun template' => fill_template vars2 template') w st.
Proof.
  induction vars1 as [| [var_name var_options] vars1 IH]; intros template st.
  - reflexivity.
  - cbn [app fill_template]. rewrite bind_assoc.
    apply bind_ext. intros t st'. apply IH.
Qed.

(** *** The report *)

Lemma ensures_sum_results_count w l :
  forall st,
    ensures (sum_results_count l) w st
      (fun n st' => n = post_total l /\ st' = st).
Proof.
  induction l as [| r l IH]; intros st; cbn [sum_results_count].
  - apply ensures_ret. split; reflexivity.
  - destruct r as [| b | z | f | s | vs | d]; try exact I.
    cbn [post_total fold_right int_field].
    destruct (dict_get "results_count" d) as [[| b | n | f | s | vs | d'] |];
      try exact I.
    apply ensures_bind. eapply ensures_weaken; [apply IH |].
    intros m st' (Hm & Hst). apply ensures_ret. subst. split; reflexivity.
Qed.

Lemma split_after (a x y : string) :
  (exists h, x = h ++ y) -> exists h, a ++ x = h ++ y.
Proof.
  intros (h & ->). exists (a ++ h). induction a as [| c a IH]; cbn; congruence.
Qed.

Lemma summary_text_post_count self r a b c d posts :
  exists head,
    summary_text self r a b c d posts
    = head ++ " search terms (" ++ str_of_Z posts ++ summary_tail.
Proof.
  unfold summary_text.
  repeat first [ (exists ""; reflexivity) | apply split_after ].
Qed.

Lemma summary_tail_conclusion :
  exists h, summary_tail = h ++ conclusion_section.
Proof. unfold summary_tail. eexists. reflexivity. Qed.

Lemma append_assoc_string (a b c : string) : (a ++ b) ++ c = a ++ b ++ c.
Proof. induction a as [| x a IH]; cbn; congruence. Qed.

Lemma contains_prefix_append s rest : contains s (s ++ rest) = true.
Proof.
  assert (H : String.prefix s (s ++ rest) = true).
  { induction s as [| c s IH]; cbn; [now destruct rest |].
    destruct (ascii_dec c c) as [_ | Hne]; [exact IH | congruence]. }
  destruct (s ++ rest); cbn; cbn in H; rewrite H; reflexivity.
Qed.

Lemma contains_append_l sub h s :
  contains sub s = true -> contains sub (h ++ s) = true.
Proof.
  intros H. induction h as [| c h IH]; cbn [append]; [exact H |].
  cbn [contains]. rewrite IH. apply orb_true_r.
Qed.

Lemma contains_conclusion_section h :
  contains conclusion_sentence (h ++ conclusion_section) = true.
Proof. apply contains_append_l. vm_compute. reflexivity. Qed.

Lemma summary_text_conclusion self r a b c d posts :
  exists head, summary_text self r a b c d posts = head ++ conclusion_section.
Proof.
  destruct (summary_text_post_count self r a b c d posts) as (h1 & ->).
  destruct summary_tail_conclusion as (h2 & ->).
  exists (h1 ++ " search terms (" ++ str_of_Z posts ++ h2).
  rewrite !append_assoc_string. reflexivity.
Qed.

Lemma read_file_app_tail path c fs tail :
  read_file path tail = Some c -> read_file path (fs ++ tail) = Some c.
Proof.
  intros H. induction fs as [| [p c'] fs IH]; cbn [app read_file]; [exact H |].
  now rewrite IH.
Qed.

Lemma generate_summary_ensures self w st :
  ensures (generate_summary self) w st
    (fun s st' =>
       results st' = results st
       /\ read_file summary_path (files st') = Some (Text s)
       /\ read_file results_path (files st')
          = Some (Json (results_value (results st)))
       /\ (exists head,
             s = head ++ " search terms ("
                 ++ str_of_Z (post_total (social_media (results st)))
                 ++ summary_tail)
       /\ (exists head, s = head ++ conclusion_section)).
Proof.
  unfold generate_summary. apply ensures_bind. unfold ensures at 1.
  rewrite logger_eq. apply ensures_bind. unfold ensures at 1, get_results.
  cbn [results with_log].
  set (st0 := with_log _ st). apply ensures_bind.
  assert (Hsum : ensures
            (if negb (is_empty (social_media (results st)))
             then sum_results_count (social_media (results st)) else ret 0)
            w st0
            (fun n st' => n = post_total (social_media (results st)) /\ st' = st0)).
  { destruct (social_media (results st)) as [| r l] eqn:E; cbn [is_empty negb].
    - apply ensures_ret. split; reflexivity.
    - apply ensures_sum_results_count. }
  eapply ensures_weaken; [exact Hsum |].
  intros n st1 (-> & ->). apply ensures_bind. unfold ensures at 1, write_file.
  destruct (fs_error w summary_path); [exact I |].
  apply ensures_bind. unfold ensures at 1, write_file.
  destruct (fs_error w results_path); [exact I |]. cbn [files].
  apply ensures_bind. unfold ensures at 1. rewrite logger_eq.
  apply ensures_ret. cbn [results files with_log].
  split; [reflexivity |]. split.
  { rewrite <- app_assoc. apply read_file_app_tail. reflexivity. }
  split.
  { rewrite <- app_assoc. apply read_file_app_tail. reflexivity. }
  split; [apply summary_text_post_count | apply summary_text_conclusion].
Qed.

Lemma run_ensures claim0 days0 syn w st :
  ensures (run claim0 days0 syn) w st
    (fun r st' =>
       exists s,
         read_file summary_path (files st') = Some (Text s)
         /\ read_file results_path (files st') = Some (Json (results_value r))
         /\ (exists head,
               s = head ++ " search terms ("
                   ++ str_of_Z (post_total (social_media r)) ++ summary_tail)
         /\ (exists head, s = head ++ conclusion_section)).
Proof.
  unfold run. apply ensures_bind_any. intros self st0. unfold analyze.
  do 6 (apply ensures_bind_any; intros ? ?).
  apply ensures_bind. eapply ensures_weaken; [apply generate_summary_ensures |].
  intros s st' (Hr & Hs & Hj & Hc & Hk). unfold ensures, get_results.
  exists s. rewrite Hr. auto.
Qed.

(** *** The phases on a well-formed lookback window *)

Lemma returns_for_each {A} (body : A -> M unit) w (Inv : state -> Prop) xs :
  (forall x st, In x xs -> Inv st -> returns (body x) w st (fun _ st' => Inv st')) ->
  forall st, Inv st -> returns (for_each xs body) w st (fun _ st' => Inv st').
Proof.
  induction xs as [| x xs IH]; intros Hbody st Hst; cbn [for_each].
  - apply returns_ret. exact Hst.
  - apply returns_bind.
    eapply returns_weaken; [apply Hbody; [now left | exact Hst] |].
    intros u st1 Hst1. apply IH; [| exact Hst1].
    intros y st2 Hy. apply Hbody. now right.
Qed.

Lemma set_in_last_app k v l d :
  set_in_last k v (l ++ [VDict d]) = Some (l ++ [VDict (dict_set k v d)])%list.
Proof.
  induction l as [| x l IH]; [reflexivity |].
  cbn [app set_in_last]. rewrite IH.
  destruct (l ++ [VDict d])%list eqn:E.
  - destruct l; discriminate.
  - destruct x; reflexivity.
Qed.

Lemma flight_generator_frame self area w st :
  0 <= days self -> clock_allows w (days self) ->
  returns (_generate_synthetic_flight_data self area) w st
    (fun _ st' => same_store st st').
Proof.
  intros Hd Hc. unfold _generate_synthetic_flight_data.
  eapply returns_weaken;
    [apply (returns_repeat_collect_draws _ w (fun _ => True)) |].
  - intros i st0. apply returns_bind.
    eapply returns_weaken; [apply returns_random_date; assumption |].
    intros date st1 (_ & Hst1). apply returns_bind.
    eapply returns_weaken; [apply returns_choice; discriminate |].
    intros ac st2 (_ & _ & Hst2). apply returns_bind.
    assert (Halt : returns
              (if negb (i =? 0) then randint 15000 35000 else randint 5000 10000)
              w st2 (fun _ st' => st' = with_rng (S (rng_pos st2)) st2)).
    { destruct (negb (i =? 0));
        (eapply returns_weaken; [apply returns_randint; lia |]);
        intros r st' (_ & _ & H); exact H. }
    eapply returns_weaken; [exact Halt |]. intros alt st3 Hst3.
    apply returns_bind.
    assert (Hspd : returns
              (if negb (i =? 0) then randint 350 500 else randint 200 350)
              w st3 (fun _ st' => st' = with_rng (S (rng_pos st3)) st3)).
    { destruct (negb (i =? 0));
        (eapply returns_weaken; [apply returns_randint; lia |]);
        intros r st' (_ & _ & H); exact H. }
    eapply returns_weaken; [exact Hspd |]. intros spd st4 Hst4.
    apply returns_ret. subst. cbn. split; [exact I |].
    split; [repeat split | lia].
  - intros l st' (_ & _ & Hs & _). exact Hs.
Qed.

Lemma analyze_area_returns self area w st :
  0 <= days self -> clock_allows w (days self) ->
  returns (analyze_area self area) w st (fun _ _ => True).
Proof.
  intros Hd Hc. unfold analyze_area. apply returns_bind.
  unfold returns at 1. rewrite logger_eq. apply returns_bind.
  unfold returns at 1, get_results. apply returns_bind.
  unfold returns at 1, set_flight_data, bind, get_results, set_results.
  destruct (include_synthetic self); [| exact I].
  apply returns_bind.
  eapply returns_weaken; [apply flight_generator_frame; assumption |].
  intros flights st1 (Hr & _). apply returns_bind.
  unfold returns at 1, get_results. rewrite Hr. cbn [results flight_data].
  rewrite set_in_last_app. exact I.
Qed.

Lemma military_generator_frame self base_name base_type w st :
  0 <= days self -> clock_allows w (days self) ->
  returns (_generate_synthetic_military_data self base_name base_type) w st
    (fun _ _ => True).
Proof.
  intros Hd Hc. eapply returns_weaken;
    [apply military_generator_returns; assumption | auto].
Qed.

Lemma analyze_base_returns self base w st :
  0 <= days self -> clock_allows w (days self) ->
  returns (analyze_base self base) w st (fun _ _ => True).
Proof.
  intros Hd Hc. unfold analyze_base. apply returns_bind.
  unfold returns at 1. rewrite logger_eq. apply returns_bind.
  destruct (include_synthetic self).
  - apply returns_bind.
    eapply returns_weaken; [apply military_generator_frame; assumption |].
    intros acts st1 Hacts. apply returns_bind. unfold returns at 1.
    rewrite logger_eq. apply returns_ret. exact I.
  - apply returns_ret. exact I.
Qed.

Lemma analyze_term_returns self term w st :
  0 <= days self -> clock_allows w (days self) ->
  returns (analyze_term self term) w st (fun _ _ => True).
Proof.
  intros Hd Hc. unfold analyze_term. apply returns_bind.
  unfold returns at 1. rewrite logger_eq. apply returns_bind.
  destruct (scrape_social_media_spec self term w
              (with_log
                 (log st ++ [(INFO, "Searching for social media mentions of '"
                                    ++ term ++ "'")]) st))
    as (st1 & _ & E).
  unfold returns at 1. rewrite E. apply returns_bind.
  assert (Hfin : forall (tweets : list value) st0,
            returns
              (if negb (is_empty tweets)
               then append_social
                      (VDict [ ("search_term", VStr term);
                               ("date_range", date_range self);
                               ("results_count", VInt (len tweets));
                               ("posts", VList tweets) ])
               else ret tt) w st0 (fun _ _ => True)).
  { intros tweets st0. destruct (negb (is_empty tweets)); exact I. }
  destruct (is_empty (fetched w term) && include_synthetic self).
  - apply returns_bind.
    eapply returns_weaken; [apply social_generator_returns; assumption |].
    intros posts st2 Hposts. apply returns_bind. unfold returns at 1.
    rewrite logger_eq. apply returns_ret. apply Hfin.
  - apply returns_ret. apply Hfin.
Qed.

(** On a lookback window of at least zero days that the clock allows, the
    four phases return in every environment: no failure of the network or
    of saving an image ends a phase. *)
Lemma phases_return self w st :
  0 <= days self -> clock_allows w (days self) ->
  returns (analyze_satellite_imagery self) w st (fun _ _ => True)
  /\ returns (analyze_flight_data self) w st (fun _ _ => True)
  /\ returns (analyze_military_movements self) w st (fun _ _ => True)
  /\ returns (analyze_social_media self) w st (fun _ _ => True).
Proof.
  intros Hd Hc. split; [| split; [| split]].
  - destruct (satellite_phase_spec self w st) as (st' & E & _).
    unfold returns. rewrite E. exact I.
  - unfold analyze_flight_data. apply returns_bind. unfold returns at 1.
    rewrite logger_eq. apply returns_bind.
    eapply returns_weaken;
      [apply (returns_for_each _ w (fun _ => True)); [| exact I] |].
    + intros area st0 _ _. apply analyze_area_returns; assumption.
    + intros u st1 Hu. unfold returns. rewrite logger_eq. exact I.
  - unfold analyze_military_movements. apply returns_bind. unfold returns at 1.
    rewrite logger_eq. apply returns_bind.
    eapply returns_weaken;
      [apply (returns_for_each _ w (fun _ => True)); [| exact I] |].
    + intros base st0 _ _. apply analyze_base_returns; assumption.
    + intros u st1 Hu. unfold returns. rewrite logger_eq. exact I.
  - unfold analyze_social_media. apply returns_bind. unfold returns at 1.
    rewrite logger_eq. apply returns_bind.
    eapply returns_weaken;
      [apply (returns_for_each _ w (fun _ => True)); [| exact I] |].
    + intros term st0 _ _. apply analyze_term_returns; assumption.
    + intros u st1 Hu. unfold returns. rewrite logger_eq. exact I.
Qed.

(* ================================================================== *)
(** ** The claims *)

(** C3. Social-media phase policy for one search term.  The fetcher always
    returns (here: [fetched w term]) and only writes to the log.  When it
    returns entries, the term's sub-record holds exactly those entries and
    the state is the one the fetcher left, so the synthetic generator, which
    consumes a draw whenever it runs, was not invoked.  When it returns
    nothing and synthetic mode is on, the generator's posts are recorded in
    its place (or its exception ends the step).  When it returns nothing and
    synthetic mode is off, nothing is appended for the term. *)
Theorem social_phase_policy (self : self_t) (term : string) (w : world)
    (st : state) :
  exists st1,
    _scrape_social_media self term w
      (with_log (log st ++ [term_log_line term]) st)
    = (inr (fetched w term), st1)
    /\ only_log st st1
    /\ rng_advances (_generate_synthetic_social_media self term) w
    /\ match fetched w term with
       | _ :: _ =>
           analyze_term self term w st
           = (inr tt,
              with_results
                (social_appended (term_record self term (fetched w term))
                   (results st1)) st1)
       | [] =>
           if include_synthetic self then
             match _generate_synthetic_social_media self term w st1 with
             | (inr posts, st2) =>
                 exists st',
                   analyze_term self term w st = (inr tt, st')
                   /\ social_media (results st')
                      = (social_media (results st2)
                         ++ (if is_empty posts then []
                             else [term_record self term posts]))%list
             | (inl e, st2) => analyze_term self term w st = (inl e, st2)
             end
           else analyze_term self term w st = (inr tt, st1)
       end.
Proof.
  destruct (scrape_social_media_spec self term w
              (with_log (log st ++ [term_log_line term]) st))
    as (st1 & Hl & E).
  exists st1. split; [exact E |]. split.
  { eapply only_log_trans; [apply only_log_with_log | exact Hl]. }
  split; [apply social_generator_draws |].
  unfold term_log_line in E.
  destruct (fetched w term) as [| t ts] eqn:Ef.
  - destruct (include_synthetic self) eqn:Es.
    + destruct (_generate_synthetic_social_media self term w st1)
        as [[e | posts] st2] eqn:Eg.
      * unfold analyze_term, bind. rewrite logger_eq, E, Es. cbn [is_empty andb].
        rewrite Eg. reflexivity.
      * unfold analyze_term, bind. rewrite logger_eq, E, Es. cbn [is_empty andb].
        rewrite Eg. rewrite logger_eq. cbn [ret].
        destruct posts as [| p ps]; cbn [is_empty negb].
        -- eexists. split; [reflexivity |]. cbn. now rewrite app_nil_r.
        -- rewrite append_social_eq. eexists. split; reflexivity.
    + unfold analyze_term, bind. rewrite logger_eq, E, Es. reflexivity.
  - unfold analyze_term, bind. rewrite logger_eq, E.
    cbn [is_empty andb negb ret]. rewrite append_social_eq. reflexivity.
Qed.


(** C1. Every record carries an explicit provenance flag.  Each record
    handed back by the synthetic flight, military and social-media
    generators has the field [synthetic] present and equal to [True]; each
    record handed back by the web fetcher has the field [synthetic] present
    and equal to [False]. *)
Theorem provenance_flag_explicit (self : self_t) (w : world) (st : state) :
  (forall area,
     Forall (is_synthetic true)
       (records_of (_generate_synthetic_flight_data self area w st)))
  /\ (forall base_name base_type,
        Forall (is_synthetic true)
          (records_of
             (_generate_synthetic_military_data self base_name base_type w st)))
  /\ (forall search_term,
        Forall (is_synthetic true)
          (records_of (_generate_synthetic_social_media self search_term w st)))
  /\ (forall search_term,
        Forall (is_synthetic false)
          (records_of (_scrape_social_media self search_term w st))).
Proof.
  split; [| split; [| split]].
  - intros area. apply records_of_ensures, flight_generator_ensures.
  - intros base_name base_type.
    apply records_of_ensures, military_generator_ensures.
  - intros search_term. apply records_of_ensures.
    eapply ensures_weaken; [apply social_generator_ensures |].
    intros l st' Hl. eapply Forall_impl; [| exact Hl].
    intros r Hr. apply Hr.
  - intros search_term.
    destruct (scrape_social_media_spec self search_term w st) as (st' & _ & E).
    rewrite E. apply fetched_all_real.
Qed.

(** C2 (as amended).  For every area name and every lookback window of at
    least zero days that the clock allows, synthetic flight generation
    returns exactly 5 records; the first has altitude in [5000,10000] and
    speed in [200,350], both ends included, with transponder
    "Intermittent" and pattern "Unusual circling pattern"; the other four
    have altitude in [15000,35000] and speed in [350,500], both ends
    included, with transponder "Active" and pattern "Standard transit". *)
Theorem synthetic_flight_batch (self : self_t) (area : string) (w : world)
    (st : state) :
  0 <= days self -> clock_allows w (days self) ->
  exists flights st',
    _generate_synthetic_flight_data self area w st = (inr flights, st')
    /\ List.length flights = 5%nat
    /\ flight_batch true flights = true.
Proof.
  intros Hd Hc.
  destruct (returns_eq _ _ _ _ (flight_generator_returns self area w st Hd Hc))
    as (l & st' & E & Hlen & Hl).
  exists l, st'. split; [exact E |]. split; [exact Hlen |].
  destruct l as [| r0 [| r1 [| r2 [| r3 [| r4 [| r5 l]]]]]]; try discriminate.
  destruct (Hl 0%nat r0 eq_refl) as (H0 & _).
  destruct (Hl 1%nat r1 eq_refl) as (H1 & _).
  destruct (Hl 2%nat r2 eq_refl) as (H2 & _).
  destruct (Hl 3%nat r3 eq_refl) as (H3 & _).
  destruct (Hl 4%nat r4 eq_refl) as (H4 & _).
  cbn in H0, H1, H2, H3, H4. unfold flight_batch.
  rewrite H0, H1, H2, H3, H4. reflexivity.
Qed.

(** The batch theorem at a concrete input: one week, an idle tape. *)
Lemma synthetic_flight_batch_witness :
  exists flights st',
    _generate_synthetic_flight_data (sample_self 7 true) "Kahuta Region"
      (offline_world zero_tape sample_today) initial_state
    = (inr flights, st')
    /\ List.length flights = 5%nat
    /\ flight_batch true flights = true.
Proof.
  apply (synthetic_flight_batch (sample_self 7 true) "Kahuta Region"
           (offline_world zero_tape sample_today) initial_state).
  - simpl. lia.
  - intros n. simpl. unfold sample_today, MAXORDINAL. lia.
Defined.

(** C2 as stated fails: with half-open bands the batch is rejected on a
    tape that makes [randint] return its upper end, where the first record
    has altitude 10000 and speed 350. *)
Lemma flight_upper_end_reached :
  let flights :=
    records_of
      (_generate_synthetic_flight_data (sample_self 7 true) "Kahuta Region"
         (offline_world upper_end_tape sample_today) initial_state) in
  List.length flights = 5%nat
  /\ option_map (int_field "altitude") (nth_error flights 0) = Some (Some 10000)
  /\ option_map (int_field "speed") (nth_error flights 0) = Some (Some 350)
  /\ flight_batch false flights = false
  /\ flight_batch true flights = true.
Proof. vm_compute. repeat split. Qed.








(** C8. The [variables] display holds the key [location] twice; the
    dictionary it builds keeps one [location] entry, in the place of the
    first, holding the second list ("Kahuta", "Sargodha", "Kamra",
    "Chashma", "Karachi nuclear plant"); the first list is the value of no
    entry.  So the substitution of [{location}] draws its value from the
    second list, and every generated post is a fill of a template of its
    category in which no entry of the first list occurs and, when the
    template has a [{location}] placeholder, an entry of the second list
    does. *)
Theorem location_list_shadowed :
  count_occ string_dec (map fst variables_display) "location" = 2%nat
  /\ dict_get "location" variables_display = Some location_first
  /\ map fst variables
     = ["intensity"; "location"; "official"; "activity"; "claimed_activity";
        "exercise_type"]
  /\ dict_get "location" variables = Some location_second
  /\ (forall k opts, In (k, opts) variables -> opts <> location_first)
  /\ (forall template w st,
        fill_template variables template w st
        = (template <- fill_template (firstn 1 variables) template ;;
           template <-
             (if contains "{location}" template then
                v <- choice location_second ;;
                ret (replace "{location}" v template)
              else ret template) ;;
           fill_template (skipn 2 variables) template) w st)
  /\ (forall self search_term w st,
        Forall
          (fun r =>
             exists t c,
               made_from_template search_term t c
               /\ str_field "content" r = Some c
               /\ location_from_second t c = true)
          (records_of (_generate_synthetic_social_media self search_term w st))).
Proof.
  split; [reflexivity |]. split; [reflexivity |]. split; [reflexivity |].
  split; [reflexivity |]. split.
  { intros k opts Hin Heq. subst opts. vm_compute in Hin.
    repeat (destruct Hin as [Hin | Hin]; [discriminate Hin |]). exact Hin. }
  split.
  { intros template w st.
    change (fill_template variables template w st) with
      (fill_template
         (firstn 1 variables
          ++ ("location", location_second) :: skipn 2 variables)
         template w st).
    rewrite fill_template_app. reflexivity. }
  intros self search_term w st. apply records_of_ensures.
  eapply ensures_weaken; [apply social_generator_ensures |].
  intros l st' Hl. eapply Forall_impl; [| exact Hl].
  intros r (_ & _ & t & c & Hm & Hc). exists t, c.
  split; [exact Hm |]. split; [exact Hc |].
  eapply made_from_template_location; eassumption.
Qed.

(** C9. For every completed run, the text summary and the JSON document
    the run wrote agree on the post count: the summary reads
    "... search terms (N posts)" followed by its fixed closing text, where
    N is the sum of the [results_count] fields of the sub-records of the
    [social_media] collection of the JSON document. *)
Theorem summary_post_count_matches_json (claim0 : string) (days0 : Z)
    (syn : bool) (w : world) (st : state) :
  match run claim0 days0 syn w st with
  | (inr r, st') =>
      exists s v head,
        read_file summary_path (files st') = Some (Text s)
        /\ read_file results_path (files st') = Some (Json v)
        /\ v = results_value r
        /\ s = head ++ " search terms (" ++ str_of_Z (json_post_total v)
               ++ summary_tail
  | (inl _, _) => True
  end.
Proof.
  pose proof (run_ensures claim0 days0 syn w st) as H. unfold ensures in H.
  destruct (run claim0 days0 syn w st) as [[e | r] st']; [exact I |].
  destruct H as (s & Hs & Hj & (head & Hc) & _).
  exists s, (results_value r), head. repeat split; assumption.
Qed.

(** The post-count theorem on a run that completes: one week, no network,
    synthetic mode on; five terms of five posts each. *)
Lemma summary_post_count_witness :
  let w := offline_world zero_tape sample_today in
  let r := run "India strikes Pakistan nuclear sites" 7 true w initial_state in
  (exists res, fst r = inr res /\ post_total (social_media res) = 25)
  /\ match r with
     | (inr res, st') =>
         exists s v head,
           read_file summary_path (files st') = Some (Text s)
           /\ read_file results_path (files st') = Some (Json v)
           /\ v = results_value res
           /\ s = head ++ " search terms (" ++ str_of_Z (json_post_total v)
                  ++ summary_tail
     | (inl _, _) => True
     end.
Proof.
  split.
  - vm_compute. eexists. split; reflexivity.
  - exact (summary_post_count_matches_json
             "India strikes Pakistan nuclear sites" 7 true
             (offline_world zero_tape sample_today) initial_state).
Defined.

(** C10. The CONCLUSION section of the summary is a constant.  Whatever
    the object and the collected results, the summary text ends with the
    same fixed section, which holds the sentence "Based on available free
    data sources, there is no credible evidence supporting the claim.";
    and for any two completed runs, whatever their claim texts, lookback
    windows, synthetic flags and environments, both written summaries end
    with that section and contain that sentence. *)
Theorem conclusion_is_constant (claim1 claim2 : string) (days1 days2 : Z)
    (syn1 syn2 : bool) (w1 w2 : world) (st1 st2 : state) :
  (exists rest,
     conclusion_section = "CONCLUSION:" ++ nl ++ conclusion_sentence ++ rest)
  /\ (forall self r a b c d posts,
        exists head,
          summary_text self r a b c d posts = head ++ conclusion_section)
  /\ match run claim1 days1 syn1 w1 st1, run claim2 days2 syn2 w2 st2 with
     | (inr _, st1'), (inr _, st2') =>
         exists s1 s2 h1 h2,
           read_file summary_path (files st1') = Some (Text s1)
           /\ read_file summary_path (files st2') = Some (Text s2)
           /\ s1 = h1 ++ conclusion_section
           /\ s2 = h2 ++ conclusion_section
           /\ contains conclusion_sentence s1 = true
           /\ contains conclusion_sentence s2 = true
     | _, _ => True
     end.
Proof.
  split; [eexists; reflexivity |]. split; [apply summary_text_conclusion |].
  pose proof (run_ensures claim1 days1 syn1 w1 st1) as H1.
  pose proof (run_ensures claim2 days2 syn2 w2 st2) as H2.
  unfold ensures in H1, H2.
  destruct (run claim1 days1 syn1 w1 st1) as [[e1 | r1] st1']; [exact I |].
  destruct (run claim2 days2 syn2 w2 st2) as [[e2 | r2] st2']; [exact I |].
  destruct H1 as (s1 & Hs1 & _ & _ & (h1 & Hc1)).
  destruct H2 as (s2 & Hs2 & _ & _ & (h2 & Hc2)).
  exists s1, s2, h1, h2. repeat split; try assumption.
  - rewrite Hc1. apply contains_conclusion_section.
  - rewrite Hc2. apply contains_conclusion_section.
Qed.

(** The conclusion theorem on two runs that complete and differ in claim,
    window, synthetic flag and draws. *)
Lemma conclusion_is_constant_witness :
  let w1 := offline_world zero_tape sample_today in
  let w2 := offline_world upper_end_tape (sample_today + 40) in
  let r1 := run "India strikes Pakistan nuclear sites" 7 true w1
              initial_state in
  let r2 := run "No strike took place" 30 false w2 initial_state in
  (exists res1 res2, fst r1 = inr res1 /\ fst r2 = inr res2)
  /\ match r1, r2 with
     | (inr _, st1'), (inr _, st2') =>
         exists s1 s2 h1 h2,
           read_file summary_path (files st1') = Some (Text s1)
           /\ read_file summary_path (files st2') = Some (Text s2)
           /\ s1 = h1 ++ conclusion_section
           /\ s2 = h2 ++ conclusion_section
           /\ contains conclusion_sentence s1 = true
           /\ contains conclusion_sentence s2 = true
     | _, _ => True
     end.
Proof.
  intros w1 w2 r1 r2. split.
  - vm_compute. eexists. eexists. split; reflexivity.
  - destruct (conclusion_is_constant
                "India strikes Pakistan nuclear sites" "No strike took place"
                7 30 true false w1 w2 initial_state initial_state)
      as (_ & _ & H).
    exact H.
Defined.

(* ================================================================== *)
(** ** Further properties of the program *)

Import Props.

(** *** The constructor *)

Lemma ensure_dirs_spec w ds :
  forall st,
    match for_each ds
            (fun dir_path =>
               w <- ask ;;
               if negb (path_exists w dir_path) then makedirs dir_path
               else ret tt) w st with
    | (inr _, st') =>
        dirs st' = (dirs st ++ filter (missing w) ds)%list
        /\ files st' = files st /\ log st' = log st
        /\ results st' = results st /\ rng_pos st' = rng_pos st
        /\ clock_pos st' = clock_pos st
    | (inl e, st') =>
        files st' = files st /\ log st' = log st
        /\ exists before d after,
             ds = (before ++ d :: after)%list /\ missing w d = true
             /\ fs_error w d = Some e
             /\ dirs st' = (dirs st ++ filter (missing w) before)%list
    end.
Proof.
  induction ds as [| d ds IH]; intros st; cbn [for_each filter].
  - cbn. rewrite app_nil_r. repeat split.
  - unfold bind at 1. unfold bind at 1. unfold ask at 1.
    change (missing w d) with (negb (path_exists w d)).
    destruct (path_exists w d) eqn:Ep; cbn [negb].
    + unfold ret at 1. specialize (IH st).
      destruct (for_each ds _ w st) as [[e | []] st'].
      * destruct IH as (F & L & before & d' & after & -> & M & Er & D).
        split; [exact F |]. split; [exact L |].
        exists (d :: before), d', after. cbn [app filter].
        change (missing w d) with (negb (path_exists w d)).
        rewrite Ep. cbn [negb]. repeat split; assumption.
      * exact IH.
    + unfold makedirs at 1. destruct (fs_error w d) as [e |] eqn:Ee.
      * split; [reflexivity |]. split; [reflexivity |].
        exists [], d, ds. cbn [app filter]. unfold missing. rewrite Ep.
        rewrite app_nil_r. repeat split. exact Ee.
      * match goal with |- context [for_each ds ?b w ?s] =>
          specialize (IH s); destruct (for_each ds b w s) as [[e | []] st']
        end; cbn [dirs files log results rng_pos clock_pos] in IH.
        -- destruct IH as (F & L & before & d' & after & -> & M & Er & D).
           split; [exact F |]. split; [exact L |].
           exists (d :: before), d', after. cbn [app filter].
           change (missing w d) with (negb (path_exists w d)).
           rewrite Ep. cbn [negb].
           rewrite D, <- app_assoc. repeat split; assumption.
        -- destruct IH as (D & R). rewrite D, <- app_assoc.
           split; [reflexivity | exact R].
Qed.

(** X1. [__init__] creates each of its three working directories exactly
    when the directory does not exist yet, in the order of its list, and
    leaves an existing directory alone.  The constructor can fail in two
    ways only: the lookback window leaves the range of dates (nothing has
    been created then), or the operating system refuses to create a missing
    directory (the directories before it have been created).  In no case
    does it write a file or a log line. *)
Theorem init_creates_missing_directories (claim0 : string) (days0 : Z)
    (syn : bool) (w : world) (st : state) :
  match init claim0 days0 syn w st with
  | (inr self, st') =>
      dirs st' = (dirs st ++ filter (missing w) working_dirs)%list
      /\ files st' = files st /\ log st' = log st
  | (inl e, st') =>
      files st' = files st /\ log st' = log st
      /\ ((exn_kind e = OverflowError /\ dirs st' = dirs st)
          \/ exists before d after,
               working_dirs = (before ++ d :: after)%list
               /\ missing w d = true /\ fs_error w d = Some e
               /\ dirs st' = (dirs st ++ filter (missing w) before)%list)
  end.
Proof.
  unfold init. unfold bind at 1. rewrite now_eq.
  unfold bind at 1. unfold minus_days.
  destruct (999999999 <? Z.abs days0).
  { unfold raise. cbn. repeat split. left. split; reflexivity. }
  destruct ((MINORDINAL <=? dt_ordinal (clock w (clock_pos st)) - days0)
            && (dt_ordinal (clock w (clock_pos st)) - days0 <=? MAXORDINAL)).
  2: { unfold raise. cbn. repeat split. left. split; reflexivity. }
  unfold ret at 1. unfold bind at 1. rewrite now_eq.
  unfold bind at 1. rewrite now_eq.
  unfold bind at 1. unfold set_results at 1.
  unfold bind at 1.
  match goal with |- context [for_each ?ds ?b w ?s] =>
    pose proof (ensure_dirs_spec w ds s) as H;
    destruct (for_each ds b w s) as [[e | []] st']
  end; cbn [dirs files log results rng_pos clock_pos with_clock] in H.
  - destruct H as (F & L & R). split; [exact F |]. split; [exact L |].
    right. exact R.
  - unfold ret. destruct H as (D & F & L & _). fold working_dirs in D.
    repeat split; assumption.
Qed.

(** X2. A lookback window that reaches before the first or past the last
    day of the calendar makes [__init__] raise [OverflowError] after its
    first reading of the clock: no directory is created, the results are
    not initialised and nothing is logged. *)
Theorem init_window_out_of_range (claim0 : string) (days0 : Z) (syn : bool)
    (w : world) (st : state) :
  dt_ordinal (clock w (clock_pos st)) - days0 < MINORDINAL
  \/ MAXORDINAL < dt_ordinal (clock w (clock_pos st)) - days0 ->
  exists msg,
    init claim0 days0 syn w st
    = (inl (Exn OverflowError msg), with_clock (S (clock_pos st)) st).
Proof.
  intros H. unfold init. unfold bind at 1. rewrite now_eq.
  unfold bind at 1. unfold minus_days.
  destruct (999999999 <? Z.abs days0); [eexists; reflexivity |].
  destruct (MINORDINAL <=? dt_ordinal (clock w (clock_pos st)) - days0) eqn:E1;
    destruct (dt_ordinal (clock w (clock_pos st)) - days0 <=? MAXORDINAL) eqn:E2;
    cbn [andb]; try (eexists; reflexivity).
  apply Z.leb_le in E1, E2. lia.
Qed.

Lemma init_window_out_of_range_witness :
  exists msg,
    init "India strikes Pakistan nuclear sites" 800000 true
      (offline_world zero_tape sample_today) initial_state
    = (inl (Exn OverflowError msg), with_clock 1 initial_state).
Proof.
  apply (init_window_out_of_range "India strikes Pakistan nuclear sites"
           800000 true (offline_world zero_tape sample_today) initial_state).
  left. vm_compute. reflexivity.
Defined.

(** *** The satellite phase *)

Lemma site_step_full self site w st :
  exists st',
    try_except (analyze_site self site)
      (fun e =>
         logger ERROR ("Error analyzing satellite imagery for "
                       ++ site_name site ++ ": " ++ exn_msg e)) w st
    = (inr tt, st')
    /\ satellite_only st st' /\ dirs st' = dirs st
    /\ log st' = (log st ++ site_log self w site)%list
    /\ match fs_error w (placeholder_path self site) with
       | None =>
           exists f r,
             files st' = (files st ++ [f])%list
             /\ satellite_analysis (results st')
                = (satellite_analysis (results st) ++ [r])%list
             /\ fst f = placeholder_path self site
             /\ str_field "site_name" r = Some (site_name site)
             /\ image_of f r
       | Some _ =>
           files st' = files st
           /\ satellite_analysis (results st')
              = satellite_analysis (results st)
       end.
Proof.
  unfold try_except, analyze_site, _create_satellite_placeholder, bind.
  rewrite logger_eq. unfold write_file, site_log.
  fold (placeholder_path self site). cbn [files with_log log].
  destruct (fs_error w (placeholder_path self site)) as [e |] eqn:E.
  - rewrite logger_eq. eexists. split; [reflexivity |].
    split; [repeat split |]. split; [reflexivity |].
    split; [| split; reflexivity].
    cbn [log with_log]. rewrite <- app_assoc. reflexivity.
  - rewrite logger_eq. unfold append_satellite, bind, get_results, set_results.
    eexists. split; [reflexivity |].
    split; [repeat split |]. split; [reflexivity |].
    split; [cbn [log with_log]; rewrite <- app_assoc; reflexivity |].
    eexists. eexists. split; [reflexivity |]. split; [reflexivity |].
    split; [reflexivity |]. split; [reflexivity |].
    split; [reflexivity |]. eexists. split; [reflexivity |].
    split; [reflexivity |].
    split; [eexists; split; reflexivity |].
    split; eexists; split; reflexivity.
Qed.

Lemma sites_loop_full self w sites :
  forall st,
    exists st' new_files new_records,
      for_each sites
        (fun site =>
           try_except (analyze_site self site)
             (fun e =>
                logger ERROR ("Error analyzing satellite imagery for "
                              ++ site_name site ++ ": " ++ exn_msg e))) w st
      = (inr tt, st')
      /\ satellite_only st st' /\ dirs st' = dirs st
      /\ log st' = (log st ++ flat_map (site_log self w) sites)%list
      /\ files st' = (files st ++ new_files)%list
      /\ satellite_analysis (results st')
         = (satellite_analysis (results st) ++ new_records)%list
      /\ Forall2 image_of new_files new_records
      /\ map fst new_files
         = map (placeholder_path self) (filter (site_saved w self) sites)
      /\ names_in "site_name" new_records
         = map (fun site => Some (site_name site))
             (filter (site_saved w self) sites).
Proof.
  induction sites as [| site sites IH]; intros st;
    cbn [for_each filter flat_map].
  - exists st, [], []. split; [reflexivity |].
    split; [apply satellite_only_refl |]. split; [reflexivity |].
    rewrite !app_nil_r. repeat split. constructor.
  - destruct (site_step_full self site w st) as (st1 & E1 & F1 & D1 & L1 & R1).
    destruct (IH st1)
      as (st2 & fs2 & rs2 & E2 & F2 & D2 & L2 & Fi2 & S2 & I2 & P2 & N2).
    unfold bind at 1. rewrite E1.
    pose proof (eq_refl : site_saved w self site
                          = match fs_error w (placeholder_path self site) with
                            | None => true
                            | Some _ => false
                            end) as Hsv.
    destruct (fs_error w (placeholder_path self site)) as [e |] eqn:Ee;
      rewrite Hsv.
    + destruct R1 as (Fi1 & S1).
      exists st2, fs2, rs2. split; [exact E2 |].
      split; [eapply satellite_only_trans; eassumption |].
      split; [congruence |].
      split; [rewrite L2, L1, <- app_assoc; reflexivity |].
      split; [congruence |]. split; [congruence |].
      split; [exact I2 |]. split; assumption.
    + destruct R1 as (f & r & Fi1 & S1 & Pf & Nr & If).
      exists st2, (f :: fs2), (r :: rs2). split; [exact E2 |].
      split; [eapply satellite_only_trans; eassumption |].
      split; [congruence |].
      split; [rewrite L2, L1, <- app_assoc; reflexivity |].
      split; [rewrite Fi2, Fi1, <- app_assoc; reflexivity |].
      split; [rewrite S2, S1, <- app_assoc; reflexivity |].
      split; [constructor; assumption |].
      split; [cbn [map]; congruence |].
      cbn [map names_in]. rewrite Nr. f_equal. exact N2.
Qed.

Lemma satellite_phase_full self w st :
  exists st' new_files new_records,
    analyze_satellite_imagery self w st = (inr tt, st')
    /\ satellite_only st st' /\ dirs st' = dirs st
    /\ log st'
       = (log st ++ (INFO, "Analyzing satellite imagery...")
            :: flat_map (site_log self w) nuclear_sites
            ++ [(INFO, "Analyzed 5 nuclear sites")])%list
    /\ files st' = (files st ++ new_files)%list
    /\ satellite_analysis (results st')
       = (satellite_analysis (results st) ++ new_records)%list
    /\ Forall2 image_of new_files new_records
    /\ map fst new_files
       = map (placeholder_path self) (filter (site_saved w self) nuclear_sites)
    /\ names_in "site_name" new_records
       = map (fun site => Some (site_name site))
           (filter (site_saved w self) nuclear_sites).
Proof.
  unfold analyze_satellite_imagery. unfold bind at 1. rewrite logger_eq.
  destruct (sites_loop_full self w nuclear_sites
              (with_log (log st ++ [(INFO, "Analyzing satellite imagery...")]) st))
    as (st1 & fs & rs & E & F & D & L & Fi & S & I & P & N).
  unfold bind at 1. rewrite E. rewrite logger_eq.
  exists (with_log
            (log st1 ++ [(INFO, "Analyzed " ++ str_of_Z (len nuclear_sites)
                                ++ " nuclear sites")]) st1), fs, rs.
  split; [reflexivity |].
  split; [destruct F as (A1 & A2 & A3 & A4 & A5); repeat split; assumption |].
  split; [exact D |].
  split.
  { cbn [log with_log]. rewrite L. cbn [log with_log].
    rewrite <- !app_assoc. reflexivity. }
  split; [exact Fi |]. split; [exact S |]. split; [exact I |].
  split; assumption.
Qed.

(** X3. The satellite phase writes one placeholder image for every record
    it appends to [satellite_analysis], in the same order, at the path the
    record gives as [placeholder_image]; the image shows the site name and
    the two imagery addresses of that record.  Images and records are
    produced for exactly the sites whose image could be saved. *)
Theorem satellite_images_match_records (self : self_t) (w : world)
    (st : state) :
  exists st' new_files new_records,
    analyze_satellite_imagery self w st = (inr tt, st')
    /\ files st' = (files st ++ new_files)%list
    /\ satellite_analysis (results st')
       = (satellite_analysis (results st) ++ new_records)%list
    /\ Forall2 image_of new_files new_records
    /\ map fst new_files
       = map (placeholder_path self) (filter (site_saved w self) nuclear_sites)
    /\ names_in "site_name" new_records
       = map (fun site => Some (site_name site))
           (filter (site_saved w self) nuclear_sites).
Proof.
  destruct (satellite_phase_full self w st)
    as (st' & fs & rs & E & _ & _ & _ & Fi & S & I & P & N).
  exists st', fs, rs. repeat split; assumption.
Qed.

(** X4. The log of the satellite phase: its opening line, for every site
    in list order the line of the site followed by either the line of the
    saved placeholder or the line of the error, and a closing line that
    reports 5 analysed sites whatever the number of sites that failed,
    while the collection grows by the saved sites only. *)
Theorem satellite_log_counts_every_site (self : self_t) (w : world)
    (st : state) :
  exists st',
    analyze_satellite_imagery self w st = (inr tt, st')
    /\ log st'
       = (log st ++ (INFO, "Analyzing satellite imagery...")
            :: flat_map (site_log self w) nuclear_sites
            ++ [(INFO, "Analyzed 5 nuclear sites")])%list
    /\ List.length (satellite_analysis (results st'))
       = (List.length (satellite_analysis (results st))
          + List.length (filter (site_saved w self) nuclear_sites))%nat.
Proof.
  destruct (satellite_phase_full self w st)
    as (st' & fs & rs & E & _ & _ & L & _ & S & _ & _ & N).
  exists st'. split; [exact E |]. split; [exact L |].
  rewrite S, length_app. f_equal.
  unfold names_in in N. apply (f_equal (@List.length _)) in N.
  rewrite !length_map in N. exact N.
Qed.

(** *** A negative lookback window *)













(** *** What a computation leaves as it was *)

Section Always.
Variable R : state -> state -> Prop.
Hypothesis R_refl : forall st, R st st.
Hypothesis R_trans : forall a b c, R a b -> R b c -> R a c.
Variable w : world.

Lemma always_ret {A} (a : A) : always (ret a) w R.
Proof. intros st. apply R_refl. Qed.

Lemma always_raise {A} e : always (@raise A e) w R.
Proof. intros st. apply R_refl. Qed.

Lemma always_bind {A B} (m : M A) (k : A -> M B) :
  always m w R -> (forall a, always (k a) w R) -> always (bind m k) w R.
Proof.
  intros Hm Hk st. unfold bind. specialize (Hm st).
  destruct (m w st) as [[e | a] st1]; cbn [snd] in *; [exact Hm |].
  eapply R_trans; [exact Hm | apply Hk].
Qed.

Lemma always_try_except {A} (body : M A) handler :
  always body w R -> (forall e, always (handler e) w R) ->
  always (try_except body handler) w R.
Proof.
  intros Hb Hh st. unfold try_except. specialize (Hb st).
  destruct (body w st) as [[e | a] st1]; cbn [snd] in *; [| exact Hb].
  eapply R_trans; [exact Hb | apply Hh].
Qed.

Lemma always_for_each {A} (body : A -> M unit) xs :
  (forall x, always (body x) w R) -> always (for_each xs body) w R.
Proof.
  intros Hb. induction xs as [| x xs IH]; cbn [for_each].
  - apply always_ret.
  - apply always_bind; [apply Hb | intros _; exact IH].
Qed.

Lemma always_repeat_collect {A} (body : Z -> M A) :
  (forall i, always (body i) w R) ->
  forall n i, always (repeat_collect n i body) w R.
Proof.
  intros Hb. induction n as [| n IH]; intros i; cbn [repeat_collect].
  - apply always_ret.
  - apply always_bind; [apply Hb |]. intros x.
    apply always_bind; [apply IH |]. intros xs. apply always_ret.
Qed.

Lemma always_if {A} (b : bool) (m1 m2 : M A) :
  always m1 w R -> always m2 w R -> always (if b then m1 else m2) w R.
Proof. destruct b; auto. Qed.

End Always.

Ltac keep_store :=
  repeat lazymatch goal with
    | |- always (ret _) _ _ => apply always_ret; apply same_store_refl
    | |- always (raise _) _ _ => apply always_raise; apply same_store_refl
    | |- always (bind _ _) _ _ =>
        apply always_bind; [apply same_store_trans | | intros ?]
    | |- always (if _ then _ else _) _ _ => apply always_if
    end.

Lemma draw_keeps w : always draw w same_store.
Proof. intros st. rewrite draw_eq. apply same_store_with_rng. Qed.

Lemma now_keeps w : always now w same_store.
Proof. intros st. rewrite now_eq. apply same_store_with_clock. Qed.

Lemma randint_keeps a b w : always (randint a b) w same_store.
Proof.
  unfold randint, randrange, randbelow. keep_store. apply draw_keeps.
Qed.

Lemma choice_keeps {A} (seq : list A) w : always (choice seq) w same_store.
Proof.
  unfold choice, randbelow. destruct seq as [| x seq]; keep_store.
  - apply draw_keeps.
  - destruct (nth_error _ _); keep_store.
Qed.

Lemma minus_days_keeps t k w : always (minus_days t k) w same_store.
Proof. unfold minus_days. keep_store. Qed.

Lemma random_date_keeps self w : always (random_date self) w same_store.
Proof.
  unfold random_date. keep_store.
  - apply now_keeps.
  - apply randint_keeps.
  - apply minus_days_keeps.
Qed.

Lemma choices1_keeps {A} (population : list A) ws w :
  always (choices1 population ws) w same_store.
Proof.
  unfold choices1, random. keep_store.
  - apply draw_keeps.
  - destruct (nth_error _ _); keep_store.
Qed.

Lemma fill_template_keeps vars w :
  forall template, always (fill_template vars template) w same_store.
Proof.
  induction vars as [| [var_name var_options] vars IH]; intros template;
    cbn [fill_template]; keep_store.
  - apply choice_keeps.
  - apply IH.
Qed.

Lemma flight_generator_keeps self area w :
  always (_generate_synthetic_flight_data self area) w same_store.
Proof.
  unfold _generate_synthetic_flight_data.
  apply always_repeat_collect;
    [apply same_store_refl | apply same_store_trans |].
  intros i. keep_store;
    first [apply random_date_keeps | apply choice_keeps | apply randint_keeps].
Qed.

Lemma military_generator_keeps self base_name base_type w :
  always (_generate_synthetic_military_data self base_name base_type) w
    same_store.
Proof.
  unfold _generate_synthetic_military_data.
  apply always_repeat_collect;
    [apply same_store_refl | apply same_store_trans |].
  intros i. keep_store; first [apply choices1_keeps | apply random_date_keeps].
Qed.

Lemma social_generator_keeps self search_term w :
  always (_generate_synthetic_social_media self search_term) w same_store.
Proof.
  unfold _generate_synthetic_social_media.
  apply always_repeat_collect;
    [apply same_store_refl | apply same_store_trans |].
  intros i. apply always_bind; [apply same_store_trans | |].
  - destruct (dict_get _ _); keep_store.
  - intros candidates. keep_store;
      first [ apply choice_keeps | apply fill_template_keeps
            | apply randint_keeps | apply now_keeps | apply minus_days_keeps ].
Qed.

(** *** Collections that only grow *)

Lemma appended_to_refl c st : appended_to c st st.
Proof.
  split; [exists []; now rewrite app_nil_r |]. repeat split.
Qed.

Lemma appended_to_trans c st1 st2 st3 :
  appended_to c st1 st2 -> appended_to c st2 st3 -> appended_to c st1 st3.
Proof.
  intros ((n1 & E1) & O1 & A1 & B1 & C1 & D1)
         ((n2 & E2) & O2 & A2 & B2 & C2 & D2).
  split; [exists (n1 ++ n2)%list; rewrite E2, E1, app_assoc; reflexivity |].
  split; [intros c' Hc; rewrite O2, O1 by exact Hc; reflexivity |].
  repeat split; congruence.
Qed.

Lemma appended_to_same_results c st st' :
  results st' = results st -> appended_to c st st'.
Proof.
  intros E. unfold appended_to. rewrite E.
  split; [exists []; now rewrite app_nil_r |]. repeat split.
Qed.

Lemma same_disk_refl st : same_disk st st.
Proof. split; reflexivity. Qed.

Lemma same_disk_trans st1 st2 st3 :
  same_disk st1 st2 -> same_disk st2 st3 -> same_disk st1 st3.
Proof. intros (A1 & A2) (B1 & B2). split; congruence. Qed.

Lemma logger_appended c lvl msg w : always (logger lvl msg) w (appended_to c).
Proof.
  intros st. rewrite logger_eq. apply appended_to_same_results. reflexivity.
Qed.

Lemma logger_same_disk lvl msg w : always (logger lvl msg) w same_disk.
Proof. intros st. rewrite logger_eq. split; reflexivity. Qed.

(** *** The flight phase *)

Lemma flight_generator_batch self area w st :
  0 <= days self -> clock_allows w (days self) ->
  exists flights st',
    _generate_synthetic_flight_data self area w st = (inr flights, st')
    /\ List.length flights = 5%nat
    /\ flight_batch true flights = true
    /\ Forall (is_synthetic true) flights
    /\ same_store st st'.
Proof.
  intros Hd Hc.
  destruct (returns_eq _ _ _ _ (flight_generator_returns self area w st Hd Hc))
    as (l & st' & E & Hlen & Hl).
  exists l, st'. split; [exact E |]. split; [exact Hlen |].
  split; [| split].
  - destruct l as [| r0 [| r1 [| r2 [| r3 [| r4 [| r5 l]]]]]]; try discriminate.
    destruct (Hl 0%nat r0 eq_refl) as (H0 & _).
    destruct (Hl 1%nat r1 eq_refl) as (H1 & _).
    destruct (Hl 2%nat r2 eq_refl) as (H2 & _).
    destruct (Hl 3%nat r3 eq_refl) as (H3 & _).
    destruct (Hl 4%nat r4 eq_refl) as (H4 & _).
    cbn in H0, H1, H2, H3, H4. unfold flight_batch.
    rewrite H0, H1, H2, H3, H4. reflexivity.
  - apply Forall_nth_error. intros j r Hj. apply (Hl j r Hj).
  - pose proof (flight_generator_keeps self area w st) as K.
    rewrite E in K. exact K.
Qed.

Lemma others_kept_flight st st' :
  satellite_analysis (results st') = satellite_analysis (results st) ->
  military_movements (results st') = military_movements (results st) ->
  social_media (results st') = social_media (results st) ->
  forall c', c' <> Flight -> entries c' (results st') = entries c' (results st).
Proof. intros A B C [] Hc; try assumption. congruence. Qed.

(** The work on one area, by cases on its outcome and on the mode. *)
Lemma area_step_cases self area w st :
  exists e0 st1,
    str_field "area" e0 = Some (area_name area)
    /\ str_field "geographic_bounds" e0 = Some (area_bounds area)
    /\ field "date_range" e0 = Some (date_range self)
    /\ field "synthetic_sample_data" e0 = None
    /\ flight_data (results st1) = (flight_data (results st) ++ [e0])%list
    /\ appended_to Flight st st1 /\ same_disk st st1
    /\ rng_pos st1 = rng_pos st /\ clock_pos st1 = clock_pos st
    /\ match analyze_area self area w st with
       | (inl e, st') =>
           include_synthetic self = true
           /\ _generate_synthetic_flight_data self (area_name area) w st1
              = (inl e, st')
       | (inr _, st') =>
           if include_synthetic self then
             exists flights st2 e1,
               _generate_synthetic_flight_data self (area_name area) w st1
               = (inr flights, st2)
               /\ flight_data (results st')
                  = (flight_data (results st) ++ [e1])%list
               /\ str_field "area" e1 = Some (area_name area)
               /\ str_field "geographic_bounds" e1 = Some (area_bounds area)
               /\ field "date_range" e1 = Some (date_range self)
               /\ field "synthetic_sample_data" e1 = Some (VList flights)
               /\ appended_to Flight st st' /\ same_disk st st'
           else st' = st1
       end.
Proof.
  pose proof (eq_refl (analyze_area self area w st)) as Hdef.
  unfold analyze_area at 2 in Hdef.
  match type of Hdef with
  | context [("area", VStr (area_name area)) :: ?rest] =>
      pose (e0 := VDict (("area", VStr (area_name area)) :: rest))
  end.
  clear Hdef.
  remember
    (snd ((logger INFO ("Collecting flight data for " ++ area_name area) ;;;
           r <- get_results ;; set_flight_data (flight_data r ++ [e0])) w st))
    as st1 eqn:Est1.
  unfold set_flight_data in Est1.
  unfold bind, get_results, set_results in Est1.
  rewrite logger_eq in Est1.
  cbn [snd results with_log rng_pos clock_pos log dirs files] in Est1.
  exists e0, st1. subst st1 e0.
  split; [reflexivity |]. split; [reflexivity |]. split; [reflexivity |].
  split; [reflexivity |]. split; [reflexivity |].
  split.
  { split; [eexists; reflexivity |].
    split; [apply others_kept_flight; reflexivity |]. repeat split. }
  split; [split; reflexivity |]. split; [reflexivity |].
  split; [reflexivity |].
  unfold analyze_area.
  unfold bind at 1. rewrite logger_eq.
  unfold bind at 1. unfold get_results at 1. unfold bind at 1.
  unfold set_flight_data at 1. unfold bind at 1. unfold get_results at 1.
  unfold set_results at 1.
  cbn [results with_log rng_pos clock_pos log dirs files].
  destruct (include_synthetic self); [| reflexivity].
  match goal with
  | |- context [_generate_synthetic_flight_data self (area_name area) w ?s] =>
      pose proof (flight_generator_keeps self (area_name area) w s) as K;
      unfold bind at 1;
      destruct (_generate_synthetic_flight_data self (area_name area) w s)
        as [[e | flights] st2]
  end; [cbv beta iota; split; reflexivity |].
  cbn [snd] in K. destruct K as (Kr & Kf & Kd & Kl).
  cbn [results files dirs log with_log] in Kr, Kf, Kd, Kl.
  unfold bind at 1. unfold bind at 1. unfold get_results at 1.
  rewrite Kr. cbn [flight_data]. rewrite set_in_last_app.
  unfold set_flight_data, bind, get_results, set_results. rewrite logger_eq.
  eexists. eexists. eexists. split; [reflexivity |].
  cbn [results flight_data with_log files dirs satellite_analysis
       military_movements social_media tool version r_claim analysis_date].
  rewrite Kr.
  split; [reflexivity |]. split; [reflexivity |]. split; [reflexivity |].
  split; [reflexivity |]. split; [reflexivity |].
  split.
  { split; [eexists; reflexivity |].
    split; [apply others_kept_flight; reflexivity |]. repeat split. }
  split; assumption.
Qed.

Lemma area_always self area w :
  always (analyze_area self area) w (appended_to Flight)
  /\ always (analyze_area self area) w same_disk.
Proof.
  split; intros st;
    destruct (area_step_cases self area w st)
      as (e0 & st1 & _ & _ & _ & _ & _ & A1 & D1 & _ & _ & C);
    pose proof (flight_generator_keeps self (area_name area) w st1) as K;
    destruct (analyze_area self area w st) as [[e | []] st']; cbn [snd].
  - destruct C as (_ & E). rewrite E in K. destruct K as (Kr & _).
    eapply appended_to_trans; [exact A1 |].
    apply appended_to_same_results. exact Kr.
  - destruct (include_synthetic self).
    + destruct C as (flights & st2 & e1 & _ & _ & _ & _ & _ & _ & A3 & _).
      exact A3.
    + subst st'. exact A1.
  - destruct C as (_ & E). rewrite E in K. destruct K as (_ & Kf & Kd & _).
    eapply same_disk_trans; [exact D1 | split; assumption].
  - destruct (include_synthetic self).
    + destruct C as (flights & st2 & e1 & _ & _ & _ & _ & _ & _ & _ & D3).
      exact D3.
    + subst st'. exact D1.
Qed.

Lemma area_step self area w st :
  (include_synthetic self = true ->
   0 <= days self /\ clock_allows w (days self)) ->
  exists st' e,
    analyze_area self area w st = (inr tt, st')
    /\ flight_data (results st') = (flight_data (results st) ++ [e])%list
    /\ flight_entry self area e
    /\ (include_synthetic self = false ->
        rng_pos st' = rng_pos st /\ clock_pos st' = clock_pos st).
Proof.
  intros Hs.
  destruct (area_step_cases self area w st)
    as (e0 & st1 & N0 & B0 & R0 & S0 & F0 & _ & _ & Rn & Ck & C).
  unfold flight_entry.
  destruct (include_synthetic self) eqn:Hsyn.
  - destruct (Hs eq_refl) as (Hd & Hc).
    destruct (flight_generator_batch self (area_name area) w st1 Hd Hc)
      as (flights & st2 & E & _ & Hb & Hsy & _).
    destruct (analyze_area self area w st) as [[e | []] st'].
    + destruct C as (_ & E'). congruence.
    + destruct C as (fl & st2' & e1 & E' & F1 & N1 & B1 & R1 & S1 & _).
      rewrite E in E'. inversion E'; subst fl st2'.
      exists st', e1. split; [reflexivity |]. split; [exact F1 |].
      split; [| discriminate].
      split; [exact N1 |]. split; [exact B1 |]. split; [exact R1 |].
      exists flights. repeat split; assumption.
  - destruct (analyze_area self area w st) as [[e | []] st'].
    + destruct C as (C & _). discriminate.
    + subst st'. exists st1, e0. split; [reflexivity |]. split; [exact F0 |].
      split; [| intros _; split; assumption].
      repeat split; assumption.
Qed.

Lemma for_each_appends {A} (body : A -> M unit) w (sel : state -> list value)
    (P : A -> value -> Prop) (F : state -> state -> Prop) :
  (forall st, F st st) ->
  (forall a b c, F a b -> F b c -> F a c) ->
  (forall x st, exists st' e,
      body x w st = (inr tt, st')
      /\ sel st' = (sel st ++ [e])%list /\ P x e /\ F st st') ->
  forall xs st, exists st' new,
    for_each xs body w st = (inr tt, st')
    /\ sel st' = (sel st ++ new)%list /\ Forall2 P xs new /\ F st st'.
Proof.
  intros Frefl Ftrans Hb. induction xs as [| x xs IH]; intros st;
    cbn [for_each].
  - exists st, []. rewrite app_nil_r. repeat split; [constructor | apply Frefl].
  - destruct (Hb x st) as (st1 & e & E1 & S1 & P1 & F1).
    destruct (IH st1) as (st2 & new & E2 & S2 & P2 & F2).
    exists st2, (e :: new). unfold bind at 1. rewrite E1.
    split; [exact E2 |].
    split; [rewrite S2, S1, <- app_assoc; reflexivity |].
    split; [constructor; assumption | eapply Ftrans; eassumption].
Qed.

Lemma idle_when_off_refl self st : idle_when_off self st st.
Proof. intros _. split; reflexivity. Qed.

Lemma idle_when_off_trans self a b c :
  idle_when_off self a b -> idle_when_off self b c -> idle_when_off self a c.
Proof.
  intros H1 H2 Hs. destruct (H1 Hs), (H2 Hs). split; congruence.
Qed.

Lemma flight_phase_spec self w st :
  (include_synthetic self = true ->
   0 <= days self /\ clock_allows w (days self)) ->
  exists st' new,
    analyze_flight_data self w st = (inr tt, st')
    /\ flight_data (results st') = (flight_data (results st) ++ new)%list
    /\ Forall2 (flight_entry self) areas new
    /\ idle_when_off self st st'.
Proof.
  intros Hs. unfold analyze_flight_data. unfold bind at 1. rewrite logger_eq.
  destruct (for_each_appends (analyze_area self) w
              (fun s => flight_data (results s)) (flight_entry self)
              (idle_when_off self) (idle_when_off_refl self)
              (idle_when_off_trans self)
              (fun area s => area_step self area w s Hs) areas
              (with_log (log st ++ [(INFO, "Analyzing flight data...")]) st))
    as (st1 & new & E & S & P & F).
  unfold bind at 1. rewrite E. rewrite logger_eq.
  eexists. exists new. split; [reflexivity |].
  split; [exact S |]. split; [exact P | exact F].
Qed.

Lemma flight_phase_always self w :
  always (analyze_flight_data self) w (appended_to Flight)
  /\ always (analyze_flight_data self) w same_disk.
Proof.
  unfold analyze_flight_data. split.
  - apply always_bind; [apply appended_to_trans | apply logger_appended |].
    intros _.
    apply always_bind; [apply appended_to_trans | | intros _; apply logger_appended].
    apply always_for_each; [apply appended_to_refl | apply appended_to_trans |].
    intros area. apply area_always.
  - apply always_bind; [apply same_disk_trans | apply logger_same_disk |].
    intros _.
    apply always_bind; [apply same_disk_trans | | intros _; apply logger_same_disk].
    apply always_for_each; [apply same_disk_refl | apply same_disk_trans |].
    intros area. apply area_always.
Qed.

(** X7. With synthetic mode on, a lookback window of at least zero days
    and a clock that allows it, the flight phase returns in every
    environment and appends one entry per area, in the order of its list;
    each entry carries the area, its bounds, the date range of the run and
    a batch of five synthetic flights.  With synthetic mode off the phase
    returns for every window, and its entries have no
    [synthetic_sample_data] key. *)
Theorem flight_phase_entries (self : self_t) (w : world) (st : state) :
  (include_synthetic self = true ->
   0 <= days self /\ clock_allows w (days self)) ->
  exists st' new,
    analyze_flight_data self w st = (inr tt, st')
    /\ flight_data (results st') = (flight_data (results st) ++ new)%list
    /\ Forall2 (flight_entry self) areas new.
Proof.
  intros Hs.
  destruct (flight_phase_spec self w st Hs) as (st' & new & E & S & P & _).
  exists st', new. repeat split; assumption.
Qed.

Lemma flight_phase_entries_witness :
  exists st' new,
    analyze_flight_data (sample_self 7 true)
      (offline_world zero_tape sample_today) initial_state
    = (inr tt, st')
    /\ flight_data (results st')
       = (flight_data (results initial_state) ++ new)%list
    /\ Forall2 (flight_entry (sample_self 7 true)) areas new.
Proof.
  apply (flight_phase_entries (sample_self 7 true)
           (offline_world zero_tape sample_today) initial_state).
  intros _. split; [cbn; lia |].
  intros n. cbn. unfold sample_today, MAXORDINAL. lia.
Defined.

(** *** The military phase *)

Lemma always_weaken {A} (m : M A) w (R R' : state -> state -> Prop) :
  (forall st st', R st st' -> R' st st') -> always m w R -> always m w R'.
Proof. intros H Hm st. apply H, Hm. Qed.

Lemma same_store_appended c st st' : same_store st st' -> appended_to c st st'.
Proof. intros (Hr & _). apply appended_to_same_results. exact Hr. Qed.

Lemma same_store_same_disk st st' : same_store st st' -> same_disk st st'.
Proof. intros (_ & Hf & Hd & _). split; assumption. Qed.

Lemma only_log_appended c st st' : only_log st st' -> appended_to c st st'.
Proof. intros (_ & _ & Hr & _). apply appended_to_same_results. exact Hr. Qed.

Lemma only_log_same_disk st st' : only_log st st' -> same_disk st st'.
Proof. intros (_ & _ & _ & Hf & Hd). split; assumption. Qed.

Lemma append_military_always v w :
  always (append_military v) w (appended_to Military)
  /\ always (append_military v) w same_disk.
Proof.
  split; intros st; unfold append_military, bind, get_results, set_results;
    cbn [snd].
  - split; [eexists; reflexivity |].
    split; [intros [] Hc; try reflexivity; congruence |]. repeat split.
  - split; reflexivity.
Qed.

Lemma base_always self base w :
  always (analyze_base self base) w (appended_to Military)
  /\ always (analyze_base self base) w same_disk.
Proof.
  unfold analyze_base. split.
  - apply always_bind; [apply appended_to_trans | apply logger_appended |].
    intros _.
    apply always_bind;
      [apply appended_to_trans | | intros d; apply append_military_always].
    apply always_if; [| apply always_ret; apply appended_to_refl].
    apply always_bind; [apply appended_to_trans | |].
    + eapply always_weaken;
        [apply same_store_appended | apply military_generator_keeps].
    + intros acts.
      apply always_bind; [apply appended_to_trans | apply logger_appended |].
      intros _. apply always_ret. apply appended_to_refl.
  - apply always_bind; [apply same_disk_trans | apply logger_same_disk |].
    intros _.
    apply always_bind;
      [apply same_disk_trans | | intros d; apply append_military_always].
    apply always_if; [| apply always_ret; apply same_disk_refl].
    apply always_bind; [apply same_disk_trans | |].
    + eapply always_weaken;
        [apply same_store_same_disk | apply military_generator_keeps].
    + intros acts.
      apply always_bind; [apply same_disk_trans | apply logger_same_disk |].
      intros _. apply always_ret. apply same_disk_refl.
Qed.

Lemma base_step self base w st :
  (include_synthetic self = true ->
   0 <= days self /\ clock_allows w (days self)) ->
  exists st' e,
    analyze_base self base w st = (inr tt, st')
    /\ military_movements (results st')
       = (military_movements (results st) ++ [e])%list
    /\ military_entry self base e
    /\ idle_when_off self st st'.
Proof.
  intros Hs. unfold analyze_base, military_entry, idle_when_off.
  unfold bind at 1. rewrite logger_eq.
  destruct (include_synthetic self).
  - destruct (Hs eq_refl) as (Hd & Hc).
    match goal with
    | |- context [bind (bind (_generate_synthetic_military_data _ _ _) _) _ w ?s] =>
        destruct (returns_eq _ _ _ _
                    (military_generator_returns self (base_name base)
                       (base_type base) w s Hd Hc))
          as (acts & st2 & E & Hlen & Hl & _)
    end.
    unfold bind at 1. unfold bind at 1. rewrite E.
    unfold bind at 1. rewrite logger_eq. unfold ret at 1.
    unfold append_military, bind, get_results, set_results.
    eexists. eexists. split; [reflexivity |].
    cbn [results military_movements with_log].
    assert (Hr : results st2 = results st).
    { pose proof (military_generator_keeps self (base_name base)
                    (base_type base) w
                    (with_log
                       (log st ++ [(INFO, "Analyzing military activity near "
                                          ++ base_name base)]) st)) as K.
      rewrite E in K. destruct K as (Kr & _). exact Kr. }
    rewrite Hr. split; [reflexivity |].
    split; [| discriminate].
    split; [reflexivity |]. split; [reflexivity |]. split; [reflexivity |].
    exists acts. split; [reflexivity |]. split; [exact Hlen |].
    apply Forall_nth_error. intros j r Hj.
    destruct (Hl j r Hj) as ((a & Ha & Hm & Hdesc) & Hsyn & _).
    split; [exact Hsyn |]. exists a.
    split; [eapply nth_error_In; exact Ha |]. split; assumption.
  - unfold bind at 1. unfold ret at 1.
    unfold append_military, bind, get_results, set_results.
    eexists. eexists. split; [reflexivity |].
    cbn [results military_movements with_log].
    split; [reflexivity |].
    split; [| intros _; split; reflexivity].
    repeat split.
Qed.

Lemma military_phase_spec self w st :
  (include_synthetic self = true ->
   0 <= days self /\ clock_allows w (days self)) ->
  exists st' new,
    analyze_military_movements self w st = (inr tt, st')
    /\ military_movements (results st')
       = (military_movements (results st) ++ new)%list
    /\ Forall2 (military_entry self) bases new
    /\ idle_when_off self st st'.
Proof.
  intros Hs. unfold analyze_military_movements.
  unfold bind at 1. rewrite logger_eq.
  destruct (for_each_appends (analyze_base self) w
              (fun s => military_movements (results s)) (military_entry self)
              (idle_when_off self) (idle_when_off_refl self)
              (idle_when_off_trans self)
              (fun base s => base_step self base w s Hs) bases
              (with_log (log st ++ [(INFO, "Analyzing military movements...")])
                 st))
    as (st1 & new & E & S & P & F).
  unfold bind at 1. rewrite E. rewrite logger_eq.
  eexists. exists new. split; [reflexivity |].
  split; [exact S |]. split; [exact P | exact F].
Qed.

Lemma military_phase_always self w :
  always (analyze_military_movements self) w (appended_to Military)
  /\ always (analyze_military_movements self) w same_disk.
Proof.
  unfold analyze_military_movements. split.
  - apply always_bind; [apply appended_to_trans | apply logger_appended |].
    intros _.
    apply always_bind; [apply appended_to_trans | | intros _; apply logger_appended].
    apply always_for_each; [apply appended_to_refl | apply appended_to_trans |].
    intros base. apply base_always.
  - apply always_bind; [apply same_disk_trans | apply logger_same_disk |].
    intros _.
    apply always_bind; [apply same_disk_trans | | intros _; apply logger_same_disk].
    apply always_for_each; [apply same_disk_refl | apply same_disk_trans |].
    intros base. apply base_always.
Qed.

(** X8. With synthetic mode on, a lookback window of at least zero days
    and a clock that allows it, the military phase returns in every
    environment and appends one entry per base, in the order of its list;
    each entry carries the name and the type of the base, the date range of
    the run and five synthetic activity records, each marked synthetic,
    reporting one of the five activities with its significance and
    described as observed at that base.  With synthetic mode off the phase
    returns for every window, and its entries have no
    [synthetic_activity_data] key. *)
Theorem military_phase_entries (self : self_t) (w : world) (st : state) :
  (include_synthetic self = true ->
   0 <= days self /\ clock_allows w (days self)) ->
  exists st' new,
    analyze_military_movements self w st = (inr tt, st')
    /\ military_movements (results st')
       = (military_movements (results st) ++ new)%list
    /\ Forall2 (military_entry self) bases new.
Proof.
  intros Hs.
  destruct (military_phase_spec self w st Hs) as (st' & new & E & S & P & _).
  exists st', new. repeat split; assumption.
Qed.

Lemma military_phase_entries_witness :
  exists st' new,
    analyze_military_movements (sample_self 7 true)
      (offline_world zero_tape sample_today) initial_state
    = (inr tt, st')
    /\ military_movements (results st')
       = (military_movements (results initial_state) ++ new)%list
    /\ Forall2 (military_entry (sample_self 7 true)) bases new.
Proof.
  apply (military_phase_entries (sample_self 7 true)
           (offline_world zero_tape sample_today) initial_state).
  intros _. split; [cbn; lia |].
  intros n. cbn. unfold sample_today, MAXORDINAL. lia.
Defined.

(** *** The social-media phase *)

Lemma repeat_collect_length {A} (body : Z -> M A) w :
  forall n i st l st',
    repeat_collect n i body w st = (inr l, st') -> List.length l = n.
Proof.
  induction n as [| n IH]; intros i st l st' E; cbn [repeat_collect] in E.
  - inversion E. reflexivity.
  - unfold bind at 1 in E. destruct (body i w st) as [[e | x] st1];
      [discriminate |].
    unfold bind at 1 in E.
    destruct (repeat_collect n (i + 1) body w st1) as [[e | xs] st2] eqn:E2;
      [discriminate |].
    inversion E. cbn [List.length]. f_equal. eapply IH. exact E2.
Qed.

Lemma social_generator_outcome self term w st posts st' :
  _generate_synthetic_social_media self term w st = (inr posts, st') ->
  List.length posts = 5%nat /\ Forall (synthetic_post term) posts.
Proof.
  intros E. split.
  - unfold _generate_synthetic_social_media in E.
    eapply repeat_collect_length. exact E.
  - pose proof (social_generator_ensures self term w st) as H.
    unfold ensures in H. rewrite E in H. exact H.
Qed.

(** The work on one search term, by cases on its outcome, on what the
    fetcher returned and on the mode. *)
Lemma term_step_cases self term w st :
  match analyze_term self term w st with
  | (inl e, st') =>
      fetched w term = [] /\ include_synthetic self = true
      /\ results st' = results st
  | (inr _, st') =>
      match fetched w term with
      | [] =>
          if include_synthetic self then
            exists st1 posts st2,
              _generate_synthetic_social_media self term w st1
              = (inr posts, st2)
              /\ social_media (results st')
                 = (social_media (results st)
                    ++ (if is_empty posts then []
                        else [term_record self term posts]))%list
          else
            social_media (results st') = social_media (results st)
            /\ rng_pos st' = rng_pos st /\ clock_pos st' = clock_pos st
      | real =>
          social_media (results st')
          = (social_media (results st) ++ [term_record self term real])%list
          /\ rng_pos st' = rng_pos st /\ clock_pos st' = clock_pos st
      end
  end.
Proof.
  destruct (scrape_social_media_spec self term w
              (with_log (log st ++ [term_log_line term]) st))
    as (st1 & (L1 & L2 & L3 & L4 & L5) & E).
  cbn [rng_pos clock_pos results files dirs with_log] in L1, L2, L3, L4, L5.
  unfold term_log_line in E.
  destruct (fetched w term) as [| t ts] eqn:Ef.
  - destruct (include_synthetic self) eqn:Es.
    + pose proof (social_generator_keeps self term w st1) as K.
      destruct (_generate_synthetic_social_media self term w st1)
        as [[e | posts] st2] eqn:Eg; cbn [snd] in K;
        destruct K as (Kr & _).
      * unfold analyze_term, bind. rewrite logger_eq, E, Es.
        cbn [is_empty andb]. rewrite Eg.
        split; [reflexivity |]. split; [reflexivity |]. congruence.
      * unfold analyze_term, bind. rewrite logger_eq, E, Es.
        cbn [is_empty andb]. rewrite Eg. rewrite logger_eq. cbn [ret].
        destruct posts as [| p ps]; cbn [is_empty negb].
        -- exists st1, [], st2. split; [exact Eg |].
           cbn [results with_log is_empty]. rewrite app_nil_r. congruence.
        -- rewrite append_social_eq. exists st1, (p :: ps), st2.
           split; [exact Eg |].
           cbn [results with_results with_log social_appended social_media
                is_empty].
           rewrite Kr, L3. reflexivity.
    + unfold analyze_term, bind. rewrite logger_eq, E, Es.
      cbn [is_empty andb negb ret]. rewrite L1, L2, L3. repeat split.
  - unfold analyze_term, bind. rewrite logger_eq, E.
    cbn [is_empty andb negb ret]. rewrite append_social_eq.
    cbn [results with_results social_appended social_media rng_pos clock_pos].
    rewrite L1, L2, L3. repeat split.
Qed.

Lemma append_social_always v w :
  always (append_social v) w (appended_to Social)
  /\ always (append_social v) w same_disk.
Proof.
  split; intros st; rewrite append_social_eq; cbn [snd].
  - split; [eexists; reflexivity |].
    split; [intros [] Hc; try reflexivity; congruence |]. repeat split.
  - split; reflexivity.
Qed.

Lemma scrape_always self term w :
  always (_scrape_social_media self term) w only_log.
Proof.
  intros st. destruct (scrape_social_media_spec self term w st) as (st' & H & E).
  rewrite E. exact H.
Qed.

Lemma term_always self term w :
  always (analyze_term self term) w (appended_to Social)
  /\ always (analyze_term self term) w same_disk.
Proof.
  unfold analyze_term. split.
  - apply always_bind; [apply appended_to_trans | apply logger_appended |].
    intros _. apply always_bind; [apply appended_to_trans | |].
    { eapply always_weaken; [apply only_log_appended | apply scrape_always]. }
    intros tweets. apply always_bind; [apply appended_to_trans | |].
    + apply always_if; [| apply always_ret; apply appended_to_refl].
      apply always_bind; [apply appended_to_trans | |].
      * eapply always_weaken;
          [apply same_store_appended | apply social_generator_keeps].
      * intros posts.
        apply always_bind; [apply appended_to_trans | apply logger_appended |].
        intros _. apply always_ret. apply appended_to_refl.
    + intros posts. apply always_if;
        [apply append_social_always | apply always_ret; apply appended_to_refl].
  - apply always_bind; [apply same_disk_trans | apply logger_same_disk |].
    intros _. apply always_bind; [apply same_disk_trans | |].
    { eapply always_weaken; [apply only_log_same_disk | apply scrape_always]. }
    intros tweets. apply always_bind; [apply same_disk_trans | |].
    + apply always_if; [| apply always_ret; apply same_disk_refl].
      apply always_bind; [apply same_disk_trans | |].
      * eapply always_weaken;
          [apply same_store_same_disk | apply social_generator_keeps].
      * intros posts.
        apply always_bind; [apply same_disk_trans | apply logger_same_disk |].
        intros _. apply always_ret. apply same_disk_refl.
    + intros posts. apply always_if;
        [apply append_social_always | apply always_ret; apply same_disk_refl].
Qed.

Lemma social_phase_always self w :
  always (analyze_social_media self) w (appended_to Social)
  /\ always (analyze_social_media self) w same_disk.
Proof.
  unfold analyze_social_media. split.
  - apply always_bind; [apply appended_to_trans | apply logger_appended |].
    intros _.
    apply always_bind; [apply appended_to_trans | | intros _; apply logger_appended].
    apply always_for_each; [apply appended_to_refl | apply appended_to_trans |].
    intros term. apply term_always.
  - apply always_bind; [apply same_disk_trans | apply logger_same_disk |].
    intros _.
    apply always_bind; [apply same_disk_trans | | intros _; apply logger_same_disk].
    apply always_for_each; [apply same_disk_refl | apply same_disk_trans |].
    intros term. apply term_always.
Qed.

Lemma term_record_counted self term posts :
  posts <> [] -> (List.length posts <= 10)%nat ->
  counted_posts (term_record self term posts).
Proof.
  intros Hne Hlen. exists posts. split; [reflexivity |].
  split; [reflexivity |]. unfold len.
  destruct posts; [congruence | cbn [List.length] in *; lia].
Qed.

Lemma term_outcome self term w st :
  exists new,
    social_media (results (snd (analyze_term self term w st)))
    = (social_media (results st) ++ new)%list
    /\ (List.length new <= 1)%nat
    /\ Forall (fun e => counted_posts e
                        /\ str_field "search_term" e = Some term) new.
Proof.
  pose proof (term_step_cases self term w st) as C.
  pose proof (fetched_length w term) as Hf.
  destruct (analyze_term self term w st) as [[e | []] st']; cbn [snd].
  - destruct C as (_ & _ & Hr). exists []. rewrite Hr, app_nil_r.
    split; [reflexivity |]. split; [cbn; lia | constructor].
  - destruct (fetched w term) as [| t ts] eqn:Ef.
    + destruct (include_synthetic self).
      * destruct C as (st1 & posts & st2 & Eg & S).
        destruct (social_generator_outcome _ _ _ _ _ _ Eg) as (Hlen & _).
        destruct posts as [| p ps]; [discriminate |]. cbn [is_empty] in S.
        eexists. split; [exact S |]. split; [cbn; lia |].
        constructor; [| constructor].
        split; [| reflexivity].
        apply term_record_counted; [discriminate | rewrite Hlen; lia].
      * destruct C as (S & _). exists []. rewrite S, app_nil_r.
        split; [reflexivity |]. split; [cbn; lia | constructor].
    + destruct C as (S & _). eexists. split; [exact S |].
      split; [cbn; lia |]. constructor; [| constructor].
      split; [| reflexivity].
      apply term_record_counted; [discriminate | exact Hf].
Qed.

Lemma for_each_outcome {A} (body : A -> M unit) w (sel : state -> list value)
    (P : A -> value -> Prop) :
  (forall x st, exists new,
      sel (snd (body x w st)) = (sel st ++ new)%list
      /\ (List.length new <= 1)%nat /\ Forall (P x) new) ->
  forall xs st, exists new,
    sel (snd (for_each xs body w st)) = (sel st ++ new)%list
    /\ (List.length new <= List.length xs)%nat
    /\ Forall (fun e => exists x, In x xs /\ P x e) new.
Proof.
  intros Hb. induction xs as [| x xs IH]; intros st; cbn [for_each].
  - exists []. rewrite app_nil_r. split; [reflexivity |].
    split; [cbn; lia | constructor].
  - destruct (Hb x st) as (n1 & S1 & L1 & P1). unfold bind.
    destruct (body x w st) as [[e | []] st1]; cbn [snd] in *.
    + exists n1. split; [exact S1 |]. split; [cbn [List.length]; lia |].
      eapply Forall_impl; [| exact P1]. intros e0 He0. exists x.
      split; [now left | exact He0].
    + destruct (IH st1) as (n2 & S2 & L2 & P2).
      exists (n1 ++ n2)%list. split; [rewrite S2, S1, app_assoc; reflexivity |].
      split; [rewrite length_app; cbn [List.length]; lia |].
      apply Forall_app. split.
      * eapply Forall_impl; [| exact P1]. intros e0 He0. exists x.
        split; [now left | exact He0].
      * eapply Forall_impl; [| exact P2]. intros e0 (x0 & Hx0 & He0).
        exists x0. split; [now right | exact He0].
Qed.

Lemma social_phase_outcome self w st :
  exists new,
    social_media (results (snd (analyze_social_media self w st)))
    = (social_media (results st) ++ new)%list
    /\ (List.length new <= List.length search_terms)%nat
    /\ Forall (fun e => exists term,
                  In term search_terms
                  /\ counted_posts e
                  /\ str_field "search_term" e = Some term) new.
Proof.
  unfold analyze_social_media. unfold bind at 1. rewrite logger_eq.
  destruct (for_each_outcome (analyze_term self) w
              (fun s => social_media (results s))
              (fun term e => counted_posts e
                             /\ str_field "search_term" e = Some term)
              (fun term s => term_outcome self term w s) search_terms
              (with_log (log st ++ [(INFO, "Analyzing social media data...")])
                 st))
    as (new & S & L & P).
  exists new. split; [| split; [exact L | exact P]].
  unfold bind.
  destruct (for_each search_terms (analyze_term self) w _)
    as [[e | []] st1]; cbn [snd] in *; [exact S |].
  rewrite logger_eq. exact S.
Qed.

(** X9. Whatever the environment and whether the phase returns or raises,
    the social-media phase only appends to its collection: at most one
    sub-record per search term, each naming a term of the list, with a
    [results_count] equal to the length of its [posts] list and between 1
    and 10.  No sub-record is ever recorded with an empty list of posts. *)
Theorem social_subrecords_counted (self : self_t) (w : world) (st : state) :
  exists new,
    social_media (results (snd (analyze_social_media self w st)))
    = (social_media (results st) ++ new)%list
    /\ (List.length new <= 5)%nat
    /\ Forall counted_posts new
    /\ Forall (names_term search_terms) new.
Proof.
  destruct (social_phase_outcome self w st) as (new & S & L & P).
  exists new. split; [exact S |]. split; [exact L |]. split.
  - eapply Forall_impl; [| exact P]. intros e (term & _ & H & _). exact H.
  - eapply Forall_impl; [| exact P]. intros e (term & Hin & _ & H).
    exists term. split; assumption.
Qed.

Lemma term_step_on self term w st :
  include_synthetic self = true ->
  0 <= days self -> clock_allows w (days self) ->
  exists st' e,
    analyze_term self term w st = (inr tt, st')
    /\ social_media (results st') = (social_media (results st) ++ [e])%list
    /\ (exists posts, e = term_record self term posts
                      /\ posts_for w term posts)
    /\ True.
Proof.
  intros Hs Hd Hc.
  pose proof (analyze_term_returns self term w st Hd Hc) as R.
  pose proof (term_step_cases self term w st) as C.
  unfold returns in R. unfold posts_for.
  destruct (analyze_term self term w st) as [[e | []] st']; [contradiction |].
  rewrite Hs in C.
  destruct (fetched w term) as [| t ts] eqn:Ef.
  - destruct C as (st1 & posts & st2 & Eg & S).
    destruct (social_generator_outcome _ _ _ _ _ _ Eg) as (Hlen & Hp).
    destruct posts as [| p ps]; [discriminate |]. cbn [is_empty] in S.
    exists st'. eexists. split; [reflexivity |]. split; [exact S |].
    split; [| exact I]. exists (p :: ps). split; [reflexivity |].
    split; assumption.
  - destruct C as (S & _).
    exists st'. eexists. split; [reflexivity |]. split; [exact S |].
    split; [| exact I]. exists (t :: ts). split; reflexivity.
Qed.

(** X10. With synthetic mode on, a lookback window of at least zero days
    and a clock that allows it, the social-media phase returns in every
    environment and appends exactly one sub-record per search term, in the
    order of the list: the sub-record holds the posts the fetcher returned
    for the term when it returned any, and five synthetic posts made from
    the templates of the term's category otherwise. *)
Theorem social_phase_records_every_term (self : self_t) (w : world)
    (st : state) :
  include_synthetic self = true ->
  0 <= days self -> clock_allows w (days self) ->
  exists st' new,
    analyze_social_media self w st = (inr tt, st')
    /\ social_media (results st') = (social_media (results st) ++ new)%list
    /\ Forall2
         (fun term e =>
            exists posts, e = term_record self term posts
                          /\ posts_for w term posts)
         search_terms new.
Proof.
  intros Hs Hd Hc. unfold analyze_social_media.
  unfold bind at 1. rewrite logger_eq.
  destruct (for_each_appends (analyze_term self) w
              (fun s => social_media (results s))
              (fun term e =>
                 exists posts, e = term_record self term posts
                               /\ posts_for w term posts)
              (fun _ _ => True) (fun _ => I) (fun _ _ _ _ _ => I)
              (fun term s => term_step_on self term w s Hs Hd Hc) search_terms
              (with_log (log st ++ [(INFO, "Analyzing social media data...")])
                 st))
    as (st1 & new & E & S & P & _).
  unfold bind at 1. rewrite E. rewrite logger_eq.
  eexists. exists new. split; [reflexivity |].
  split; [exact S | exact P].
Qed.

Lemma social_phase_records_every_term_witness :
  exists st' new,
    analyze_social_media (sample_self 7 true)
      (offline_world zero_tape sample_today) initial_state
    = (inr tt, st')
    /\ social_media (results st')
       = (social_media (results initial_state) ++ new)%list
    /\ Forall2
         (fun term e =>
            exists posts,
              e = term_record (sample_self 7 true) term posts
              /\ posts_for (offline_world zero_tape sample_today) term posts)
         search_terms new.
Proof.
  apply (social_phase_records_every_term (sample_self 7 true)
           (offline_world zero_tape sample_today) initial_state).
  - reflexivity.
  - cbn. lia.
  - intros n. cbn. unfold sample_today, MAXORDINAL. lia.
Defined.

(** *** Synthetic mode off *)

Lemma for_each_appends_list {A} (body : A -> M unit) w
    (sel : state -> list value) (f : A -> list value)
    (F : state -> state -> Prop) :
  (forall st, F st st) ->
  (forall a b c, F a b -> F b c -> F a c) ->
  (forall x st, exists st',
      body x w st = (inr tt, st')
      /\ sel st' = (sel st ++ f x)%list /\ F st st') ->
  forall xs st, exists st',
    for_each xs body w st = (inr tt, st')
    /\ sel st' = (sel st ++ flat_map f xs)%list /\ F st st'.
Proof.
  intros Frefl Ftrans Hb. induction xs as [| x xs IH]; intros st;
    cbn [for_each flat_map].
  - exists st. rewrite app_nil_r. repeat split. apply Frefl.
  - destruct (Hb x st) as (st1 & E1 & S1 & F1).
    destruct (IH st1) as (st2 & E2 & S2 & F2).
    exists st2. unfold bind at 1. rewrite E1.
    split; [exact E2 |].
    split; [rewrite S2, S1, <- app_assoc; reflexivity |].
    eapply Ftrans; eassumption.
Qed.

Lemma term_step_off self term w st :
  include_synthetic self = false ->
  exists st',
    analyze_term self term w st = (inr tt, st')
    /\ social_media (results st')
       = (social_media (results st) ++ real_records self w term)%list
    /\ idle_when_off self st st'.
Proof.
  intros Hs. pose proof (term_step_cases self term w st) as C.
  unfold real_records, idle_when_off.
  destruct (analyze_term self term w st) as [[e | []] st'].
  - destruct C as (_ & C & _). congruence.
  - exists st'. split; [reflexivity |]. rewrite Hs in C.
    destruct (fetched w term) as [| t ts].
    + destruct C as (S & R & K). rewrite S, app_nil_r.
      split; [reflexivity |]. intros _. split; assumption.
    + destruct C as (S & R & K). split; [exact S |].
      intros _. split; assumption.
Qed.

Lemma social_phase_off self w st :
  include_synthetic self = false ->
  exists st',
    analyze_social_media self w st = (inr tt, st')
    /\ social_media (results st')
       = (social_media (results st)
          ++ flat_map (real_records self w) search_terms)%list
    /\ idle_when_off self st st'.
Proof.
  intros Hs. unfold analyze_social_media.
  unfold bind at 1. rewrite logger_eq.
  destruct (for_each_appends_list (analyze_term self) w
              (fun s => social_media (results s)) (real_records self w)
              (idle_when_off self) (idle_when_off_refl self)
              (idle_when_off_trans self)
              (fun term s => term_step_off self term w s Hs) search_terms
              (with_log (log st ++ [(INFO, "Analyzing social media data...")])
                 st))
    as (st1 & E & S & F).
  unfold bind at 1. rewrite E. rewrite logger_eq.
  eexists. split; [reflexivity |]. split; [exact S | exact F].
Qed.

Lemma real_records_all_real self w term :
  Forall (fun e => exists posts, list_field "posts" e = Some posts
                                 /\ Forall (is_synthetic false) posts)
    (real_records self w term).
Proof.
  unfold real_records. pose proof (fetched_all_real w term) as H.
  destruct (fetched w term) as [| t ts]; constructor; [| constructor].
  exists (t :: ts). split; [reflexivity | exact H].
Qed.

(** X11. With synthetic mode off, the flight, military and social-media
    phases return in every environment and for every lookback window,
    negative ones included, without consuming a random draw or reading the
    clock.  No entry of the flight or military collection carries synthetic
    data, and the social-media collection receives exactly the sub-records
    of the terms for which the fetcher returned posts, every post of which
    is marked as not synthetic. *)
Theorem no_synthetic_mode_is_idle (self : self_t) (w : world) (st : state) :
  include_synthetic self = false ->
  (exists st' new,
     analyze_flight_data self w st = (inr tt, st')
     /\ rng_pos st' = rng_pos st /\ clock_pos st' = clock_pos st
     /\ flight_data (results st') = (flight_data (results st) ++ new)%list
     /\ Forall (fun e => field "synthetic_sample_data" e = None) new)
  /\ (exists st' new,
        analyze_military_movements self w st = (inr tt, st')
        /\ rng_pos st' = rng_pos st /\ clock_pos st' = clock_pos st
        /\ military_movements (results st')
           = (military_movements (results st) ++ new)%list
        /\ Forall (fun e => field "synthetic_activity_data" e = None) new)
  /\ (exists st',
        analyze_social_media self w st = (inr tt, st')
        /\ rng_pos st' = rng_pos st /\ clock_pos st' = clock_pos st
        /\ social_media (results st')
           = (social_media (results st)
              ++ flat_map (real_records self w) search_terms)%list
        /\ Forall (fun e => exists posts,
                      list_field "posts" e = Some posts
                      /\ Forall (is_synthetic false) posts)
             (flat_map (real_records self w) search_terms)).
Proof.
  intros Hs.
  assert (Hv : include_synthetic self = true ->
               0 <= days self /\ clock_allows w (days self))
    by (rewrite Hs; discriminate).
  split; [| split].
  - destruct (flight_phase_spec self w st Hv) as (st' & new & E & S & P & F).
    destruct (F Hs) as (F1 & F2).
    exists st', new. repeat split; try assumption.
    clear - P Hs. induction P as [| area e areas new H _ IH]; constructor;
      [| exact IH].
    unfold flight_entry in H. rewrite Hs in H. tauto.
  - destruct (military_phase_spec self w st Hv) as (st' & new & E & S & P & F).
    destruct (F Hs) as (F1 & F2).
    exists st', new. repeat split; try assumption.
    clear - P Hs. induction P as [| base e bases new H _ IH]; constructor;
      [| exact IH].
    unfold military_entry in H. rewrite Hs in H. tauto.
  - destruct (social_phase_off self w st Hs) as (st' & E & S & F).
    destruct (F Hs) as (F1 & F2).
    exists st'. repeat split; try assumption.
    apply Forall_flat_map. apply Forall_forall. intros term _.
    apply real_records_all_real.
Qed.

Lemma no_synthetic_mode_is_idle_witness :
  exists st',
    analyze_social_media (sample_self (-1) false)
      (offline_world zero_tape sample_today) initial_state
    = (inr tt, st')
    /\ rng_pos st' = rng_pos initial_state
    /\ social_media (results st') = [].
Proof.
  destruct (no_synthetic_mode_is_idle (sample_self (-1) false)
              (offline_world zero_tape sample_today) initial_state eq_refl)
    as (_ & _ & st' & E & R & _ & S & _).
  exists st'. split; [exact E |]. split; [exact R |]. exact S.
Defined.

(** *** Every phase only appends *)

Lemma always_same_results_appended {A} (m : M A) w c :
  always m w (fun st st' => results st' = results st) ->
  always m w (appended_to c).
Proof.
  apply always_weaken. intros st st'. apply appended_to_same_results.
Qed.

Lemma write_file_keeps_results path content w :
  always (write_file path content) w (fun st st' => results st' = results st).
Proof.
  intros st. unfold write_file. destruct (fs_error w path); reflexivity.
Qed.

Lemma append_satellite_appended v w :
  always (append_satellite v) w (appended_to Satellite).
Proof.
  intros st. unfold append_satellite, bind, get_results, set_results.
  cbn [snd]. split; [eexists; reflexivity |].
  split; [intros [] Hc; try reflexivity; congruence |]. repeat split.
Qed.

Lemma satellite_phase_always self w :
  always (analyze_satellite_imagery self) w (appended_to Satellite).
Proof.
  unfold analyze_satellite_imagery.
  apply always_bind; [apply appended_to_trans | apply logger_appended |].
  intros _.
  apply always_bind; [apply appended_to_trans | | intros _; apply logger_appended].
  apply always_for_each; [apply appended_to_refl | apply appended_to_trans |].
  intros site. apply always_try_except;
    [apply appended_to_trans | | intros e; apply logger_appended].
  unfold analyze_site, _create_satellite_placeholder.
  apply always_bind; [apply appended_to_trans | apply logger_appended |].
  intros _.
  apply always_bind;
    [apply appended_to_trans | | intros _; apply append_satellite_appended].
  apply always_bind;
    [apply appended_to_trans | | intros _; apply logger_appended].
  apply always_same_results_appended. apply write_file_keeps_results.
Qed.

Lemma appended_to_grown c st st' : appended_to c st st' -> grown st st'.
Proof.
  intros ((new & E) & O & H). split; [| exact H].
  intros c'. destruct c, c';
    first [ exists new; exact E
          | exists []; rewrite app_nil_r; apply O; discriminate ].
Qed.

Lemma grown_refl st : grown st st.
Proof.
  split; [intros c; exists []; now rewrite app_nil_r | repeat split].
Qed.

Lemma grown_trans st1 st2 st3 : grown st1 st2 -> grown st2 st3 -> grown st1 st3.
Proof.
  intros (E1 & A1 & B1 & C1 & D1) (E2 & A2 & B2 & C2 & D2).
  split.
  - intros c. destruct (E1 c) as (n1 & H1). destruct (E2 c) as (n2 & H2).
    exists (n1 ++ n2)%list. rewrite H2, H1, app_assoc. reflexivity.
  - repeat split; congruence.
Qed.

Lemma sum_results_count_keeps l w :
  always (sum_results_count l) w (fun st st' => st' = st).
Proof.
  induction l as [| r l IH]; intros st; cbn [sum_results_count];
    [reflexivity |].
  destruct r; try reflexivity.
  destruct (dict_get "results_count" d) as [[] |]; try reflexivity.
  unfold bind. specialize (IH st).
  destruct (sum_results_count l w st) as [[e | s] st']; exact IH.
Qed.

Lemma generate_summary_keeps_results self w :
  always (generate_summary self) w (fun st st' => results st' = results st).
Proof.
  assert (T : forall a b c : state,
            results b = results a -> results c = results b ->
            results c = results a) by (intros; congruence).
  unfold generate_summary.
  apply always_bind; [exact T | intros st; rewrite logger_eq; reflexivity |].
  intros _. apply always_bind; [exact T | intros st; reflexivity |].
  intros r. apply always_bind; [exact T | |].
  - apply always_if.
    + eapply always_weaken; [| apply sum_results_count_keeps].
      intros st st' ->. reflexivity.
    + intros st. reflexivity.
  - intros posts.
    apply always_bind; [exact T | apply write_file_keeps_results |].
    intros _.
    apply always_bind; [exact T | apply write_file_keeps_results |].
    intros _.
    apply always_bind; [exact T | intros st; rewrite logger_eq; reflexivity |].
    intros _ st. reflexivity.
Qed.

Lemma analyze_grown self w : always (analyze self) w grown.
Proof.
  unfold analyze.
  apply always_bind; [apply grown_trans | |].
  { eapply always_weaken; [apply (appended_to_grown Satellite) |].
    apply logger_appended. }
  intros _. apply always_bind; [apply grown_trans | |].
  { eapply always_weaken; [apply appended_to_grown |].
    apply satellite_phase_always. }
  intros _. apply always_bind; [apply grown_trans | |].
  { eapply always_weaken; [apply appended_to_grown |].
    apply flight_phase_always. }
  intros _. apply always_bind; [apply grown_trans | |].
  { eapply always_weaken; [apply appended_to_grown |].
    apply military_phase_always. }
  intros _. apply always_bind; [apply grown_trans | |].
  { eapply always_weaken; [apply appended_to_grown |].
    apply social_phase_always. }
  intros _. apply always_bind; [apply grown_trans | |].
  { eapply always_weaken; [apply (appended_to_grown Satellite) |].
    apply logger_appended. }
  intros _. apply always_bind; [apply grown_trans | |].
  { eapply always_weaken;
      [apply (appended_to_grown Satellite) |].
    apply always_same_results_appended. apply generate_summary_keeps_results. }
  intros _ st. apply grown_refl.
Qed.


(** *** The report *)

Lemma sum_counted w l :
  Forall counted_posts l ->
  forall st, sum_results_count l w st = (inr (post_total l), st).
Proof.
  induction 1 as [| r l (posts & Hp & Hc & _) _ IH]; intros st;
    [reflexivity |].
  destruct r as [| b | z | f | s | vs | d]; try discriminate.
  cbn [sum_results_count post_total fold_right]. rewrite Hc.
  cbn [int_field] in Hc.
  destruct (dict_get "results_count" d) as [[| b | n | f | s | vs | d'] |];
    try discriminate.
  inversion Hc; subst n. unfold bind. rewrite IH. reflexivity.
Qed.

Lemma generate_summary_cases self w st :
  Forall counted_posts (social_media (results st)) ->
  exists st',
    snd (generate_summary self w st) = st'
    /\ results st' = results st
    /\ match fs_error w summary_path, fs_error w results_path with
       | Some e, _ =>
           fst (generate_summary self w st) = inl e
           /\ files st' = files st
           /\ log st' = (log st ++ [summary_opening])%list
       | None, Some e =>
           fst (generate_summary self w st) = inl e
           /\ files st'
              = (files st
                 ++ [(summary_path, Text (report_of self (results st)))])%list
           /\ log st' = (log st ++ [summary_opening])%list
       | None, None =>
           fst (generate_summary self w st)
           = inr (report_of self (results st))
           /\ files st'
              = (files st
                 ++ [(summary_path, Text (report_of self (results st)));
                     (results_path, Json (results_value (results st)))])%list
           /\ log st' = (log st ++ [summary_opening; summary_closing])%list
       end.
Proof.
  intros Hc. exists (snd (generate_summary self w st)).
  split; [reflexivity |].
  assert (Hsum : forall s0,
            (if negb (is_empty (social_media (results st)))
             then sum_results_count (social_media (results st)) else ret 0)
              w s0
            = (inr (post_total (social_media (results st))), s0)).
  { intros s0. destruct (social_media (results st)) as [| r l] eqn:E;
      cbn [is_empty negb]; [reflexivity |]. apply sum_counted. exact Hc. }
  remember (generate_summary self w st) as out eqn:E.
  unfold generate_summary, bind, get_results in E. rewrite logger_eq in E.
  cbn [results with_log] in E. rewrite Hsum in E.
  fold (report_of self (results st)) in E. unfold write_file in E.
  cbn [results files with_log] in E.
  destruct (fs_error w summary_path) as [e1 |].
  - subst out. cbn [fst snd results files log with_log]. repeat split.
  - destruct (fs_error w results_path) as [e2 |].
    + subst out. cbn [fst snd results files log with_log]. repeat split.
    + rewrite logger_eq in E. subst out.
      cbn [fst snd results files log with_log].
      rewrite <- !app_assoc. repeat split.
Qed.



(** *** A complete run *)

Lemma init_returns_gen claim0 days0 syn w st :
  window_allowed w st days0 -> dirs_creatable w ->
  exists self st',
    init claim0 days0 syn w st = (inr self, st')
    /\ claim self = claim0 /\ days self = days0
    /\ include_synthetic self = syn
    /\ start_date self
       = strftime_ymd (dt_ordinal (clock w (clock_pos st)) - days0)
    /\ end_date self = strftime_ymd (dt_ordinal (clock w (S (clock_pos st))))
    /\ results st'
       = {| tool := "TruthScan"; version := "1.0.0"; r_claim := claim0;
            analysis_date := strftime_ymd_hms (clock w (S (S (clock_pos st))));
            satellite_analysis := []; flight_data := [];
            military_movements := []; social_media := [] |}
    /\ files st' = files st /\ log st' = log st
    /\ rng_pos st' = rng_pos st /\ clock_pos st' = S (S (S (clock_pos st))).
Proof.
  intros ((W1 & W2) & Habs) Hdirs. unfold init.
  unfold bind at 1. rewrite now_eq. unfold bind at 1. unfold minus_days.
  replace (999999999 <? Z.abs days0) with false
    by (symmetry; apply Z.ltb_ge; exact Habs).
  replace ((MINORDINAL <=? dt_ordinal (clock w (clock_pos st)) - days0)
           && (dt_ordinal (clock w (clock_pos st)) - days0 <=? MAXORDINAL))
    with true
    by (symmetry; apply andb_true_iff; split; apply Z.leb_le; assumption).
  unfold ret at 1. unfold bind at 1. rewrite now_eq.
  unfold bind at 1. rewrite now_eq.
  unfold bind at 1. unfold set_results at 1. unfold bind at 1.
  match goal with |- context [for_each ?ds ?b w ?s] =>
    pose proof (ensure_dirs_returns w ds Hdirs s) as H;
    unfold returns in H;
    destruct (for_each ds b w s) as [[e | []] st']
  end; [contradiction |].
  cbn [rng_pos clock_pos results files log with_clock dt_ordinal] in H.
  destruct H as (A1 & A2 & A3 & A4 & A5).
  eexists. eexists. split; [reflexivity |].
  cbn [claim days include_synthetic start_date end_date dt_ordinal].
  repeat split; assumption.
Qed.

Lemma Forall2_length_eq {A B} (P : A -> B -> Prop) l l' :
  Forall2 P l l' -> List.length l' = List.length l.
Proof. induction 1; cbn; congruence. Qed.

Lemma social_phase_returns self w st :
  (include_synthetic self = true ->
   0 <= days self /\ clock_allows w (days self)) ->
  exists st', analyze_social_media self w st = (inr tt, st').
Proof.
  intros Hs. destruct (include_synthetic self) eqn:E.
  - destruct (Hs eq_refl) as (Hd & Hc).
    destruct (phases_return self w st Hd Hc) as (_ & _ & _ & R).
    unfold returns in R.
    destruct (analyze_social_media self w st) as [[e | []] st'];
      [contradiction |].
    exists st'. reflexivity.
  - destruct (social_phase_off self w st E) as (st' & H & _).
    exists st'. exact H.
Qed.

Lemma analyze_returns self w st :
  (include_synthetic self = true ->
   0 <= days self /\ clock_allows w (days self)) ->
  fs_error w summary_path = None -> fs_error w results_path = None ->
  Forall counted_posts (social_media (results st)) ->
  exists r st',
    analyze self w st = (inr r, st') /\ results st' = r
    /\ grown st st'
    /\ (List.length (satellite_analysis r)
        <= List.length (satellite_analysis (results st)) + 5)%nat
    /\ List.length (flight_data r)
       = (List.length (flight_data (results st)) + 3)%nat
    /\ List.length (military_movements r)
       = (List.length (military_movements (results st)) + 5)%nat
    /\ (List.length (social_media r)
        <= List.length (social_media (results st)) + 5)%nat
    /\ Forall counted_posts (social_media r)
    /\ read_file summary_path (files st') = Some (Text (report_of self r))
    /\ read_file results_path (files st') = Some (Json (results_value r)).
Proof.
  intros Hs Hf1 Hf2 Hc.
  pose (st0 := with_log
                 (log st ++ [(INFO, "Starting TruthScan analysis for claim: "
                                    ++ claim self)]) st).
  (* satellite *)
  destruct (satellite_phase_full self w st0)
    as (st1 & fs1 & rs1 & E1 & (_ & _ & F1 & M1 & S1) & _ & _ & _ & Sat1 & _
        & _ & N1).
  assert (L1 : (List.length rs1 <= 5)%nat).
  { apply (f_equal (@List.length _)) in N1. unfold names_in in N1.
    rewrite !length_map in N1. rewrite N1.
    etransitivity; [apply filter_length_le | cbn; lia]. }
  (* flight *)
  destruct (flight_phase_spec self w st1 Hs) as (st2 & new2 & E2 & Fl2 & P2 & _).
  pose proof (proj1 (flight_phase_always self w) st1) as A2.
  rewrite E2 in A2. cbn [snd] in A2. destruct A2 as (_ & O2 & _).
  apply Forall2_length_eq in P2.
  (* military *)
  destruct (military_phase_spec self w st2 Hs)
    as (st3 & new3 & E3 & Mi3 & P3 & _).
  pose proof (proj1 (military_phase_always self w) st2) as A3.
  rewrite E3 in A3. cbn [snd] in A3. destruct A3 as (_ & O3 & _).
  apply Forall2_length_eq in P3.
  (* social *)
  destruct (social_phase_returns self w st3 Hs) as (st4 & E4).
  pose proof (proj1 (social_phase_always self w) st3) as A4.
  destruct (social_phase_outcome self w st3) as (new4 & So4 & L4 & C4').
  assert (C4 : Forall counted_posts new4).
  { eapply Forall_impl; [| exact C4']. intros e (term & _ & H & _). exact H. }
  cbn [List.length search_terms] in L4.
  rewrite E4 in A4, So4. cbn [snd] in A4, So4. destruct A4 as (_ & O4 & _).
  pose (st5 := with_log
                 (log st4 ++ [(INFO, "Generating final analysis...")]) st4).
  (* the collections when the report is made *)
  pose proof (O2 Satellite ltac:(discriminate)) as O2s.
  pose proof (O2 Military ltac:(discriminate)) as O2m.
  pose proof (O2 Social ltac:(discriminate)) as O2o.
  pose proof (O3 Satellite ltac:(discriminate)) as O3s.
  pose proof (O3 Flight ltac:(discriminate)) as O3f.
  pose proof (O3 Social ltac:(discriminate)) as O3o.
  pose proof (O4 Satellite ltac:(discriminate)) as O4s.
  pose proof (O4 Flight ltac:(discriminate)) as O4f.
  pose proof (O4 Military ltac:(discriminate)) as O4m.
  cbn [entries] in O2s, O2m, O2o, O3s, O3f, O3o, O4s, O4f, O4m.
  change (results st0) with (results st) in F1, M1, S1, Sat1.
  assert (Hsat : satellite_analysis (results st5)
                 = (satellite_analysis (results st) ++ rs1)%list).
  { change (results st5) with (results st4). congruence. }
  assert (Hfl : flight_data (results st5)
                = (flight_data (results st) ++ new2)%list).
  { change (results st5) with (results st4). congruence. }
  assert (Hmi : military_movements (results st5)
                = (military_movements (results st) ++ new3)%list).
  { change (results st5) with (results st4). congruence. }
  assert (Hso : social_media (results st5)
                = (social_media (results st) ++ new4)%list).
  { change (results st5) with (results st4). congruence. }
  assert (Hc5 : Forall counted_posts (social_media (results st5))).
  { rewrite Hso. apply Forall_app. split; assumption. }
  (* the report *)
  destruct (generate_summary_cases self w st5 Hc5) as (st6 & E6 & R6 & C6).
  rewrite Hf1, Hf2 in C6. destruct C6 as (V6 & Fi6 & _).
  assert (EA : analyze self w st = (inr (results st6), st6)).
  { unfold analyze, bind. rewrite logger_eq. fold st0. rewrite E1, E2, E3, E4.
    rewrite logger_eq. fold st5.
    destruct (generate_summary self w st5) as [[e | s] st6'];
      cbn [fst snd] in E6, V6; [discriminate |].
    subst st6'. reflexivity. }
  pose proof (analyze_grown self w st) as G. rewrite EA in G. cbn [snd] in G.
  exists (results st6), st6. split; [exact EA |]. split; [reflexivity |].
  split; [exact G |]. rewrite R6.
  split; [rewrite Hsat, length_app; lia |].
  split; [rewrite Hfl, length_app, P2; reflexivity |].
  split; [rewrite Hmi, length_app, P3; reflexivity |].
  split; [rewrite Hso, length_app; lia |].
  split; [exact Hc5 |]. rewrite Fi6.
  split; apply read_file_app_tail; reflexivity.
Qed.

(** X14. A run completes whenever the environment lets it: if the start
    of the lookback window is a day of the calendar, the working
    directories exist or can be created and the two report files can be
    written, and, with synthetic mode on, the window has at least zero days
    and the clock allows it, then [TruthScan(...).analyze()] returns,
    whatever the network answers, whatever the random draws are and however
    many satellite images cannot be saved.  The results it returns carry
    the claim, three flight entries, five military entries, at most five
    satellite records and at most five counted social-media sub-records;
    the summary file holds the report of these results and the JSON file
    the results themselves. *)
Theorem run_completes (claim0 : string) (days0 : Z) (syn : bool) (w : world)
    (st : state) :
  window_allowed w st days0 -> dirs_creatable w ->
  fs_error w summary_path = None -> fs_error w results_path = None ->
  (syn = true -> 0 <= days0 /\ clock_allows w days0) ->
  exists self r st',
    fst (init claim0 days0 syn w st) = inr self
    /\ run claim0 days0 syn w st = (inr r, st')
    /\ results st' = r
    /\ tool r = "TruthScan" /\ version r = "1.0.0" /\ r_claim r = claim0
    /\ (List.length (satellite_analysis r) <= 5)%nat
    /\ List.length (flight_data r) = 3%nat
    /\ List.length (military_movements r) = 5%nat
    /\ (List.length (social_media r) <= 5)%nat
    /\ Forall counted_posts (social_media r)
    /\ read_file summary_path (files st') = Some (Text (report_of self r))
    /\ read_file results_path (files st') = Some (Json (results_value r)).
Proof.
  intros Hw Hdirs Hf1 Hf2 Hs.
  destruct (init_returns_gen claim0 days0 syn w st Hw Hdirs)
    as (self & st0 & E0 & _ & Hd & Hsyn & _ & _ & R0 & _).
  assert (Hs' : include_synthetic self = true ->
                0 <= days self /\ clock_allows w (days self))
    by (rewrite Hsyn, Hd; exact Hs).
  assert (Hc0 : Forall counted_posts (social_media (results st0)))
    by (rewrite R0; constructor).
  destruct (analyze_returns self w st0 Hs' Hf1 Hf2 Hc0)
    as (r & st' & E & Hr & (_ & T1 & T2 & T3 & _) & L1 & L2 & L3 & L4 & C & S
        & J).
  exists self, r, st'. rewrite E0. split; [reflexivity |].
  unfold run, bind. rewrite E0. split; [exact E |]. split; [exact Hr |].
  rewrite R0 in T1, T2, T3, L1, L2, L3, L4. cbn in T1, T2, T3, L1, L2, L3, L4.
  subst r. repeat split; assumption.
Qed.

Lemma run_completes_witness :
  exists self r st',
    fst (init "India strikes Pakistan nuclear sites" 7 true
           (offline_world zero_tape sample_today) initial_state)
    = inr self
    /\ run "India strikes Pakistan nuclear sites" 7 true
         (offline_world zero_tape sample_today) initial_state
       = (inr r, st')
    /\ results st' = r
    /\ tool r = "TruthScan" /\ version r = "1.0.0"
    /\ r_claim r = "India strikes Pakistan nuclear sites"
    /\ (List.length (satellite_analysis r) <= 5)%nat
    /\ List.length (flight_data r) = 3%nat
    /\ List.length (military_movements r) = 5%nat
    /\ (List.length (social_media r) <= 5)%nat
    /\ Forall counted_posts (social_media r)
    /\ read_file summary_path (files st') = Some (Text (report_of self r))
    /\ read_file results_path (files st') = Some (Json (results_value r)).
Proof.
  apply (run_completes "India strikes Pakistan nuclear sites" 7 true
           (offline_world zero_tape sample_today) initial_state).
  - split; [cbn; unfold sample_today, MINORDINAL, MAXORDINAL; lia | cbn; lia].
  - intros d _. right. reflexivity.
  - reflexivity.
  - reflexivity.
  - intros _. split; [lia |].
    intros n. cbn. unfold sample_today, MAXORDINAL. lia.
Defined.

(** *** The log of the fetcher *)

Lemma try_instance_log search_term instance w st :
  exists st',
    try_except (try_instance search_term instance)
      (fun e =>
         logger ERROR ("Error with Nitter instance " ++ instance ++ ": "
                       ++ exn_msg e) ;;;
         ret None) w st
    = (inr (option_map
              (fun divs => map (parse_tweet instance) (firstn 10 divs))
              (endpoint_yields w search_term instance)), st')
    /\ log st' = (log st ++ endpoint_log w search_term instance)%list.
Proof.
  unfold try_except, try_instance, bind, ask, endpoint_yields, endpoint_log.
  fold (search_url instance search_term).
  destruct (http_get w (search_url instance search_term)) as [e | status divs].
  - unfold raise. rewrite logger_eq. eexists. split; reflexivity.
  - destruct (status =? 200).
    + destruct divs as [| d ds].
      * rewrite logger_eq. eexists. split; reflexivity.
      * rewrite parse_tweets_eq. rewrite logger_eq.
        eexists. split; [reflexivity |]. cbn [log with_log].
        unfold len. rewrite length_map. reflexivity.
    + destruct divs; eexists; (split; [reflexivity |]);
        now rewrite app_nil_r.
Qed.

Lemma scrape_instances_log search_term w instances :
  forall st,
    log (snd (scrape_instances search_term instances w st))
    = (log st ++ fetcher_log w search_term instances)%list.
Proof.
  induction instances as [| instance rest IH]; intros st;
    cbn [scrape_instances fetcher_log].
  - unfold bind. rewrite logger_eq. reflexivity.
  - destruct (try_instance_log search_term instance w st) as (st1 & E1 & L1).
    unfold bind at 1. rewrite E1.
    destruct (endpoint_yields w search_term instance) as [divs |];
      cbn [option_map].
    + cbn [ret snd]. rewrite L1, app_nil_r. reflexivity.
    + rewrite IH, L1, <- app_assoc. reflexivity.
Qed.

Lemma fetcher_log_last w term instances :
  exists before,
    fetcher_log w term instances
    = (before ++ [closing_line w term instances])%list.
Proof.
  unfold closing_line.
  induction instances as [| instance rest (before & IH)];
    cbn [fetcher_log first_yielding].
  - exists []. reflexivity.
  - destruct (endpoint_yields w term instance) as [divs |] eqn:Ey.
    + exists []. rewrite app_nil_r. unfold endpoint_log.
      unfold endpoint_yields in Ey.
      destruct (http_get w (search_url instance term)) as [e | status ds];
        [discriminate |].
      destruct ds as [| d ds]; [discriminate |].
      destruct (status =? 200); [| discriminate].
      inversion Ey; subst divs. reflexivity.
    + exists (endpoint_log w term instance ++ before)%list.
      rewrite IH, app_assoc. reflexivity.
Qed.

(** X15. The log of the fetcher tells what it did.  For every search
    term the fetcher adds to the log exactly the lines of the endpoints it
    tried, in list order and up to the first endpoint that yields: an error
    line for a request that raised, a warning for a page without entries,
    and no line at all for an answer with a status other than 200.  Its
    last line is the count of the records it returns, with the endpoint
    they came from, or the warning that every endpoint failed when it
    returns nothing. *)
Theorem fetcher_log_matches_result (self : self_t) (term : string)
    (w : world) (st : state) :
  log (snd (_scrape_social_media self term w st))
  = (log st ++ fetcher_log w term nitter_instances)%list
  /\ fst (_scrape_social_media self term w st) = inr (fetched w term)
  /\ exists before,
       fetcher_log w term nitter_instances
       = (before ++ [fetcher_verdict w term])%list.
Proof.
  pose proof (scrape_instances_log term w nitter_instances st) as L.
  destruct (scrape_instances_spec term w nitter_instances st) as (st' & _ & E).
  split; [| split].
  - unfold _scrape_social_media, try_except. rewrite E in *. exact L.
  - destruct (scrape_social_media_spec self term w st) as (st2 & _ & E2).
    rewrite E2. reflexivity.
  - destruct (fetcher_log_last w term nitter_instances) as (before & H).
    exists before. rewrite H. unfold closing_line, fetcher_verdict, fetched.
    destruct (first_yielding w term nitter_instances) as [[instance divs] |];
      [| reflexivity].
    unfold len. rewrite length_map. reflexivity.
Qed.

(** *** The address the fetcher requests *)





Lemma first_yielding_same_answers w1 w2 term instances :
  (forall instance, In instance instances ->
     http_get w1 (search_url instance term)
     = http_get w2 (search_url instance term)) ->
  first_yielding w1 term instances = first_yielding w2 term instances.
Proof.
  induction instances as [| instance rest IH]; intros H;
    cbn [first_yielding]; [reflexivity |].
  unfold endpoint_yields. rewrite (H instance) by now left.
  rewrite IH by (intros i Hi; apply H; now right). reflexivity.
Qed.

(** X17. The fetcher consults the network at the search address of its
    three endpoints and nowhere else: in two environments that answer
    alike on these three addresses it returns the same records, whatever
    else differs between them. *)
Theorem fetcher_asks_its_endpoints_only (self : self_t) (term : string)
    (w1 w2 : world) (st1 st2 : state) :
  same_answers w1 w2 term ->
  fst (_scrape_social_media self term w1 st1)
  = fst (_scrape_social_media self term w2 st2).
Proof.
  intros H.
  destruct (scrape_social_media_spec self term w1 st1) as (s1 & _ & E1).
  destruct (scrape_social_media_spec self term w2 st2) as (s2 & _ & E2).
  rewrite E1, E2. cbn [fst]. unfold fetched.
  rewrite (first_yielding_same_answers w1 w2 term nitter_instances H).
  reflexivity.
Qed.

Lemma fetcher_asks_its_endpoints_only_witness :
  fst (_scrape_social_media (sample_self 7 true) "LoC"
         (one_endpoint_world (HttpResponse 200 one_page)) initial_state)
  = fst (_scrape_social_media (sample_self 7 true) "LoC"
           (one_endpoint_world
              (HttpRaises (Exn RequestException "connection refused")))
           initial_state).
Proof.
  apply (fetcher_asks_its_endpoints_only (sample_self 7 true) "LoC"
           (one_endpoint_world (HttpResponse 200 one_page))
           (one_endpoint_world
              (HttpRaises (Exn RequestException "connection refused")))
           initial_state initial_state).
  intros instance [<- | [<- | [<- | []]]]; reflexivity.
Defined.

(** *** The synthetic posts *)




Lemma four_digits n : 1000 <= n <= 9999 -> digits 4 (str_of_Z n) = true.
Proof.
  intros Hn.
  apply (Z_range_forallb (fun n => digits 4 (str_of_Z n)) 1000 9999);
    [vm_compute; reflexivity | lia].
Qed.

Lemma ensures_randint_range a b w st :
  ensures (randint a b) w st (fun r _ => a <= r <= b).
Proof.
  destruct (Z_lt_le_dec b a) as [Hlt | Hle].
  - unfold ensures. rewrite randint_empty by exact Hlt. exact I.
  - apply returns_ensures. eapply returns_weaken;
      [apply returns_randint; exact Hle |].
    intros r st' (H & _). exact H.
Qed.

Lemma social_generator_handles self search_term w st :
  ensures (_generate_synthetic_social_media self search_term) w st
    (fun l _ => Forall synthetic_handle l).
Proof.
  unfold _generate_synthetic_social_media.
  apply ensures_repeat_collect. intros i st0.
  apply ensures_bind_any. intros candidates st1.
  apply ensures_bind_any. intros t st2.
  apply ensures_bind_any. intros c st3.
  apply ensures_bind_any. intros k st4.
  apply ensures_bind_any. intros now_ st5.
  apply ensures_bind_any. intros d st6.
  apply ensures_bind.
  eapply ensures_weaken; [apply ensures_randint_range |].
  intros n st7 Hn. apply ensures_ret.
  exists (str_of_Z n). split; [reflexivity | apply four_digits; exact Hn].
Qed.

(** X19. Every post the social-media generator returns has a user name
    made of [Synthetic_User_] and exactly four decimal digits, whatever the
    random draws. *)
Theorem synthetic_user_handles (self : self_t) (search_term : string)
    (w : world) (st : state) :
  Forall synthetic_handle
    (records_of (_generate_synthetic_social_media self search_term w st)).
Proof.
  apply records_of_ensures. apply social_generator_handles.
Qed.

Lemma fills_have_no_brace :
  forallb
    (fun kv => forallb (fun t => forallb no_brace (fills variables t)) (snd kv))
    templates = true.
Proof. vm_compute. reflexivity. Qed.

Lemma made_from_template_filled search_term t c :
  made_from_template search_term t c -> no_brace c = true.
Proof.
  intros (candidates & Hc & Ht & Hf).
  pose proof fills_have_no_brace as H. rewrite forallb_forall in H.
  specialize (H _ (dict_get_In _ _ _ Hc)). cbn [snd] in H.
  rewrite forallb_forall in H. specialize (H t Ht).
  rewrite forallb_forall in H. exact (H c Hf).
Qed.

(** X20. No placeholder survives in a synthetic post: whatever the search
    term and the random draws, the content of every post the social-media
    generator returns is one of the texts its template table can produce
    and contains no brace. *)
Theorem synthetic_posts_are_filled (self : self_t) (search_term : string)
    (w : world) (st : state) :
  Forall (fun r => synthetic_post search_term r /\ filled_content r)
    (records_of (_generate_synthetic_social_media self search_term w st)).
Proof.
  apply records_of_ensures.
  eapply ensures_weaken; [apply social_generator_ensures |].
  intros l st' H. cbn beta in H |- *. eapply Forall_impl; [| exact H].
  intros r Hr. split; [exact Hr |].
  destruct Hr as (_ & _ & t & c & Hm & Hc).
  exists c. split; [exact Hc |]. eapply made_from_template_filled. exact Hm.
Qed.

(** *** The name of a placeholder image *)

Lemma prefix_empty s : String.prefix "" s = true.
Proof. destruct s; reflexivity. Qed.

Lemma contains_char_nil c : contains (String c "") "" = false.
Proof. reflexivity. Qed.

Lemma contains_char_cons c a s :
  contains (String c "") (String a s)
  = Ascii.eqb c a || contains (String c "") s.
Proof.
  cbn [contains String.prefix]. destruct (ascii_dec c a) as [-> | Hne].
  - rewrite prefix_empty, Ascii.eqb_refl. reflexivity.
  - apply Ascii.eqb_neq in Hne. rewrite Hne. reflexivity.
Qed.

Lemma contains_char_app c s1 s2 :
  contains (String c "") (s1 ++ s2)
  = contains (String c "") s1 || contains (String c "") s2.
Proof.
  induction s1 as [| a s1 IH]; [reflexivity |].
  change (String a s1 ++ s2) with (String a (s1 ++ s2)).
  rewrite !contains_char_cons, IH, orb_assoc. reflexivity.
Qed.

Lemma replace_space_cons a s :
  replace " " "_" (String a s)
  = String (if Ascii.eqb " " a then "_"%char else a) (replace " " "_" s).
Proof.
  unfold replace. cbn [replace_from String.prefix String.length Nat.sub].
  destruct (ascii_dec " " a) as [<- | Hne].
  - rewrite prefix_empty. reflexivity.
  - apply Ascii.eqb_neq in Hne. rewrite Hne. reflexivity.
Qed.

Lemma replace_space_spec s :
  contains " " (replace " " "_" s) = false
  /\ String.length (replace " " "_" s) = String.length s
  /\ (contains " " s = false -> replace " " "_" s = s).
Proof.
  induction s as [| a s (IH1 & IH2 & IH3)]; [repeat split |].
  rewrite replace_space_cons, !contains_char_cons, IH1.
  cbn [String.length]. rewrite IH2.
  destruct (Ascii.eqb " " a) eqn:E; cbn [orb].
  - repeat split. discriminate.
  - rewrite E. repeat split. intros H. rewrite (IH3 H). reflexivity.
Qed.

Lemma digit_not_space c : is_digit c = true -> Ascii.eqb " " c = false.
Proof.
  destruct c as [[] [] [] [] [] [] [] []]; vm_compute; intros H;
    first [reflexivity | discriminate H].
Qed.

Lemma is_ymd_no_space s : is_ymd s = true -> contains " " s = false.
Proof.
  intros H.
  assert (Hlen : String.length s = 10%nat).
  { unfold is_ymd in H. apply andb_true_iff in H. destruct H as (_ & H).
    apply Nat.eqb_eq in H. exact H. }
  destruct s as [| c0 [| c1 [| c2 [| c3 [| c4 [| c5 [| c6 [| c7 [| c8 [| c9
    [| c10 s]]]]]]]]]]]; try discriminate Hlen.
  unfold is_ymd in H. cbn in H.
  repeat match type of H with
         | _ && _ = true => apply andb_true_iff in H; destruct H as (? & H)
         end.
  repeat match goal with
         | X : _ && _ = true |- _ =>
             apply andb_true_iff in X; destruct X
         end.
  repeat match goal with
         | X : (if Ascii.eqb ?c _ then _ else _) = true |- _ =>
             let E := fresh "E" in
             destruct (Ascii.eqb c _) eqn:E; [| discriminate X];
             apply Ascii.eqb_eq in E; subst c; clear X
         end.
  rewrite !contains_char_cons, contains_char_nil.
  repeat match goal with
         | X : is_digit ?c = true |- _ =>
             rewrite (digit_not_space c X); clear X
         end.
  reflexivity.
Qed.

(** X21. The placeholder image of a site is saved under
    [satellite_images/], under the name of the site with every space
    replaced by an underscore (a name without spaces is used as it is, and
    the length of the name is kept), followed by the end date of the run
    and [_free.jpg]; with an end date of the form YYYY-MM-DD the path
    contains no space, whatever the name of the site. *)
Theorem placeholder_path_has_no_space (self : self_t) (site : site_t) :
  is_ymd (end_date self) = true ->
  contains " " (placeholder_path self site) = false
  /\ exists stem,
       placeholder_path self site
       = "satellite_images/" ++ stem ++ "_" ++ end_date self ++ "_free.jpg"
       /\ String.length stem = String.length (site_name site)
       /\ (contains " " (site_name site) = false -> stem = site_name site).
Proof.
  intros Hd. destruct (replace_space_spec (site_name site)) as (H1 & H2 & H3).
  split.
  - unfold placeholder_path. rewrite !contains_char_app, H1.
    rewrite (is_ymd_no_space _ Hd). reflexivity.
  - exists (replace " " "_" (site_name site)).
    split; [reflexivity |]. split; assumption.
Qed.

Lemma placeholder_path_has_no_space_witness :
  contains " "
    (placeholder_path (sample_self 7 true)
       {| site_name := "Chashma Nuclear Power Plant";
          site_lat := "32.392"; site_lng := "71.458" |}) = false
  /\ exists stem,
       placeholder_path (sample_self 7 true)
         {| site_name := "Chashma Nuclear Power Plant";
            site_lat := "32.392"; site_lng := "71.458" |}
       = "satellite_images/" ++ stem ++ "_"
         ++ end_date (sample_self 7 true) ++ "_free.jpg"
       /\ String.length stem = 27%nat
       /\ (contains " " "Chashma Nuclear Power Plant" = false ->
           stem = "Chashma Nuclear Power Plant").
Proof.
  apply (placeholder_path_has_no_space (sample_self 7 true)
           {| site_name := "Chashma Nuclear Power Plant";
              site_lat := "32.392"; site_lng := "71.458" |}).
  vm_compute. reflexivity.
Defined.

(** *** The synthetic flights *)

Lemma flight_generator_described self area w st :
  ensures (_generate_synthetic_flight_data self area) w st
    (fun l _ => Forall flight_described l).
Proof.
  unfold _generate_synthetic_flight_data.
  apply ensures_repeat_collect. intros i st0.
  apply ensures_bind_any. intros date st1.
  apply ensures_bind. eapply ensures_weaken; [apply ensures_choice |].
  intros a st2 Ha.
  apply ensures_bind_any. intros altitude st3.
  apply ensures_bind_any. intros speed st4.
  apply ensures_ret. split.
  - exists a. split; [exact Ha | reflexivity].
  - destruct (negb (i =? 0)); [left | right]; repeat split.
Qed.

(** X22. Every synthetic flight record names an aircraft type of the
    list of eight, and its three descriptive texts agree: a record with the
    standard pattern has an active transponder and the note of a normal
    movement, a record with the unusual pattern has an intermittent
    transponder and the note that asks for verification. *)
Theorem synthetic_flights_described (self : self_t) (area : string)
    (w : world) (st : state) :
  Forall flight_described
    (records_of (_generate_synthetic_flight_data self area w st)).
Proof.
  apply records_of_ensures. apply flight_generator_described.
Qed.

(** *** The entries the fetcher parses *)





